(** * talk/base/systeminfo.cc: host facts, their sources and their caches

    A shallow embedding of [talk_base::SystemInfo].  Every operating-system
    or hardware facility the class calls is a field of a [Host]; an answer
    may depend on the moment of the call, which is the number of queries
    issued before it.  Each call is appended to a log, so that "queries the
    source" and "does not query again" are statements about the log.

    Conditional compilation is a [Build]: one boolean per preprocessor
    symbol the file tests.  [int] is a 32-bit and [int64] a 64-bit two's
    complement integer; conversions are written out with [to_int32] and
    [to_int64].  Right shift of a negative [int], which the C++ standard
    leaves to the implementation, is the arithmetic shift that the
    compilers of the supported platforms (MSVC, gcc, clang) emit.

    The logging statements (BLOG, LOG_GLE) are left out.  Two facts of the
    process are arguments of the function that reads them: the affinity
    mask of GetCurCpus, and the global locale, which the string stream of
    GetGpuInfo takes when it is constructed. *)

From Stdlib Require Import ZArith List String Ascii Bool Lia.
From Stdlib Require Import DecimalString.
From Stdlib Require Import Permutation.
Import ListNotations.

Local Open Scope string_scope.
Local Open Scope list_scope.
Local Open Scope Z_scope.

(** ** Machine integers *)

Definition to_uint16 (z : Z) : Z := z mod 2 ^ 16.
Definition to_uint32 (z : Z) : Z := z mod 2 ^ 32.
Definition to_int32 (z : Z) : Z := (z + 2 ^ 31) mod 2 ^ 32 - 2 ^ 31.
Definition to_uint64 (z : Z) : Z := z mod 2 ^ 64.
Definition to_int64 (z : Z) : Z := (z + 2 ^ 63) mod 2 ^ 64 - 2 ^ 63.

(** ** Conditional compilation *)

Record Build := mkBuild {
  WIN32 : bool;
  OSX : bool;
  IOS : bool;
  EXCLUDE_D3D9 : bool;
  CPU_ARM : bool;           (* defined by talk/base/basictypes.h *)
  CPU_X86 : bool;           (* defined by talk/base/basictypes.h *)
  def_x86_64 : bool;        (* __x86_64__ || _M_X64 *)
  def_i386 : bool           (* __i386__ || _M_IX86 *)
}.

Inductive Architecture := SI_ARCH_X86 | SI_ARCH_X64 | SI_ARCH_ARM.

(** ** The collaborators *)

Record SYSTEM_INFO := mkSYSTEM_INFO {
  dwNumberOfProcessors : Z;
  wProcessorLevel : Z;
  wProcessorRevision : Z
}.

Inductive Relationship :=
| RelationProcessorCore
| RelationCache (Size : Z)
| RelationOther.

(** One call of [glpi(infos.get(), &return_length)]. *)
Inductive GlpiAnswer :=
| GlpiTrue (infos : list Relationship)
| GlpiInsufficientBuffer
| GlpiError.

Record D3DADAPTER_IDENTIFIER9 := mkIdentifier {
  Driver : string;
  Description : string;
  DeviceName : string;
  DriverVersion_HighPart : Z;
  DriverVersion_LowPart : Z;
  VendorId : Z;
  DeviceId : Z
}.

(** What [IORegistryEntrySearchCFProperty] hands back, by [CFGetTypeID]. *)
Inductive CFTypeRef :=
| CFNull
| CFNumber (n : Z)
| CFString (s : string)
| CFData (bytes : list ascii)
| CFOther.

(** Modelled from the spec: [ProcCpuInfo] (talk/base/linux.h) is not part
    of the source at hand; the spec calls it "a text-based kernel
    information source with a section/key parser", "a fallible synchronous
    function returning either a value or unavailable".  A getter that
    answers [None] leaves the caller's variable as it was. *)
Record ProcCpuInfo := mkProcCpuInfo {
  GetNumCpus : option Z;
  GetNumPhysicalCpus : option Z;
  GetCpuFamily_proc : option Z;
  GetSectionIntValue : Z -> string -> option Z
}.

Record Regs := mkRegs { reg1 : Z; reg2 : Z; reg3 : Z; reg4 : Z }.

Record Host := mkHost {
  (* WIN32 *)
  GetSystemInfo : nat -> SYSTEM_INFO;
  GetProcAddress_glpi : nat -> bool;
  GetLogicalProcessorInformation : nat -> GlpiAnswer;
  RegOpenKeyEx_cpu0 : nat -> bool;
  RegQueryValueEx_Mhz : nat -> option Z;
  GlobalMemoryStatusEx : nat -> option Z;
  LoadLibrary_d3d9 : nat -> bool;
  GetProcAddress_Direct3DCreate9 : nat -> bool;
  Direct3DCreate9 : nat -> bool;
  GetAdapterIdentifier : nat -> option D3DADAPTER_IDENTIFIER9;
  (* OSX, IOS: [None] is a non-zero return of sysctlbyname *)
  sysctl_int : string -> nat -> option Z;
  sysctl_str : string -> nat -> option string;
  IORegistryEntrySearchCFProperty : string -> nat -> CFTypeRef;
  (* LINUX, ANDROID *)
  LoadFromSystem : nat -> option ProcCpuInfo;
  ReadCpuMaxFreq : nat -> Z;
  sysconf : string -> nat -> Z;
  (* the cpuid instruction: leaf, then the four registers *)
  cpuid : Z -> nat -> Regs
}.

Inductive Query :=
| QGetSystemInfo
| QGetProcAddress (name : string)
| QGetLogicalProcessorInformation
| QRegOpenKeyEx
| QRegQueryValueEx
| QGlobalMemoryStatusEx
| QLoadLibrary
| QDirect3DCreate9
| QGetAdapterIdentifier
| QSysctl (name : string)
| QIOKit (name : string)
| QLoadFromSystem
| QReadCpuMaxFreq
| QSysconf (name : string)
| QCpuid (leaf : Z).

(** ** The instance *)

Record SystemInfo := mkSystemInfo {
  physical_cpus_ : Z;
  logical_cpus_ : Z;
  cache_size_ : Z;
  cpu_arch_ : Architecture;
  cpu_vendor_ : string;
  cpu_family_ : Z;
  cpu_model_ : Z;
  cpu_stepping_ : Z;
  cpu_speed_ : Z;
  memory_ : Z;
  machine_model_ : string
}.

Record GpuInfo := mkGpuInfo {
  device_name : string;
  description : string;
  vendor_id : Z;
  device_id : Z;
  driver : string;
  driver_version : string
}.

(** The instance together with the log of the queries issued so far. *)
Record St := mkSt {
  this : SystemInfo;
  log : list Query
}.

Definition M (A : Type) : Type := St -> A * St.

Definition ret {A} (a : A) : M A := fun s => (a, s).
Definition bind {A B} (m : M A) (k : A -> M B) : M B :=
  fun s => let (a, s') := m s in k a s'.

Notation "x <- m ;; k" := (bind m (fun x => k))
  (at level 61, m at next level, right associativity).
Notation "m ;;; k" := (bind m (fun _ => k))
  (at level 61, right associativity).

(** A query reads the answer of the moment and is logged. *)
Definition ask {A} (q : Query) (answer : nat -> A) : M A :=
  fun s => (answer (List.length (log s)), mkSt (this s) (log s ++ [q])).

Definition get {A} (f : SystemInfo -> A) : M A := fun s => (f (this s), s).
Definition modify (f : SystemInfo -> SystemInfo) : M unit :=
  fun s => (tt, mkSt (f (this s)) (log s)).
Definition when (c : bool) (m : M unit) : M unit := if c then m else ret tt.

Definition set_physical_cpus (v : Z) (o : SystemInfo) : SystemInfo :=
  mkSystemInfo v (logical_cpus_ o) (cache_size_ o) (cpu_arch_ o)
    (cpu_vendor_ o) (cpu_family_ o) (cpu_model_ o) (cpu_stepping_ o)
    (cpu_speed_ o) (memory_ o) (machine_model_ o).
Definition set_logical_cpus (v : Z) (o : SystemInfo) : SystemInfo :=
  mkSystemInfo (physical_cpus_ o) v (cache_size_ o) (cpu_arch_ o)
    (cpu_vendor_ o) (cpu_family_ o) (cpu_model_ o) (cpu_stepping_ o)
    (cpu_speed_ o) (memory_ o) (machine_model_ o).
Definition set_cache_size (v : Z) (o : SystemInfo) : SystemInfo :=
  mkSystemInfo (physical_cpus_ o) (logical_cpus_ o) v (cpu_arch_ o)
    (cpu_vendor_ o) (cpu_family_ o) (cpu_model_ o) (cpu_stepping_ o)
    (cpu_speed_ o) (memory_ o) (machine_model_ o).
Definition set_cpu_vendor (v : string) (o : SystemInfo) : SystemInfo :=
  mkSystemInfo (physical_cpus_ o) (logical_cpus_ o) (cache_size_ o)
    (cpu_arch_ o) v (cpu_family_ o) (cpu_model_ o) (cpu_stepping_ o)
    (cpu_speed_ o) (memory_ o) (machine_model_ o).
Definition set_cpu_family (v : Z) (o : SystemInfo) : SystemInfo :=
  mkSystemInfo (physical_cpus_ o) (logical_cpus_ o) (cache_size_ o)
    (cpu_arch_ o) (cpu_vendor_ o) v (cpu_model_ o) (cpu_stepping_ o)
    (cpu_speed_ o) (memory_ o) (machine_model_ o).
Definition set_cpu_model (v : Z) (o : SystemInfo) : SystemInfo :=
  mkSystemInfo (physical_cpus_ o) (logical_cpus_ o) (cache_size_ o)
    (cpu_arch_ o) (cpu_vendor_ o) (cpu_family_ o) v (cpu_stepping_ o)
    (cpu_speed_ o) (memory_ o) (machine_model_ o).
Definition set_cpu_stepping (v : Z) (o : SystemInfo) : SystemInfo :=
  mkSystemInfo (physical_cpus_ o) (logical_cpus_ o) (cache_size_ o)
    (cpu_arch_ o) (cpu_vendor_ o) (cpu_family_ o) (cpu_model_ o) v
    (cpu_speed_ o) (memory_ o) (machine_model_ o).
Definition set_cpu_speed (v : Z) (o : SystemInfo) : SystemInfo :=
  mkSystemInfo (physical_cpus_ o) (logical_cpus_ o) (cache_size_ o)
    (cpu_arch_ o) (cpu_vendor_ o) (cpu_family_ o) (cpu_model_ o)
    (cpu_stepping_ o) v (memory_ o) (machine_model_ o).
Definition set_memory (v : Z) (o : SystemInfo) : SystemInfo :=
  mkSystemInfo (physical_cpus_ o) (logical_cpus_ o) (cache_size_ o)
    (cpu_arch_ o) (cpu_vendor_ o) (cpu_family_ o) (cpu_model_ o)
    (cpu_stepping_ o) (cpu_speed_ o) v (machine_model_ o).
Definition set_machine_model (v : string) (o : SystemInfo) : SystemInfo :=
  mkSystemInfo (physical_cpus_ o) (logical_cpus_ o) (cache_size_ o)
    (cpu_arch_ o) (cpu_vendor_ o) (cpu_family_ o) (cpu_model_ o)
    (cpu_stepping_ o) (cpu_speed_ o) (memory_ o) v.

(** A getter of the form [bool Get(int* out)]: the variable is written
    only when the source has a value. *)
Definition store (setter : Z -> SystemInfo -> SystemInfo) (v : option Z)
  : M unit :=
  match v with
  | Some z => modify (setter (to_int32 z))
  | None => ret tt
  end.

(** [sysctlbyname("hw.memsize", &memory_, ...)] writes the eight bytes of
    the answer over [memory_]; on error the field is not written. *)
Definition store_memsize (v : option Z) : M unit :=
  match v with
  | Some z => modify (set_memory (to_int64 z))
  | None => ret tt
  end.

(** ** Strings and bytes *)

Definition NUL : ascii := Ascii.zero.

Definition is_NUL (c : ascii) : bool := Ascii.eqb c NUL.

(** The four bytes of a 32-bit word in memory; x86 is little-endian. *)
Definition byte_at (x : Z) (i : Z) : ascii :=
  ascii_of_N (Z.to_N (Z.land (Z.shiftr x (8 * i)) 255)).

Definition bytes_of_int (x : Z) : list ascii :=
  [byte_at x 0; byte_at x 1; byte_at x 2; byte_at x 3].

(** [std::string] built from a C string: the bytes before the first NUL. *)
Fixpoint c_str (bs : list ascii) : string :=
  match bs with
  | [] => EmptyString
  | c :: rest => if is_NUL c then EmptyString else String c (c_str rest)
  end.

Fixpoint string_of_bytes (bs : list ascii) : string :=
  match bs with
  | [] => EmptyString
  | c :: rest => String c (string_of_bytes rest)
  end.

Definition empty (s : string) : bool :=
  match s with EmptyString => true | String _ _ => false end.

(** The decimal digits of an unsigned integer: what the conversion of
    [operator<<] yields before the locale of the stream is applied. *)
Definition dec (n : Z) : string := NilZero.string_of_uint (N.to_uint (Z.to_N n)).

(** The [numpunct] facet of a locale, as far as integers are concerned:
    the separator and the sizes of the groups of digits, counted from the
    right.  The last size repeats; no size, or a size of 0, ends the
    grouping. *)
Record numpunct := mkNumpunct {
  thousands_sep : ascii;
  grouping : list nat
}.

(** The classic locale, which is the global locale of a process that sets
    no other: no grouping. *)
Definition classic : numpunct := mkNumpunct "," [].

(** The digits arrive least significant first.  Every round takes one
    group of at least one digit, so as many rounds as digits are enough. *)
Fixpoint add_grouping (rounds : nat) (sep : ascii) (sizes : list nat)
                      (digits : list ascii) : list ascii :=
  match rounds with
  | O => digits
  | S rounds' =>
      match sizes with
      | [] => digits
      | g :: rest =>
          if (g =? 0)%nat then digits
          else if (List.length digits <=? g)%nat then digits
          else firstn g digits
               ++ sep :: add_grouping rounds' sep
                                      (match rest with
                                       | [] => [g]
                                       | _ :: _ => rest
                                       end)
                                      (skipn g digits)
      end
  end.

(** [operator<<] of an unsigned integer into a [std::stringstream] whose
    locale is [loc]: the decimal digits, grouped as the locale has it. *)
Definition put (loc : numpunct) (n : Z) : string :=
  let digits := rev (list_ascii_of_string (dec n)) in
  string_of_list_ascii
    (rev (add_grouping (List.length digits) (thousands_sep loc) (grouping loc)
                       digits)).

(** Modelled from the spec: [HIWORD] and [LOWORD] come from the Windows
    headers, which are not part of the source at hand; the spec has "four
    16-bit fields packed into two 32-bit version words", the high word and
    the low word of each.  Both yield a [WORD], an unsigned 16-bit value. *)
Definition HIWORD (l : Z) : Z := Z.land (Z.shiftr l 16) 65535.
Definition LOWORD (l : Z) : Z := Z.land l 65535.

(** The bytes of a [CFData] of [sizeof(UInt32)] bytes, read as one word. *)
Definition uint32_of_bytes (bs : list ascii) : Z :=
  match bs with
  | [b0; b1; b2; b3] =>
      Z.of_N (N_of_ascii b0) + 256 * Z.of_N (N_of_ascii b1)
      + 65536 * Z.of_N (N_of_ascii b2) + 16777216 * Z.of_N (N_of_ascii b3)
  | _ => 0
  end.

(** ** The program *)

Section Program.

Variable b : Build.
Variable h : Host.

Definition __cpuid (info_type : Z) : M Regs :=
  ask (QCpuid info_type)
      (fun t => let r := cpuid h info_type t in
                mkRegs (to_int32 (reg1 r)) (to_int32 (reg2 r))
                       (to_int32 (reg3 r)) (to_int32 (reg4 r))).

Definition sysctlbyname (name : string) : M (option Z) :=
  ask (QSysctl name) (sysctl_int h name).

(** *** GetProcessorInformation (WIN32) *)

(** The loop over the entries.  [return_length] is a DWORD of bytes, so
    there are fewer than 2^28 entries and [++physical_cpus] cannot wrap. *)
Fixpoint scan_infos (infos : list Relationship) (physical_cpus cache_size : Z)
  : Z * Z :=
  match infos with
  | [] => (physical_cpus, cache_size)
  | RelationProcessorCore :: rest =>
      scan_infos rest (physical_cpus + 1) cache_size
  | RelationCache Size :: rest =>
      let next_cache_size := to_int32 Size in
      scan_infos rest physical_cpus
        (if next_cache_size >=? cache_size then next_cache_size
         else cache_size)
  | RelationOther :: rest => scan_infos rest physical_cpus cache_size
  end.

(** [while (!glpi(infos.get(), &return_length))]: the loop ends when the
    call succeeds or fails for another reason than the buffer size.
    [None] when [fuel] calls were not enough. *)
Fixpoint glpi_loop (fuel : nat) (s : St)
  : option (option (list Relationship) * St) :=
  match fuel with
  | O => None
  | S fuel' =>
      let (a, s') :=
        ask QGetLogicalProcessorInformation
            (GetLogicalProcessorInformation h) s in
      match a with
      | GlpiTrue infos => Some (Some infos, s')
      | GlpiInsufficientBuffer => glpi_loop fuel' s'
      | GlpiError => Some (None, s')
      end
  end.

Definition GetProcessorInformation (fuel : nat) (s : St) : option St :=
  let (glpi, s1) :=
    ask (QGetProcAddress "GetLogicalProcessorInformation")
        (GetProcAddress_glpi h) s in
  if negb glpi then Some s1
  else
    match glpi_loop fuel s1 with
    | None => None
    | Some (None, s2) => Some s2
    | Some (Some infos, s2) =>
        let (physical_cpus, cache_size) := scan_infos infos 0 0 in
        Some (mkSt (set_cache_size cache_size
                      (set_physical_cpus physical_cpus (this s2)))
                   (log s2))
    end.

(** *** SystemInfo::SystemInfo *)

(** [#error "Unknown architecture."] is [None]. *)
Definition cpu_arch_of_build : option Architecture :=
  if CPU_ARM b then Some SI_ARCH_ARM
  else if def_x86_64 b then Some SI_ARCH_X64
  else if def_i386 b then Some SI_ARCH_X86
  else None.

Definition initializers (arch : Architecture) : SystemInfo :=
  mkSystemInfo 1 1 0 arch "" 0 0 0 0 0 "".

Definition ctor_win32_rest (si : SYSTEM_INFO) : M unit :=
  physical_cpus <- get physical_cpus_ ;;
  when (physical_cpus <=? 0)
       (logical_cpus <- get logical_cpus_ ;;
        modify (set_physical_cpus logical_cpus)) ;;;
  modify (set_cpu_family (to_uint16 (wProcessorLevel si))) ;;;
  modify (set_cpu_model (Z.shiftr (to_uint16 (wProcessorRevision si)) 8)) ;;;
  modify (set_cpu_stepping (Z.land (to_uint16 (wProcessorRevision si)) 255)).

Definition ctor_win32 (fuel : nat) (s : St) : option St :=
  let (si, s1) := ask QGetSystemInfo (GetSystemInfo h) s in
  let s2 :=
    snd (modify (set_logical_cpus
                   (to_int32 (to_uint32 (dwNumberOfProcessors si)))) s1) in
  match GetProcessorInformation fuel s2 with
  | None => None
  | Some s3 => Some (snd (ctor_win32_rest si s3))
  end.

Definition ctor_apple : M unit :=
  v <- sysctlbyname "hw.physicalcpu_max" ;;
  store set_physical_cpus v ;;;
  v <- sysctlbyname "hw.logicalcpu_max" ;;
  store set_logical_cpus v ;;;
  v <- sysctlbyname "hw.l3cachesize" ;;
  store set_cache_size v ;;;
  cache_size <- get cache_size_ ;;
  when (cache_size =? 0)
       (v <- sysctlbyname "hw.l2cachesize" ;;
        store set_cache_size v) ;;;
  v <- sysctlbyname "machdep.cpu.family" ;;
  store set_cpu_family v ;;;
  v <- sysctlbyname "machdep.cpu.model" ;;
  store set_cpu_model v ;;;
  v <- sysctlbyname "machdep.cpu.stepping" ;;
  store set_cpu_stepping v.

Definition ctor_linux : M unit :=
  loaded <- ask QLoadFromSystem (LoadFromSystem h) ;;
  match loaded with
  | Some proc_info =>
      store set_logical_cpus (GetNumCpus proc_info) ;;;
      store set_physical_cpus (GetNumPhysicalCpus proc_info) ;;;
      store set_cpu_family (GetCpuFamily_proc proc_info) ;;;
      when (negb (CPU_ARM b))
           (store set_cpu_model (GetSectionIntValue proc_info 0 "model") ;;;
            store set_cpu_stepping
                  (GetSectionIntValue proc_info 0 "stepping") ;;;
            store set_cpu_speed (GetSectionIntValue proc_info 0 "cpu MHz") ;;;
            store set_cache_size
                  (GetSectionIntValue proc_info 0 "cache size") ;;;
            cache_size <- get cache_size_ ;;
            modify (set_cache_size (to_int32 (cache_size * 1024))))
  | None => ret tt
  end ;;;
  max_freq <- ask QReadCpuMaxFreq (fun t => to_int32 (ReadCpuMaxFreq h t)) ;;
  when (max_freq >? 0) (modify (set_cpu_speed (Z.quot max_freq 1000))).

(** [#ifdef CPU_X86]: the L2 size of extended leaf 0x80000006.
    [cpu_info[2] >> 16] lies between -32768 and 32767, so the product
    fits an [int]. *)
Definition ctor_cpuid : M unit :=
  when (CPU_X86 b)
       (cache_size <- get cache_size_ ;;
        when (cache_size =? 0)
             (cpu_info <- __cpuid 0x80000000 ;;
              when (to_uint32 (reg1 cpu_info) >=? 0x80000006)
                   (cpu_info <- __cpuid 0x80000006 ;;
                    modify (set_cache_size
                              (Z.shiftr (reg3 cpu_info) 16 * 1024))))).

(** The instance after construction, with the log of what construction
    asked.  [None]: the build is refused by [#error], or the buffer loop
    of [GetProcessorInformation] needs more than [fuel] calls. *)
Definition SystemInfo_ctor (fuel : nat) : option St :=
  match cpu_arch_of_build with
  | None => None
  | Some arch =>
      let s0 := mkSt (initializers arch) [] in
      match (if WIN32 b then ctor_win32 fuel s0
             else if OSX b || IOS b then Some (snd (ctor_apple s0))
             else Some (snd (ctor_linux s0))) with
      | None => None
      | Some s1 => Some (snd (ctor_cpuid s1))
      end
  end.

(** *** The accessors *)

Definition GetMaxCpus : M Z := get logical_cpus_.
Definition GetMaxPhysicalCpus : M Z := get physical_cpus_.
Definition GetCpuArchitecture : M Architecture := get cpu_arch_.

Definition GetCpuVendor : M string :=
  cpu_vendor <- get cpu_vendor_ ;;
  when (empty cpu_vendor)
       (if CPU_X86 b then
          cpu_info <- __cpuid 0 ;;
          (* reorder: cpu_info[0..3] := cpu_info[1], cpu_info[3],
             cpu_info[2], 0 *)
          modify (set_cpu_vendor
                    (c_str (bytes_of_int (reg2 cpu_info)
                            ++ bytes_of_int (reg4 cpu_info)
                            ++ bytes_of_int (reg3 cpu_info)
                            ++ bytes_of_int 0)))
        else if CPU_ARM b then modify (set_cpu_vendor "ARM")
        else modify (set_cpu_vendor "Undefined")) ;;;
  get cpu_vendor_.

Definition GetCpuCacheSize : M Z := get cache_size_.
Definition GetCpuFamily : M Z := get cpu_family_.
Definition GetCpuModel : M Z := get cpu_model_.
Definition GetCpuStepping : M Z := get cpu_stepping_.

Definition GetMaxCpuSpeed : M Z :=
  cpu_speed <- get cpu_speed_ ;;
  if negb (cpu_speed =? 0) then ret cpu_speed
  else
    (if WIN32 b then
       opened <- ask QRegOpenKeyEx (RegOpenKeyEx_cpu0 h) ;;
       if (opened : bool) then
         data <- ask QRegQueryValueEx (RegQueryValueEx_Mhz h) ;;
         match data with
         | Some d => modify (set_cpu_speed (to_int32 (to_uint32 d)))
         | None => modify (set_cpu_speed (-1))
         end
       else modify (set_cpu_speed (-1))
     else if IOS b || OSX b then
       v <- sysctlbyname "hw.cpufrequency_max" ;;
       modify (set_cpu_speed
                 match v with
                 | Some sysctl_value =>
                     to_int32 (to_uint64 sysctl_value / 1000000)
                 | None => -1
                 end)
     else modify (set_cpu_speed 0)) ;;;
    get cpu_speed_.

Definition GetCurCpuSpeed : M Z :=
  if WIN32 b then GetMaxCpuSpeed
  else if IOS b || OSX b then
    v <- sysctlbyname "hw.cpufrequency" ;;
    match v with
    | Some sysctl_value => ret (to_int32 (to_uint64 sysctl_value / 1000000))
    | None => GetMaxCpuSpeed
    end
  else GetMaxCpuSpeed.

Definition GetMemorySize : M Z :=
  memory <- get memory_ ;;
  if negb (memory =? 0) then ret memory
  else
    (if WIN32 b then
       status <- ask QGlobalMemoryStatusEx (GlobalMemoryStatusEx h) ;;
       match status with
       | Some ullTotalPhys => modify (set_memory (to_int64 ullTotalPhys))
       | None => modify (set_memory (-1))
       end
     else if OSX b || IOS b then
       v <- sysctlbyname "hw.memsize" ;;
       (* sysctlbyname writes into memory_ itself *)
       store_memsize v ;;;
       memory <- get memory_ ;;
       when (match v with None => true | Some _ => false end
             || (memory =? 0))
            (modify (set_memory (-1)))
     else
       pages <- ask (QSysconf "_SC_PHYS_PAGES") (sysconf h "_SC_PHYS_PAGES") ;;
       size <- ask (QSysconf "_SC_PAGESIZE") (sysconf h "_SC_PAGESIZE") ;;
       modify (set_memory (to_int64 (to_int64 pages * to_int64 size))) ;;;
       memory <- get memory_ ;;
       when (memory <? 0) (modify (set_memory (-1)))) ;;;
    get memory_.

(** [hw.model] answers with the text and its terminating NUL, and
    [length] counts both; [assign(buffer, length - 1)] keeps the text. *)
Definition GetMachineModel : M string :=
  machine_model <- get machine_model_ ;;
  if negb (empty machine_model) then ret machine_model
  else
    (if OSX b || IOS b then
       buffer <- ask (QSysctl "hw.model") (sysctl_str h "hw.model") ;;
       match buffer with
       | Some text => modify (set_machine_model text)
       | None => modify (set_machine_model "")
       end
     else modify (set_machine_model "Not available")) ;;;
    get machine_model_.

(** *** GetGpuInfo *)

(** The two overloads of [GetProperty] (OSX): the value is written only
    when the property is found and has one of the two expected types. *)
Definition GetProperty_int (name : string) (value : Z) : M Z :=
  ref <- ask (QIOKit name) (IORegistryEntrySearchCFProperty h name) ;;
  ret match ref with
      | CFNumber n => to_int32 n
      | CFData data =>
          if (List.length data =? 4)%nat
          then to_int32 (uint32_of_bytes data) else value
      | _ => value
      end.

Definition GetProperty_string (name : string) (value : string) : M string :=
  ref <- ask (QIOKit name) (IORegistryEntrySearchCFProperty h name) ;;
  ret match ref with
      | CFString s => s
      | CFData data => string_of_bytes data
      | _ => value
      end.

Definition GetAdapterIdentifier_default : M (option D3DADAPTER_IDENTIFIER9) :=
  d3d_lib <- ask QLoadLibrary (LoadLibrary_d3d9 h) ;;
  if (d3d_lib : bool) then
    d3d_create_proc <- ask (QGetProcAddress "Direct3DCreate9")
                           (GetProcAddress_Direct3DCreate9 h) ;;
    if (d3d_create_proc : bool) then
      d3d <- ask QDirect3DCreate9 (Direct3DCreate9 h) ;;
      if (d3d : bool) then ask QGetAdapterIdentifier (GetAdapterIdentifier h)
      else ret None
    else ret None
  else ret None.

(** [info] is the pointer: [None] is the null pointer, [Some i] points to
    a struct holding [i].  The result is the return value and the struct
    after the call.  [loc] is the global locale of the process at the call:
    [std::stringstream ss] is constructed with it. *)
Definition GetGpuInfo (loc : numpunct) (info : option GpuInfo)
  : M (bool * option GpuInfo) :=
  match info with
  | None => ret (false, None)
  | Some i =>
      if WIN32 b && negb (EXCLUDE_D3D9 b) then
        hr <- GetAdapterIdentifier_default ;;
        match hr with
        | None => ret (false, Some i)
        | Some identifier =>
            ret (true,
                 Some (mkGpuInfo
                         (DeviceName identifier)
                         (Description identifier)
                         (to_int32 (to_uint32 (VendorId identifier)))
                         (to_int32 (to_uint32 (DeviceId identifier)))
                         (Driver identifier)
                         (put loc (HIWORD (DriverVersion_HighPart identifier))
                          ++ "."
                          ++ put loc (LOWORD (DriverVersion_HighPart identifier))
                          ++ "."
                          ++ put loc (HIWORD (DriverVersion_LowPart identifier))
                          ++ "."
                          ++ put loc (LOWORD (DriverVersion_LowPart identifier)))
                         %string))
        end
      else if OSX b then
        v <- GetProperty_int "vendor-id" (vendor_id i) ;;
        d <- GetProperty_int "device-id" (device_id i) ;;
        m <- GetProperty_string "model" (description i) ;;
        ret (true,
             Some (mkGpuInfo (device_name i) m v d (driver i)
                             (driver_version i)))
      else ret (false, Some i)
  end.

End Program.

(** *** GetCurCpus *)

(** [for (cur_cpus = 0; process_mask; ++cur_cpus)
      process_mask &= (process_mask - 1);]
    Each round clears the lowest set bit of the mask.  [fuel] bounds the
    rounds; a DWORD_PTR has at most 64 bits, and [sparse_ones_is_popcount]
    shows that 64 rounds are enough for it. *)
Fixpoint sparse_ones (fuel : nat) (process_mask cur_cpus : Z) : Z :=
  match fuel with
  | O => cur_cpus
  | S fuel' =>
      if process_mask =? 0 then cur_cpus
      else sparse_ones fuel' (Z.land process_mask (process_mask - 1))
                       (cur_cpus + 1)
  end.

Section CurCpus.

Variable b : Build.
Variable h : Host.

(** [process_mask] is what [GetProcessAffinityMask] stored for the current
    process; the call itself is not logged. *)
Definition GetCurCpus (process_mask : Z) : M Z :=
  if WIN32 b then ret (sparse_ones 64 (to_uint64 process_mask) 0)
  else if OSX b || IOS b then
    v <- sysctlbyname h "hw.ncpu" ;;
    ret match v with
        | Some sysctl_value => to_int32 sysctl_value
        | None => 1
        end
  else
    v <- ask (QSysconf "_SC_NPROCESSORS_ONLN")
             (sysconf h "_SC_NPROCESSORS_ONLN") ;;
    ret (to_int32 v).

End CurCpus.

(** ** Calling an accessor again and again *)

Fixpoint repeat_call {A} (m : M A) (n : nat) : M (list A) :=
  match n with
  | O => ret []
  | S n' => a <- m ;; rest <- repeat_call m n' ;; ret (a :: rest)
  end.

(** The accessors the interface documents as stable, and what they
    return. *)
Inductive Accessor :=
| AGetMaxCpus
| AGetMaxPhysicalCpus
| AGetCpuArchitecture
| AGetCpuVendor
| AGetCpuCacheSize
| AGetCpuFamily
| AGetCpuModel
| AGetCpuStepping
| AGetMaxCpuSpeed
| AGetMemorySize
| AGetMachineModel.

Inductive Value :=
| VInt (z : Z)
| VString (s : string)
| VArch (a : Architecture).

Definition fmap {A B} (f : A -> B) (m : M A) : M B := a <- m ;; ret (f a).

Definition call (b : Build) (h : Host) (a : Accessor) : M Value :=
  match a with
  | AGetMaxCpus => fmap VInt GetMaxCpus
  | AGetMaxPhysicalCpus => fmap VInt GetMaxPhysicalCpus
  | AGetCpuArchitecture => fmap VArch GetCpuArchitecture
  | AGetCpuVendor => fmap VString (GetCpuVendor b h)
  | AGetCpuCacheSize => fmap VInt GetCpuCacheSize
  | AGetCpuFamily => fmap VInt GetCpuFamily
  | AGetCpuModel => fmap VInt GetCpuModel
  | AGetCpuStepping => fmap VInt GetCpuStepping
  | AGetMaxCpuSpeed => fmap VInt (GetMaxCpuSpeed b h)
  | AGetMemorySize => fmap VInt (GetMemorySize b h)
  | AGetMachineModel => fmap VString (GetMachineModel b h)
  end.

(** Every operation of the class that is modelled here. *)
Inductive Operation :=
| OpStable (a : Accessor)
| OpGetCurCpuSpeed
| OpGetGpuInfo (loc : numpunct) (info : option GpuInfo).

Definition perform (b : Build) (h : Host) (op : Operation) (s : St) : St :=
  match op with
  | OpStable a => snd (call b h a s)
  | OpGetCurCpuSpeed => snd (GetCurCpuSpeed b h s)
  | OpGetGpuInfo loc info => snd (GetGpuInfo b h loc info s)
  end.

Definition perform_all (b : Build) (h : Host) (ops : list Operation) (s : St)
  : St :=
  fold_left (fun s op => perform b h op s) ops s.

(** * The vocabulary of the properties *)

(** The four accessors of the identity fields, and the field each of them
    reads. *)
Inductive IdentityAccessor :=
| IGetCpuFamily
| IGetCpuModel
| IGetCpuStepping
| IGetCpuCacheSize.

Definition stable_of (i : IdentityAccessor) : Accessor :=
  match i with
  | IGetCpuFamily => AGetCpuFamily
  | IGetCpuModel => AGetCpuModel
  | IGetCpuStepping => AGetCpuStepping
  | IGetCpuCacheSize => AGetCpuCacheSize
  end.

Definition identity_field (i : IdentityAccessor) (o : SystemInfo) : Z :=
  match i with
  | IGetCpuFamily => cpu_family_ o
  | IGetCpuModel => cpu_model_ o
  | IGetCpuStepping => cpu_stepping_ o
  | IGetCpuCacheSize => cache_size_ o
  end.

(** What a lazily cached accessor computes on a cache miss: the value it
    resolves at moment [t], and the queries it issues for that.  The
    lemmas [GetCpuVendor_miss], [GetMaxCpuSpeed_miss], [GetMemorySize_miss]
    and [GetMachineModel_miss] prove that the accessors compute these. *)
Definition resolve_vendor (b : Build) (h : Host) (t : nat)
  : string * list Query :=
  if CPU_X86 b then
    (let r := cpuid h 0 t in
     c_str (bytes_of_int (to_int32 (reg2 r)) ++ bytes_of_int (to_int32 (reg4 r))
            ++ bytes_of_int (to_int32 (reg3 r)) ++ bytes_of_int 0),
     [QCpuid 0])
  else if CPU_ARM b then ("ARM", [])
  else ("Undefined", []).

Definition resolve_speed (b : Build) (h : Host) (t : nat) : Z * list Query :=
  if WIN32 b then
    if RegOpenKeyEx_cpu0 h t then
      (match RegQueryValueEx_Mhz h (S t) with
       | Some d => to_int32 (to_uint32 d)
       | None => -1
       end, [QRegOpenKeyEx; QRegQueryValueEx])
    else (-1, [QRegOpenKeyEx])
  else if IOS b || OSX b then
    (match sysctl_int h "hw.cpufrequency_max" t with
     | Some v => to_int32 (to_uint64 v / 1000000)
     | None => -1
     end, [QSysctl "hw.cpufrequency_max"])
  else (0, []).

Definition resolve_memory (b : Build) (h : Host) (t : nat) : Z * list Query :=
  if WIN32 b then
    (match GlobalMemoryStatusEx h t with
     | Some v => to_int64 v
     | None => -1
     end, [QGlobalMemoryStatusEx])
  else if OSX b || IOS b then
    (match sysctl_int h "hw.memsize" t with
     | Some v => if to_int64 v =? 0 then -1 else to_int64 v
     | None => -1
     end, [QSysctl "hw.memsize"])
  else
    (let m := to_int64 (to_int64 (sysconf h "_SC_PHYS_PAGES" t)
                        * to_int64 (sysconf h "_SC_PAGESIZE" (S t))) in
     if m <? 0 then -1 else m,
     [QSysconf "_SC_PHYS_PAGES"; QSysconf "_SC_PAGESIZE"]).

Definition resolve_model (b : Build) (h : Host) (t : nat)
  : string * list Query :=
  if OSX b || IOS b then
    (match sysctl_str h "hw.model" t with
     | Some text => text
     | None => ""
     end, [QSysctl "hw.model"])
  else ("Not available", []).

(** The twelve bytes of the vendor tag, in the order of the reordered
    array: second, fourth, third register. *)
Definition tag_bytes (r : Regs) : list ascii :=
  bytes_of_int (reg2 r) ++ bytes_of_int (reg4 r) ++ bytes_of_int (reg3 r).

(** The source of the nominal speed fails at moment [t]: the registry key
    cannot be opened or the value cannot be read (WIN32), sysctlbyname
    reports an error (IOS, OSX).  The remaining branch has no source. *)
Definition speed_source_fails (b : Build) (h : Host) (t : nat) : bool :=
  if WIN32 b then
    negb (RegOpenKeyEx_cpu0 h t)
    || match RegQueryValueEx_Mhz h (S t) with
       | None => true
       | Some _ => false
       end
  else if IOS b || OSX b then
    match sysctl_int h "hw.cpufrequency_max" t with
    | None => true
    | Some _ => false
    end
  else false.

(** The pattern of the driver version. *)
Definition is_digit (c : ascii) : bool :=
  let n := N_of_ascii c in ((48 <=? n) && (n <=? 57))%N.




(** The same pattern as a matcher.  A digit is not a dot, so taking the
    longest run of digits loses no match. *)
Fixpoint skip_digits (s : string) : string :=
  match s with
  | EmptyString => s
  | String c rest => if is_digit c then skip_digits rest else s
  end.

Definition digits (s : string) : option string :=
  match s with
  | EmptyString => None
  | String c rest => if is_digit c then Some (skip_digits rest) else None
  end.




(** [#if defined(WIN32) && !defined(EXCLUDE_D3D9)] *)
Definition uses_d3d9 (b : Build) : bool := WIN32 b && negb (EXCLUDE_D3D9 b).






(** The value tells that the field behind it is set: a zero number and an
    empty string are how the class marks a field that is not resolved. *)
Definition is_set (v : Value) : bool :=
  match v with
  | VInt z => negb (z =? 0)
  | VString s => negb (empty s)
  | VArch _ => true
  end.

(** Filled by the constructor (or fixed by the build) and only read by
    the accessor. *)
Definition read_only (a : Accessor) : bool :=
  match a with
  | AGetCpuVendor | AGetMaxCpuSpeed | AGetMemorySize | AGetMachineModel =>
      false
  | _ => true
  end.

(** The sources the lazily cached accessors ask give the same answer at
    every moment. *)
Record steady (h : Host) : Prop := mkSteady {
  steady_cpuid : forall leaf t t', cpuid h leaf t = cpuid h leaf t';
  steady_RegOpenKeyEx : forall t t', RegOpenKeyEx_cpu0 h t = RegOpenKeyEx_cpu0 h t';
  steady_RegQueryValueEx :
    forall t t', RegQueryValueEx_Mhz h t = RegQueryValueEx_Mhz h t';
  steady_GlobalMemoryStatusEx :
    forall t t', GlobalMemoryStatusEx h t = GlobalMemoryStatusEx h t';
  steady_sysctl_int : forall name t t', sysctl_int h name t = sysctl_int h name t';
  steady_sysctl_str : forall name t t', sysctl_str h name t = sysctl_str h name t';
  steady_sysconf : forall name t t', sysconf h name t = sysconf h name t'
}.

(** The source that the accessor asks answers at moment [t2] what it
    answered at moment [t1].  A lazily cached accessor that finds its
    field unset at moment [t] asks its source at [t], and GetMaxCpuSpeed
    (WIN32) and GetMemorySize (LINUX) ask a second time at [S t]. *)
Definition same_answers (b : Build) (h : Host) (a : Accessor) (t1 t2 : nat)
  : Prop :=
  match a with
  | AGetCpuVendor => if CPU_X86 b then cpuid h 0 t1 = cpuid h 0 t2 else True
  | AGetMaxCpuSpeed =>
      if WIN32 b then
        RegOpenKeyEx_cpu0 h t1 = RegOpenKeyEx_cpu0 h t2
        /\ (RegOpenKeyEx_cpu0 h t1 = true ->
            RegQueryValueEx_Mhz h (S t1) = RegQueryValueEx_Mhz h (S t2))
      else if IOS b || OSX b then
        sysctl_int h "hw.cpufrequency_max" t1
        = sysctl_int h "hw.cpufrequency_max" t2
      else True
  | AGetMemorySize =>
      if WIN32 b then GlobalMemoryStatusEx h t1 = GlobalMemoryStatusEx h t2
      else if OSX b || IOS b then
        sysctl_int h "hw.memsize" t1 = sysctl_int h "hw.memsize" t2
      else
        sysconf h "_SC_PHYS_PAGES" t1 = sysconf h "_SC_PHYS_PAGES" t2
        /\ sysconf h "_SC_PAGESIZE" (S t1) = sysconf h "_SC_PAGESIZE" (S t2)
  | AGetMachineModel =>
      if OSX b || IOS b then sysctl_str h "hw.model" t1 = sysctl_str h "hw.model" t2
      else True
  | _ => True
  end.

(** [m] does not change what [proj] reads of the instance. *)
Definition keeps {A X} (proj : SystemInfo -> X) (m : M A) : Prop :=
  forall s, proj (this (snd (m s))) = proj (this s).

(** The processor counts. *)
Definition counts (o : SystemInfo) : Z * Z :=
  (physical_cpus_ o, logical_cpus_ o).

(** The fields that only an accessor fills. *)
Definition filled_on_demand (o : SystemInfo) : string * Z * string :=
  (cpu_vendor_ o, memory_ o, machine_model_ o).

(** The entries of the enumeration that are processor cores. *)
Definition cores (infos : list Relationship) : Z := fst (scan_infos infos 0 0).

(** The enumeration of WIN32 as the constructor meets it.  The
    constructor asks GetSystemInfo at moment 0 and GetProcAddress at
    moment 1, and calls the entry point from moment 2 on: [n] answers
    "buffer too small" are followed by the answer [a], which ends the
    loop. *)
Definition enumeration_ends (h : Host) (n : nat) (a : GlpiAnswer) : Prop :=
  (forall k, (k < n)%nat ->
             GetLogicalProcessorInformation h (2 + k) = GlpiInsufficientBuffer)
  /\ GetLogicalProcessorInformation h (2 + n) = a
  /\ a <> GlpiInsufficientBuffer.

(** What the source of the physical count reports to the constructor.
    [None], the source gives nothing: the entry point is missing or the
    enumeration ends with an error, at once or after answers "buffer too
    small" (WIN32); the sysctl name cannot be read (OSX, IOS);
    /proc/cpuinfo cannot be loaded or has no physical count (LINUX,
    ANDROID).  [Some c]: the number of cores the enumeration lists, or the
    count that was read, as an [int]. *)
Definition physical_report (b : Build) (h : Host) (r : option Z) : Prop :=
  if WIN32 b then
    if GetProcAddress_glpi h 1 then
      exists n,
        (enumeration_ends h n GlpiError /\ r = None)
        \/ exists infos,
             enumeration_ends h n (GlpiTrue infos) /\ r = Some (cores infos)
    else r = None
  else if OSX b || IOS b then
    r = option_map to_int32 (sysctl_int h "hw.physicalcpu_max" 0)
  else
    r = match LoadFromSystem h 0 with
        | Some proc_info => option_map to_int32 (GetNumPhysicalCpus proc_info)
        | None => None
        end.

(** Bits 16 to 31 of a register, as the unsigned number they spell. *)
Definition bits_16_31 (r : Z) : Z := Z.land (Z.shiftr r 16) 65535.

(** The value of [cpu_info[2] >> 16] for the register as cpuid left it. *)
Definition high_half (r : Z) : Z := Z.shiftr (to_int32 r) 16.

(** The number of bits set in a mask. *)
Fixpoint pop (p : positive) : Z :=
  match p with
  | xH => 1
  | xO q => pop q
  | xI q => 1 + pop q
  end.

Definition popcount (m : Z) : Z :=
  match m with
  | Zpos p => pop p
  | _ => 0
  end.

(** The entries of the enumeration by kind. *)
Definition is_core (r : Relationship) : bool :=
  match r with
  | RelationProcessorCore => true
  | _ => false
  end.

Definition cache_sizes (infos : list Relationship) : list Z :=
  flat_map (fun r => match r with
                     | RelationCache Size => [to_int32 Size]
                     | _ => []
                     end) infos.

(** Family, model and stepping. *)
Definition identity (o : SystemInfo) : Z * Z * Z :=
  (cpu_family_ o, cpu_model_ o, cpu_stepping_ o).

(** [m] issues no query. *)
Definition asks_nothing {A} (m : M A) : Prop :=
  forall s, log (snd (m s)) = log s.

(** The fields that a CPU_ARM build on LINUX never reads from
    /proc/cpuinfo. *)
Definition not_read_on_arm (o : SystemInfo) : Z * Z * Z :=
  (cache_size_ o, cpu_model_ o, cpu_stepping_ o).

(** The answer of IOKit to a search has no value the code can use. *)
Definition unusable_number (ref : CFTypeRef) : bool :=
  match ref with
  | CFNumber _ => false
  | CFData data => negb (List.length data =? 4)%nat
  | _ => true
  end.

Definition unusable_text (ref : CFTypeRef) : bool :=
  match ref with
  | CFString _ | CFData _ => false
  | _ => true
  end.

(** The source of the memory size fails at moment [t], by the test of
    each branch: the call fails (WIN32); sysctlbyname reports an error or
    a size of 0 (OSX, IOS); the product of the two sysconf answers is
    negative (LINUX, ANDROID). *)
Definition memory_source_fails (b : Build) (h : Host) (t : nat) : bool :=
  if WIN32 b then
    match GlobalMemoryStatusEx h t with
    | None => true
    | Some _ => false
    end
  else if OSX b || IOS b then
    match sysctl_int h "hw.memsize" t with
    | None => true
    | Some v => to_int64 v =? 0
    end
  else
    to_int64 (to_int64 (sysconf h "_SC_PHYS_PAGES" t)
              * to_int64 (sysconf h "_SC_PAGESIZE" (S t))) <? 0.

(** The number of bytes before the first NUL. *)
Fixpoint strlen (bs : list ascii) : nat :=
  match bs with
  | [] => O
  | c :: rest => if is_NUL c then O else S (strlen rest)
  end.

(** What construction fixes for the life of the instance besides the
    identity fields: the two processor counts and the architecture. *)
Definition fixed_at_construction (o : SystemInfo) : Z * Z * Architecture :=
  (physical_cpus_ o, logical_cpus_ o, cpu_arch_ o).

(** Architecture and nominal speed. *)
Definition arch_and_speed (o : SystemInfo) : Architecture * Z :=
  (cpu_arch_ o, cpu_speed_ o).

(** * Builds and hosts of the examples *)

Definition linux_x64 : Build := mkBuild false false false false false true true false.
Definition android_arm : Build := mkBuild false false false false true false false false.
Definition osx_x64 : Build := mkBuild false true false false false true true false.
Definition win_x64 : Build := mkBuild true false false false false true true false.

(** A host on which every source fails: no /proc/cpuinfo, no cpufreq file
    ([ReadCpuMaxFreq] and [sysconf] answer -1), every sysctl name unknown,
    no registry key, no Direct3D, and a cpuid without extended leaves. *)
Definition silent : Host :=
  mkHost (fun _ => mkSYSTEM_INFO 1 0 0) (fun _ => false) (fun _ => GlpiError)
         (fun _ => false) (fun _ => None) (fun _ => None)
         (fun _ => false) (fun _ => false) (fun _ => false) (fun _ => None)
         (fun _ _ => None) (fun _ _ => None) (fun _ _ => CFNull)
         (fun _ => None) (fun _ => -1) (fun _ _ => -1)
         (fun _ _ => mkRegs 0 0 0 0).

Definition with_sysctl_int (f : string -> nat -> option Z) (h : Host) : Host :=
  mkHost (GetSystemInfo h) (GetProcAddress_glpi h)
         (GetLogicalProcessorInformation h) (RegOpenKeyEx_cpu0 h)
         (RegQueryValueEx_Mhz h) (GlobalMemoryStatusEx h) (LoadLibrary_d3d9 h)
         (GetProcAddress_Direct3DCreate9 h) (Direct3DCreate9 h)
         (GetAdapterIdentifier h) f (sysctl_str h)
         (IORegistryEntrySearchCFProperty h) (LoadFromSystem h)
         (ReadCpuMaxFreq h) (sysconf h) (cpuid h).

Definition with_sysctl_str (f : string -> nat -> option string) (h : Host)
  : Host :=
  mkHost (GetSystemInfo h) (GetProcAddress_glpi h)
         (GetLogicalProcessorInformation h) (RegOpenKeyEx_cpu0 h)
         (RegQueryValueEx_Mhz h) (GlobalMemoryStatusEx h) (LoadLibrary_d3d9 h)
         (GetProcAddress_Direct3DCreate9 h) (Direct3DCreate9 h)
         (GetAdapterIdentifier h) (sysctl_int h) f
         (IORegistryEntrySearchCFProperty h) (LoadFromSystem h)
         (ReadCpuMaxFreq h) (sysconf h) (cpuid h).

Definition with_sysconf (f : string -> nat -> Z) (h : Host) : Host :=
  mkHost (GetSystemInfo h) (GetProcAddress_glpi h)
         (GetLogicalProcessorInformation h) (RegOpenKeyEx_cpu0 h)
         (RegQueryValueEx_Mhz h) (GlobalMemoryStatusEx h) (LoadLibrary_d3d9 h)
         (GetProcAddress_Direct3DCreate9 h) (Direct3DCreate9 h)
         (GetAdapterIdentifier h) (sysctl_int h) (sysctl_str h)
         (IORegistryEntrySearchCFProperty h) (LoadFromSystem h)
         (ReadCpuMaxFreq h) f (cpuid h).

Definition with_cpuid (f : Z -> nat -> Regs) (h : Host) : Host :=
  mkHost (GetSystemInfo h) (GetProcAddress_glpi h)
         (GetLogicalProcessorInformation h) (RegOpenKeyEx_cpu0 h)
         (RegQueryValueEx_Mhz h) (GlobalMemoryStatusEx h) (LoadLibrary_d3d9 h)
         (GetProcAddress_Direct3DCreate9 h) (Direct3DCreate9 h)
         (GetAdapterIdentifier h) (sysctl_int h) (sysctl_str h)
         (IORegistryEntrySearchCFProperty h) (LoadFromSystem h)
         (ReadCpuMaxFreq h) (sysconf h) f.

(** "GenuineIntel" in the registers of leaf 0; extended leaves up to
    0x80000008, and 256 KB of L2 in the third register of 0x80000006. *)
Definition intel_cpuid (leaf : Z) (t : nat) : Regs :=
  if leaf =? 0 then mkRegs 13 0x756e6547 0x6c65746e 0x49656e69
  else if leaf =? 0x80000000 then mkRegs 0x80000008 0 0 0
  else if leaf =? 0x80000006 then mkRegs 0 0 0x01006040 0
  else mkRegs 0 0 0 0.

(** An instance with the values of the initializer list and an empty
    log. *)
Definition fresh (arch : Architecture) : St := mkSt (initializers arch) [].

(** A Linux host without /proc/cpuinfo on an Intel processor. *)
Definition intel : Host := with_cpuid intel_cpuid silent.

(** A Linux host that reports zero physical pages of 4096 bytes. *)
Definition no_pages : Host :=
  with_sysconf (fun name _ => if String.eqb name "_SC_PHYS_PAGES" then 0
                              else 4096)
               silent.

(** A Windows host whose GlobalMemoryStatusEx succeeds with
    [ullTotalPhys = 0]. *)
Definition no_bytes : Host :=
  mkHost (fun _ => mkSYSTEM_INFO 1 0 0) (fun _ => false) (fun _ => GlpiError)
         (fun _ => false) (fun _ => None) (fun _ => Some 0)
         (fun _ => false) (fun _ => false) (fun _ => false) (fun _ => None)
         (fun _ _ => None) (fun _ _ => None) (fun _ _ => CFNull)
         (fun _ => None) (fun _ => -1) (fun _ _ => -1)
         (fun _ _ => mkRegs 0 0 0 0).

(** A Windows host with Direct3D 9 and a driver of version 9.14.12.4660. *)
Definition geforce : Host :=
  mkHost (fun _ => mkSYSTEM_INFO 4 6 0x2A07) (fun _ => false)
         (fun _ => GlpiError) (fun _ => true) (fun _ => Some 2400)
         (fun _ => Some 8589934592)
         (fun _ => true) (fun _ => true) (fun _ => true)
         (fun _ => Some (mkIdentifier "nvd3dum.dll" "GeForce" "DISPLAY1"
                                      0x0009000E 0x000C1234 0x10DE 0x1234))
         (fun _ _ => None) (fun _ _ => None) (fun _ _ => CFNull)
         (fun _ => None) (fun _ => -1) (fun _ _ => -1) intel_cpuid.

(** A zeroed output struct. *)
Definition blank : GpuInfo := mkGpuInfo "" "" 0 0 "" "".


(** An Apple host on which [hw.model] cannot be read during the first
    nine queries and answers from then on. *)
Definition late_model : Host :=
  with_sysctl_str
    (fun name t =>
       if String.eqb name "hw.model" && Nat.leb 9 t
       then Some "MacBookAir1,1" else None)
    silent.

(** An Apple host that reports four logical processors and nothing
    else. *)
Definition four_threads : Host :=
  with_sysctl_int
    (fun name _ => if String.eqb name "hw.logicalcpu_max" then Some 4
                   else None)
    silent.

(** An Apple host that reports a physical count of 1 and no logical
    processor. *)
Definition no_threads : Host :=
  with_sysctl_int
    (fun name _ => if String.eqb name "hw.physicalcpu_max" then Some 1
                   else if String.eqb name "hw.logicalcpu_max" then Some 0
                        else None)
    silent.

(** An Apple host that reports a physical count of 0 beside four logical
    processors. *)
Definition no_cores : Host :=
  with_sysctl_int
    (fun name _ => if String.eqb name "hw.physicalcpu_max" then Some 0
                   else if String.eqb name "hw.logicalcpu_max" then Some 4
                        else None)
    silent.

(** A Windows host whose two sources disagree: GetSystemInfo reports two
    processors, and the enumeration, which asks for a larger buffer once,
    lists four cores. *)
Definition counts_disagree : Host :=
  mkHost (fun _ => mkSYSTEM_INFO 2 6 0x2A07) (fun _ => true)
         (fun t => if Nat.ltb t 3 then GlpiInsufficientBuffer
                   else GlpiTrue [RelationProcessorCore; RelationProcessorCore;
                                  RelationProcessorCore;
                                  RelationProcessorCore])
         (fun _ => true) (fun _ => Some 2400) (fun _ => Some 8589934592)
         (fun _ => false) (fun _ => false) (fun _ => false) (fun _ => None)
         (fun _ _ => None) (fun _ _ => None) (fun _ _ => CFNull)
         (fun _ => None) (fun _ => -1) (fun _ _ => -1) intel_cpuid.

(** A Windows host with four logical processors whose enumeration asks
    for a larger buffer once and then fails. *)
Definition enumeration_breaks : Host :=
  mkHost (fun _ => mkSYSTEM_INFO 4 6 0x2A07) (fun _ => true)
         (fun t => if Nat.ltb t 3 then GlpiInsufficientBuffer else GlpiError)
         (fun _ => true) (fun _ => Some 2400) (fun _ => Some 8589934592)
         (fun _ => false) (fun _ => false) (fun _ => false) (fun _ => None)
         (fun _ _ => None) (fun _ _ => None) (fun _ _ => CFNull)
         (fun _ => None) (fun _ => -1) (fun _ _ => -1) intel_cpuid.

(** An x86 host without /proc/cpuinfo whose leaf 0x80000006 reports
    4096 KB in bits 16 to 31 of the third register. *)
Definition four_megabytes : Host :=
  with_cpuid
    (fun leaf _ =>
       if leaf =? 0x80000000 then mkRegs 0x80000006 0 0 0
       else if leaf =? 0x80000006 then mkRegs 0 0 0x10000000 0
       else mkRegs 0 0 0 0)
    silent.

(** The same host with bit 31 of the third register set: bits 16 to 31
    spell 32768. *)
Definition bit_31_set : Host :=
  with_cpuid
    (fun leaf _ =>
       if leaf =? 0x80000000 then mkRegs 0x80000006 0 0 0
       else if leaf =? 0x80000006 then mkRegs 0 0 0x80000000 0
       else mkRegs 0 0 0 0)
    silent.

(** A Windows host with four logical processors on two cores, of family
    6, model 42, stepping 7, whose enumeration asks for a larger buffer
    until the fourth query. *)
Definition two_cores : Host :=
  mkHost (fun _ => mkSYSTEM_INFO 4 6 0x2A07) (fun _ => true)
         (fun t => if Nat.ltb t 3 then GlpiInsufficientBuffer
                   else GlpiTrue [RelationProcessorCore; RelationCache 32768;
                                  RelationProcessorCore;
                                  RelationCache 3145728])
         (fun _ => true) (fun _ => Some 2400) (fun _ => Some 8589934592)
         (fun _ => false) (fun _ => false) (fun _ => false) (fun _ => None)
         (fun _ _ => None) (fun _ _ => None) (fun _ _ => CFNull)
         (fun _ => None) (fun _ => -1) (fun _ _ => -1) intel_cpuid.

(** An Apple host without L3 cache and with 256 KB of L2. *)
Definition l2_only : Host :=
  with_sysctl_int
    (fun name _ =>
       if String.eqb name "hw.l3cachesize" then Some 0
       else if String.eqb name "hw.l2cachesize" then Some 262144
       else None)
    silent.

(** A Linux host whose /proc/cpuinfo reports 1600 MHz at the moment and
    6144 KB of cache, and whose cpufreq file reports 3400000 kHz. *)
Definition scaled_down : Host :=
  mkHost (fun _ => mkSYSTEM_INFO 1 0 0) (fun _ => false) (fun _ => GlpiError)
         (fun _ => false) (fun _ => None) (fun _ => None)
         (fun _ => false) (fun _ => false) (fun _ => false) (fun _ => None)
         (fun _ _ => None) (fun _ _ => None) (fun _ _ => CFNull)
         (fun _ => Some (mkProcCpuInfo
                           (Some 8) (Some 4) (Some 6)
                           (fun _ key =>
                              if String.eqb key "cpu MHz" then Some 1600
                              else if String.eqb key "cache size"
                                   then Some 6144
                                   else if String.eqb key "model" then Some 58
                                        else Some 9)))
         (fun _ => 3400000) (fun _ _ => 4096) intel_cpuid.

(** An Apple host whose live frequency is 1.2 GHz at every moment. *)
Definition throttled : Host :=
  with_sysctl_int
    (fun name _ => if String.eqb name "hw.cpufrequency" then Some 1200000000
                   else None)
    silent.

(** A Mac on which IOKit knows nothing about the main display. *)
Definition headless : Host := silent.

(** A Linux host with 2097152 pages of 4096 bytes. *)
Definition eight_gigabytes : Host :=
  with_sysconf (fun name _ => if String.eqb name "_SC_PHYS_PAGES" then 2097152
                              else 4096)
               silent.

(** An Apple host that knows its model. *)
Definition macbook : Host :=
  with_sysctl_str
    (fun name _ => if String.eqb name "hw.model" then Some "MacBookAir1,1"
                   else None)
    silent.

(** An x86 host whose vendor registers hold "Geni" followed by zeros. *)
Definition short_tag : Host :=
  with_cpuid (fun _ _ => mkRegs 0 0x696e6547 0 0) silent.

(** * Properties *)

(** ** Machine integers *)

Lemma to_int32_range (z : Z) : - 2 ^ 31 <= to_int32 z < 2 ^ 31.
Proof.
  unfold to_int32.
  pose proof (Z.mod_pos_bound (z + 2 ^ 31) (2 ^ 32) ltac:(lia)). lia.
Qed.

Lemma to_int32_small (z : Z) : - 2 ^ 31 <= z < 2 ^ 31 -> to_int32 z = z.
Proof.
  intros Hz. unfold to_int32. rewrite Z.mod_small; lia.
Qed.

Lemma to_int32_mod (z : Z) : to_int32 z mod 2 ^ 32 = z mod 2 ^ 32.
Proof.
  assert (E : to_int32 z = z + - ((z + 2 ^ 31) / 2 ^ 32) * 2 ^ 32).
  { unfold to_int32.
    pose proof (Z.div_mod (z + 2 ^ 31) (2 ^ 32) ltac:(lia)). lia. }
  rewrite E. apply Z.mod_add. lia.
Qed.

Lemma to_int32_testbit (z n : Z) :
  0 <= n < 32 -> Z.testbit (to_int32 z) n = Z.testbit z n.
Proof.
  intros Hn.
  rewrite <- (Z.mod_pow2_bits_low (to_int32 z) 32 n) by lia.
  rewrite <- (Z.mod_pow2_bits_low z 32 n) by lia.
  now rewrite to_int32_mod.
Qed.

(** ** The monad *)

Lemma length_snoc {A} (l : list A) (x : A) :
  List.length (l ++ [x]) = S (List.length l).
Proof. rewrite length_app. simpl. lia. Qed.

Lemma snoc_snoc {A} (l : list A) (x y : A) : (l ++ [x]) ++ [y] = l ++ [x; y].
Proof. now rewrite <- app_assoc. Qed.

Ltac tidy :=
  rewrite ?length_snoc, ?snoc_snoc, ?List.app_nil_r in *.

Ltac run :=
  unfold __cpuid, sysctlbyname, fmap, store, store_memsize, when, bind, ret,
    get, modify, ask in *;
  cbv beta iota in *; cbn [fst snd this log] in *.

Ltac split_branches :=
  repeat (match goal with
          | |- context [if ?c then _ else _] => destruct c eqn:?
          | |- context [match ?x with Some _ => _ | None => _ end] =>
              destruct x eqn:?
          end;
          cbv beta iota; cbn [fst snd this log Datatypes.length app]; tidy;
          cbn [Datatypes.length app]).

Lemma set_cpu_speed_same (o : SystemInfo) :
  set_cpu_speed (cpu_speed_ o) o = o.
Proof. now destruct o. Qed.

Lemma set_memory_same (o : SystemInfo) : set_memory (memory_ o) o = o.
Proof. now destruct o. Qed.

Lemma set_machine_model_same (o : SystemInfo) :
  set_machine_model (machine_model_ o) o = o.
Proof. now destruct o. Qed.

Lemma set_machine_model_unset (o : SystemInfo) :
  machine_model_ o = "" -> set_machine_model "" o = o.
Proof. intros E. rewrite <- E. apply set_machine_model_same. Qed.

Lemma set_cpu_speed_unset (o : SystemInfo) :
  cpu_speed_ o = 0 -> set_cpu_speed 0 o = o.
Proof. intros E. rewrite <- E. apply set_cpu_speed_same. Qed.

Lemma set_memory_unset (o : SystemInfo) :
  memory_ o = 0 -> set_memory 0 o = o.
Proof. intros E. rewrite <- E. apply set_memory_same. Qed.

Lemma mkSt_eta (s : St) : mkSt (this s) (log s) = s.
Proof. now destruct s. Qed.

Lemma empty_true (s : string) : empty s = true <-> s = "".
Proof. destruct s; simpl; split; congruence. Qed.

Lemma empty_false (s : string) : empty s = false <-> s <> "".
Proof. destruct s; simpl; split; congruence. Qed.

Lemma repeat_call_fixed {A} (m : M A) (a : A) (s : St) (n : nat) :
  m s = (a, s) -> repeat_call m n s = (repeat a n, s).
Proof.
  intros Hm. induction n as [|n IH]; simpl; [reflexivity|].
  unfold bind. rewrite Hm, IH. reflexivity.
Qed.

(** ** The accessors of the identity fields *)

Lemma GetMaxCpuSpeed_frame (b : Build) (h : Host) (i : IdentityAccessor)
      (s : St) :
  identity_field i (this (snd (GetMaxCpuSpeed b h s)))
  = identity_field i (this s).
Proof.
  unfold GetMaxCpuSpeed. run.
  split_branches; cbn; destruct i; reflexivity.
Qed.

Lemma perform_frame (b : Build) (h : Host) (i : IdentityAccessor)
      (op : Operation) (s : St) :
  identity_field i (this (perform b h op s)) = identity_field i (this s).
Proof.
  destruct op as [a| |loc info]; cbn [perform].
  - destruct a; cbn [call]; try reflexivity.
    + unfold GetCpuVendor. run. split_branches; cbn; destruct i; reflexivity.
    + unfold fmap, bind, ret.
      pose proof (GetMaxCpuSpeed_frame b h i s) as F.
      destruct (GetMaxCpuSpeed b h s); exact F.
    + unfold GetMemorySize. run.
      split_branches; cbn; destruct i; reflexivity.
    + unfold GetMachineModel. run.
      split_branches; cbn; destruct i; reflexivity.
  - unfold GetCurCpuSpeed. run.
    split_branches; cbn [snd this]; try reflexivity;
      try apply GetMaxCpuSpeed_frame.
    exact (GetMaxCpuSpeed_frame b h i (mkSt (this s) _)).
  - unfold GetGpuInfo, GetAdapterIdentifier_default, GetProperty_int,
      GetProperty_string. run.
    destruct info; [|reflexivity].
    split_branches; reflexivity.
Qed.

(** C8. A call of GetGpuInfo with the null pointer returns false; the
    instance is as it was, nothing was asked of the host (the log is as it
    was) and there is no output struct to write.  The same holds for any
    number of such calls in a row. *)
Theorem GetGpuInfo_null (b : Build) (h : Host) (loc : numpunct) (s : St) :
  GetGpuInfo b h loc None s = ((false, None), s)
  /\ forall n,
      repeat_call (GetGpuInfo b h loc None) n s = (repeat (false, None) n, s).
Proof.
  assert (E : GetGpuInfo b h loc None s = ((false, None), s)) by reflexivity.
  split; [exact E|].
  intros n. now apply repeat_call_fixed.
Qed.

(** C10. GetCpuFamily, GetCpuModel, GetCpuStepping and GetCpuCacheSize
    return the field and leave the instance and the log as they were, on
    every build, once or in any sequence; and no operation of the class
    writes one of the four fields, so that their values are those the
    constructor left. *)
Theorem identity_accessors_are_pure_reads (b : Build) (h : Host) :
  (forall (i : IdentityAccessor) (s : St),
      call b h (stable_of i) s = (VInt (identity_field i (this s)), s))
  /\ (forall (calls : list IdentityAccessor) (s : St),
         perform_all b h (map (fun i => OpStable (stable_of i)) calls) s = s)
  /\ (forall (ops : list Operation) (i : IdentityAccessor) (s : St),
         identity_field i (this (perform_all b h ops s))
         = identity_field i (this s)).
Proof.
  split; [|split].
  - intros i s. destruct i; reflexivity.
  - intros calls. induction calls as [|i calls IH]; intros s.
    + reflexivity.
    + cbn. replace (snd (call b h (stable_of i) s)) with s
        by (destruct i; reflexivity).
      apply IH.
  - intros ops i. induction ops as [|op ops IH]; intros s.
    + reflexivity.
    + cbn. unfold perform_all in IH. rewrite IH. apply perform_frame.
Qed.

(** ** The lazily cached accessors: hit and miss *)

Section Resolution.

Variable b : Build.
Variable h : Host.

Lemma GetCpuVendor_cached (s : St) :
  cpu_vendor_ (this s) <> "" ->
  GetCpuVendor b h s = (cpu_vendor_ (this s), s).
Proof.
  intros Hc. apply empty_false in Hc.
  unfold GetCpuVendor. run. rewrite Hc. reflexivity.
Qed.

Lemma GetCpuVendor_miss (s : St) :
  cpu_vendor_ (this s) = "" ->
  let r := resolve_vendor b h (List.length (log s)) in
  GetCpuVendor b h s
  = (fst r, mkSt (set_cpu_vendor (fst r) (this s)) (log s ++ snd r)).
Proof.
  intros Hc. apply empty_true in Hc.
  unfold GetCpuVendor, resolve_vendor. run. rewrite Hc.
  split_branches; tidy; reflexivity.
Qed.

Lemma GetMaxCpuSpeed_cached (s : St) :
  cpu_speed_ (this s) <> 0 ->
  GetMaxCpuSpeed b h s = (cpu_speed_ (this s), s).
Proof.
  intros Hc. apply Z.eqb_neq in Hc.
  unfold GetMaxCpuSpeed. run. rewrite Hc. reflexivity.
Qed.

Lemma GetMaxCpuSpeed_miss (s : St) :
  cpu_speed_ (this s) = 0 ->
  let r := resolve_speed b h (List.length (log s)) in
  GetMaxCpuSpeed b h s
  = (fst r, mkSt (set_cpu_speed (fst r) (this s)) (log s ++ snd r)).
Proof.
  intros Hc. apply Z.eqb_eq in Hc.
  unfold GetMaxCpuSpeed, resolve_speed. run. rewrite Hc.
  cbv beta iota; cbn [negb]. tidy.
  split_branches; reflexivity.
Qed.

Lemma GetMemorySize_cached (s : St) :
  memory_ (this s) <> 0 ->
  GetMemorySize b h s = (memory_ (this s), s).
Proof.
  intros Hc. apply Z.eqb_neq in Hc.
  unfold GetMemorySize. run. rewrite Hc. reflexivity.
Qed.

Lemma GetMemorySize_miss (s : St) :
  memory_ (this s) = 0 ->
  let r := resolve_memory b h (List.length (log s)) in
  GetMemorySize b h s
  = (fst r, mkSt (set_memory (fst r) (this s)) (log s ++ snd r)).
Proof.
  intros Hc. pose proof Hc as Hc'. apply Z.eqb_eq in Hc'.
  unfold GetMemorySize, resolve_memory. run. rewrite Hc'.
  cbv beta iota; cbn [negb].
  destruct (WIN32 b); [|destruct (OSX b || IOS b)]; cbv beta iota.
  - destruct (GlobalMemoryStatusEx h _); reflexivity.
  - destruct (sysctl_int h "hw.memsize" _) as [v|];
      cbn [orb this memory_ set_memory].
    + destruct (to_int64 v =? 0); reflexivity.
    + reflexivity.
  - tidy. cbn [this memory_ set_memory].
    destruct (_ <? 0); reflexivity.
Qed.

Lemma GetMachineModel_cached (s : St) :
  machine_model_ (this s) <> "" ->
  GetMachineModel b h s = (machine_model_ (this s), s).
Proof.
  intros Hc. apply empty_false in Hc.
  unfold GetMachineModel. run. rewrite Hc. reflexivity.
Qed.

Lemma GetMachineModel_miss (s : St) :
  machine_model_ (this s) = "" ->
  let r := resolve_model b h (List.length (log s)) in
  GetMachineModel b h s
  = (fst r, mkSt (set_machine_model (fst r) (this s)) (log s ++ snd r)).
Proof.
  intros Hc. apply empty_true in Hc.
  unfold GetMachineModel, resolve_model. run. rewrite Hc.
  cbv beta iota; cbn [negb].
  split_branches; tidy; reflexivity.
Qed.

End Resolution.

(** ** Steps that leave part of the instance alone *)

Lemma bind_run {A B} (m : M A) (k : A -> M B) (s : St) :
  bind m k s = k (fst (m s)) (snd (m s)).
Proof. unfold bind. now destruct (m s). Qed.

Section Keeps.

Context {X : Type} (proj : SystemInfo -> X).

Lemma keeps_ret {A} (a : A) : keeps proj (ret a).
Proof. intros s. reflexivity. Qed.

Lemma keeps_get {A} (f : SystemInfo -> A) : keeps proj (get f).
Proof. intros s. reflexivity. Qed.

Lemma keeps_ask {A} (q : Query) (f : nat -> A) : keeps proj (ask q f).
Proof. intros s. reflexivity. Qed.

Lemma keeps_bind {A B} (m : M A) (k : A -> M B) :
  keeps proj m -> (forall a, keeps proj (k a)) -> keeps proj (bind m k).
Proof. intros Hm Hk s. rewrite bind_run, Hk. apply Hm. Qed.

Lemma keeps_when (c : bool) (m : M unit) :
  keeps proj m -> keeps proj (when c m).
Proof. intros Hm. destruct c; [exact Hm|apply keeps_ret]. Qed.

Lemma keeps_modify (f : SystemInfo -> SystemInfo) :
  (forall o, proj (f o) = proj o) -> keeps proj (modify f).
Proof. intros Hf s. apply Hf. Qed.

Lemma keeps_store (f : Z -> SystemInfo -> SystemInfo) (v : option Z) :
  (forall z o, proj (f z o) = proj o) -> keeps proj (store f v).
Proof.
  intros Hf. destruct v; [apply keeps_modify, Hf|apply keeps_ret].
Qed.

End Keeps.

Create HintDb keeps.
#[local] Hint Resolve keeps_ret keeps_get keeps_ask keeps_when : keeps.
#[local] Hint Extern 1 (keeps _ (bind _ _)) =>
  apply keeps_bind; [|intros ?] : keeps.
#[local] Hint Extern 1 (keeps _ (store _ _)) =>
  apply keeps_store; reflexivity : keeps.
#[local] Hint Extern 1 (keeps _ (modify _)) =>
  apply keeps_modify; reflexivity : keeps.
#[local] Hint Extern 1 (keeps _ (sysctlbyname _ _)) => apply keeps_ask : keeps.
#[local] Hint Extern 1 (keeps _ (__cpuid _ _)) => apply keeps_ask : keeps.
#[local] Hint Extern 2 (keeps _ (match ?x with Some _ => _ | None => _ end)) =>
  destruct x : keeps.

(** Drop the outermost step of a chain when it keeps what [proj] reads. *)
Ltac peel proj :=
  match goal with
  | |- proj (this (snd (?m ?s))) = _ =>
      let H := fresh in
      assert (H : keeps proj m) by auto 12 with keeps;
      rewrite (H s); clear H
  end.

Lemma ctor_cpuid_keeps {X} (proj : SystemInfo -> X) (b : Build) (h : Host) :
  (forall z o, proj (set_cache_size z o) = proj o) ->
  keeps proj (ctor_cpuid b h).
Proof.
  intros Hp. unfold ctor_cpuid.
  repeat first [apply keeps_when | apply keeps_bind; [|intros ?]
               | apply keeps_get | apply keeps_ask
               | apply keeps_modify; intros; apply Hp].
Qed.

(** ** The constructor: processor counts *)

Lemma scan_infos_counts (infos : list Relationship) (p c : Z) :
  p <= fst (scan_infos infos p c).
Proof.
  revert p c. induction infos as [|[|size|] infos IH]; intros p c; cbn.
  - lia.
  - specialize (IH (p + 1) c). lia.
  - apply IH.
  - apply IH.
Qed.

Lemma cores_nonneg (infos : list Relationship) : 0 <= cores infos.
Proof. apply scan_infos_counts. Qed.

Section Counts.

Variable b : Build.
Variable h : Host.

(** The loop only asks; when it ends well, the entries are an answer of
    the host. *)
Lemma glpi_loop_result (fuel : nat) :
  forall s r s',
    glpi_loop h fuel s = Some (r, s') ->
    this s' = this s
    /\ match r with
       | Some infos =>
           exists t, GetLogicalProcessorInformation h t = GlpiTrue infos
       | None => exists t, GetLogicalProcessorInformation h t = GlpiError
       end.
Proof.
  induction fuel as [|fuel IH]; intros s r s' E; cbn in E; [discriminate|].
  destruct (GetLogicalProcessorInformation h (List.length (log s))) eqn:A.
  - injection E as <- <-. split; [reflexivity|]. eauto.
  - apply IH in E as [E1 E2]. split; [exact E1|exact E2].
  - injection E as <- <-. split; [reflexivity|]. eauto.
Qed.

(** With enough fuel the loop ends: the first answer that is not "buffer
    too small" ends it. *)
Lemma glpi_loop_ends (n : nat) :
  forall s,
    GetLogicalProcessorInformation h (List.length (log s) + n)
    <> GlpiInsufficientBuffer ->
    forall fuel, (n < fuel)%nat -> glpi_loop h fuel s <> None.
Proof.
  induction n as [|n IH]; intros s Hn fuel Hf;
    (destruct fuel as [|fuel]; [lia|]); cbn.
  - rewrite Nat.add_0_r in Hn.
    destruct (GetLogicalProcessorInformation h (List.length (log s)));
      congruence.
  - destruct (GetLogicalProcessorInformation h (List.length (log s)));
      try discriminate.
    apply IH; [|lia]. cbn [log]. rewrite length_snoc.
    now replace (S (List.length (log s)) + n)%nat
      with (List.length (log s) + S n)%nat by lia.
Qed.

Lemma GetProcessorInformation_result (fuel : nat) (s s' : St) :
  GetProcessorInformation h fuel s = Some s' ->
  logical_cpus_ (this s') = logical_cpus_ (this s)
  /\ (physical_cpus_ (this s') = physical_cpus_ (this s)
      /\ (GetProcAddress_glpi h (List.length (log s)) = false
          \/ exists t, GetLogicalProcessorInformation h t = GlpiError)
      \/ exists t infos,
          GetProcAddress_glpi h (List.length (log s)) = true
          /\ GetLogicalProcessorInformation h t = GlpiTrue infos
          /\ physical_cpus_ (this s') = cores infos).
Proof.
  unfold GetProcessorInformation. run.
  destruct (GetProcAddress_glpi h (List.length (log s))) eqn:Hp; cbn [negb].
  - destruct (glpi_loop h fuel _) as [[[infos|] s2]|] eqn:L; [| |discriminate].
    + apply glpi_loop_result in L as [Hthis [t Ht]]. cbn [this] in Hthis.
      unfold cores. destruct (scan_infos infos 0 0) as [p c] eqn:Sc.
      intros E. injection E as <-. cbn. rewrite Hthis.
      split; [reflexivity|]. right. exists t, infos. rewrite Sc. auto.
    + apply glpi_loop_result in L as [Hthis Ht]. cbn [this] in Hthis.
      intros E. injection E as <-. rewrite Hthis. auto.
  - intros E. injection E as <-. cbn. auto.
Qed.

Lemma ctor_cpuid_counts (s : St) :
  counts (this (snd (ctor_cpuid b h s))) = counts (this s).
Proof. now apply ctor_cpuid_keeps. Qed.

Lemma ctor_apple_counts (arch : Architecture) :
  counts (this (snd (ctor_apple h (mkSt (initializers arch) []))))
  = (match sysctl_int h "hw.physicalcpu_max" 0 with
     | Some v => to_int32 v
     | None => 1
     end,
     match sysctl_int h "hw.logicalcpu_max" 1 with
     | Some v => to_int32 v
     | None => 1
     end).
Proof.
  unfold ctor_apple. repeat (rewrite bind_run; cbv beta).
  repeat peel counts.
  unfold sysctlbyname, ask, store, modify, ret.
  cbn [fst snd this log Datatypes.length app].
  destruct (sysctl_int h "hw.physicalcpu_max" 0);
    cbn [fst snd this log Datatypes.length app];
    destruct (sysctl_int h "hw.logicalcpu_max" 1); reflexivity.
Qed.

Lemma ctor_linux_counts (arch : Architecture) :
  counts (this (snd (ctor_linux b h (mkSt (initializers arch) []))))
  = match LoadFromSystem h 0 with
    | Some proc_info =>
        (match GetNumPhysicalCpus proc_info with
         | Some v => to_int32 v
         | None => 1
         end,
         match GetNumCpus proc_info with
         | Some v => to_int32 v
         | None => 1
         end)
    | None => (1, 1)
    end.
Proof.
  unfold ctor_linux. repeat (rewrite bind_run; cbv beta).
  repeat peel counts.
  unfold ask. cbn [fst snd this log Datatypes.length].
  destruct (LoadFromSystem h 0) as [p|]; [|reflexivity].
  repeat (rewrite bind_run; cbv beta). repeat peel counts.
  unfold store, modify, ret.
  destruct (GetNumPhysicalCpus p); destruct (GetNumCpus p); reflexivity.
Qed.

End Counts.

Lemma ctor_win32_rest_counts (si : SYSTEM_INFO) (s : St) :
  let o := this (snd (ctor_win32_rest si s)) in
  logical_cpus_ o = logical_cpus_ (this s)
  /\ physical_cpus_ o
     = if physical_cpus_ (this s) <=? 0 then logical_cpus_ (this s)
       else physical_cpus_ (this s).
Proof.
  unfold ctor_win32_rest. run.
  destruct (physical_cpus_ (this s) <=? 0); split; reflexivity.
Qed.

Lemma ctor_win32_counts (h : Host) (fuel : nat) (arch : Architecture)
      (s : St) :
  ctor_win32 h fuel (mkSt (initializers arch) []) = Some s ->
  let logical :=
    to_int32 (to_uint32 (dwNumberOfProcessors (GetSystemInfo h 0))) in
  logical_cpus_ (this s) = logical
  /\ (physical_cpus_ (this s) = 1
      /\ (GetProcAddress_glpi h 1 = false
          \/ exists t, GetLogicalProcessorInformation h t = GlpiError)
      \/ exists t infos,
          GetProcAddress_glpi h 1 = true
          /\ GetLogicalProcessorInformation h t = GlpiTrue infos
          /\ physical_cpus_ (this s)
             = if cores infos <=? 0 then logical else cores infos).
Proof.
  unfold ctor_win32. run. cbn [Datatypes.length app].
  destruct (GetProcessorInformation h fuel _) as [s3|] eqn:G; [|discriminate].
  intros E. injection E as <-. cbv zeta.
  apply GetProcessorInformation_result in G as [Hl Hp].
  cbn [this log logical_cpus_ physical_cpus_ set_logical_cpus initializers
       Datatypes.length app] in Hl, Hp.
  destruct (ctor_win32_rest_counts (GetSystemInfo h 0) s3) as [Rl Rp].
  cbv zeta in Rl, Rp. rewrite Rl, Rp, Hl. split; [reflexivity|].
  destruct Hp as [[Hp Hwhy]|(t & infos & Ha & Ht & Hp)]; rewrite Hp.
  - left. split; [reflexivity|exact Hwhy].
  - right. exists t, infos. auto.
Qed.

(** The loop ends with the first answer that is not "buffer too
    small". *)
Lemma glpi_loop_ends_with (h : Host) (fuel : nat) :
  forall s r s',
    glpi_loop h fuel s = Some (r, s') ->
    this s' = this s
    /\ exists n a,
        (forall k, (k < n)%nat ->
                   GetLogicalProcessorInformation h (List.length (log s) + k)
                   = GlpiInsufficientBuffer)
        /\ GetLogicalProcessorInformation h (List.length (log s) + n) = a
        /\ a <> GlpiInsufficientBuffer
        /\ r = match a with
               | GlpiTrue infos => Some infos
               | _ => None
               end.
Proof.
  induction fuel as [|fuel IH]; intros s r s' E; cbn in E; [discriminate|].
  destruct (GetLogicalProcessorInformation h (List.length (log s))) eqn:A.
  - injection E as <- <-. split; [reflexivity|].
    exists O, (GlpiTrue infos). rewrite Nat.add_0_r.
    repeat split; [lia|exact A|discriminate].
  - apply IH in E as [E1 (n & a & Hk & Ha & Hne & Hr)]. cbn [this log] in *.
    rewrite length_snoc in Hk, Ha.
    split; [exact E1|]. exists (S n), a. repeat split.
    + intros k Hlt. destruct k as [|k].
      * now rewrite Nat.add_0_r.
      * rewrite Nat.add_succ_r. apply (Hk k). lia.
    + now rewrite Nat.add_succ_r.
    + exact Hne.
    + exact Hr.
  - injection E as <- <-. split; [reflexivity|].
    exists O, GlpiError. rewrite Nat.add_0_r.
    repeat split; [lia|exact A|discriminate].
Qed.

(** The counts the constructor leaves on WIN32, by what the entry point
    and the enumeration answered. *)
Lemma ctor_win32_report (h : Host) (fuel : nat) (arch : Architecture)
      (s : St) :
  ctor_win32 h fuel (mkSt (initializers arch) []) = Some s ->
  let logical :=
    to_int32 (to_uint32 (dwNumberOfProcessors (GetSystemInfo h 0))) in
  logical_cpus_ (this s) = logical
  /\ if GetProcAddress_glpi h 1 then
       exists n a,
         enumeration_ends h n a
         /\ physical_cpus_ (this s)
            = match a with
              | GlpiTrue infos =>
                  if cores infos <=? 0 then logical else cores infos
              | _ => 1
              end
     else physical_cpus_ (this s) = 1.
Proof.
  unfold ctor_win32. run. cbn [Datatypes.length app].
  destruct (GetProcessorInformation h fuel _) as [s3|] eqn:G; [|discriminate].
  intros E. injection E as <-. cbv zeta.
  destruct (ctor_win32_rest_counts (GetSystemInfo h 0) s3) as [Rl Rp].
  cbv zeta in Rl, Rp. rewrite Rl, Rp. clear Rl Rp.
  revert G. unfold GetProcessorInformation. run.
  cbn [Datatypes.length app].
  destruct (GetProcAddress_glpi h 1); cbn [negb].
  - destruct (glpi_loop h fuel _) as [[r s2]|] eqn:L;
      [|intros; discriminate].
    apply glpi_loop_ends_with in L as [Hthis (n & a & Hk & Ha & Hne & Hr)].
    cbn [this log Datatypes.length] in Hthis, Hk, Ha.
    assert (Hend : enumeration_ends h n a) by (repeat split; assumption).
    destruct a as [infos| |]; [|congruence|]; subst r.
    + unfold cores. destruct (scan_infos infos 0 0) as [p c] eqn:Sc.
      intros E. injection E as <-. cbn. rewrite Hthis. cbn.
      split; [reflexivity|]. exists n, (GlpiTrue infos).
      split; [exact Hend|]. unfold cores. now rewrite Sc.
    + intros E. injection E as <-. rewrite Hthis. cbn.
      split; [reflexivity|]. exists n, GlpiError. split; [exact Hend|].
      reflexivity.
  - intros E. injection E as <-. cbn. split; reflexivity.
Qed.

(** ** The constructor leaves the fields of the lazy accessors unset *)

Lemma GetProcessorInformation_fills_nothing (h : Host) (fuel : nat)
      (s s' : St) :
  GetProcessorInformation h fuel s = Some s' ->
  filled_on_demand (this s') = filled_on_demand (this s).
Proof.
  unfold GetProcessorInformation. run.
  destruct (GetProcAddress_glpi h (List.length (log s))); cbn [negb].
  - destruct (glpi_loop h fuel _) as [[[infos|] s2]|] eqn:L; [| |discriminate];
      apply glpi_loop_result in L as [Hthis _]; cbn [this] in Hthis.
    + destruct (scan_infos infos 0 0). intros E. injection E as <-.
      cbn [this]. now rewrite <- Hthis.
    + intros E. injection E as <-. now rewrite Hthis.
  - intros E. injection E as <-. reflexivity.
Qed.

Lemma SystemInfo_ctor_fills_nothing (b : Build) (h : Host) (fuel : nat)
      (s : St) :
  SystemInfo_ctor b h fuel = Some s ->
  filled_on_demand (this s) = ("", 0, "").
Proof.
  unfold SystemInfo_ctor.
  destruct (cpu_arch_of_build b) as [arch|]; [|discriminate].
  destruct (WIN32 b); [|destruct (OSX b || IOS b)].
  - unfold ctor_win32. run.
    destruct (GetProcessorInformation h fuel _) as [s3|] eqn:G;
      [|discriminate].
    apply GetProcessorInformation_fills_nothing in G. cbn in G.
    intros E. injection E as <-.
    rewrite ctor_cpuid_keeps by reflexivity.
    unfold ctor_win32_rest. repeat (rewrite bind_run; cbv beta).
    repeat peel (@filled_on_demand). exact G.
  - intros E. injection E as <-.
    rewrite ctor_cpuid_keeps by reflexivity.
    unfold ctor_apple. repeat (rewrite bind_run; cbv beta).
    repeat peel (@filled_on_demand). reflexivity.
  - intros E. injection E as <-.
    rewrite ctor_cpuid_keeps by reflexivity.
    unfold ctor_linux. repeat (rewrite bind_run; cbv beta).
    repeat peel (@filled_on_demand). reflexivity.
Qed.

(** The constructor returns: a build that passes the [#error] test always
    does outside WIN32, and on WIN32 as soon as the fuel covers the calls
    of the enumeration that answer "buffer too small". *)
Lemma SystemInfo_ctor_returns (b : Build) (h : Host) (n fuel : nat) :
  cpu_arch_of_build b <> None ->
  (WIN32 b = true ->
   GetLogicalProcessorInformation h (2 + n) <> GlpiInsufficientBuffer) ->
  (n < fuel)%nat ->
  SystemInfo_ctor b h fuel <> None.
Proof.
  intros Harch Hn Hf. unfold SystemInfo_ctor.
  destruct (cpu_arch_of_build b) as [arch|]; [|congruence].
  destruct (WIN32 b).
  - unfold ctor_win32, GetProcessorInformation. run.
    cbn [Datatypes.length app].
    destruct (GetProcAddress_glpi h 1); cbn [negb]; [|discriminate].
    destruct (glpi_loop h fuel _) as [[[infos|] s2]|] eqn:L.
    + destruct (scan_infos infos 0 0). discriminate.
    + discriminate.
    + exfalso. revert L. apply (glpi_loop_ends h n); [|exact Hf].
      cbn [log Datatypes.length app]. now apply Hn.
  - destruct (OSX b || IOS b); discriminate.
Qed.

(** ** The constructor: the cache size of the cpuid instruction *)

Lemma high_half_range (r : Z) : - 32768 <= high_half r <= 32767.
Proof.
  unfold high_half. rewrite Z.shiftr_div_pow2 by lia.
  pose proof (to_int32_range r) as R.
  change (2 ^ 31) with (32768 * 2 ^ 16) in R.
  split.
  - apply Z.div_le_lower_bound; lia.
  - apply Z.lt_succ_r, Z.div_lt_upper_bound; lia.
Qed.

(** With bit 31 clear the two readings agree. *)
Lemma high_half_bits (r : Z) :
  0 <= r < 2 ^ 31 -> high_half r = bits_16_31 r.
Proof.
  intros Hr. unfold high_half, bits_16_31.
  rewrite to_int32_small by lia.
  change 65535 with (Z.ones 16). rewrite Z.land_ones by lia.
  rewrite Z.shiftr_div_pow2 by lia.
  symmetry. apply Z.mod_small. split.
  - apply Z.div_pos; lia.
  - apply Z.div_lt_upper_bound; [lia|].
    change (2 ^ 16 * 2 ^ 16) with (2 ^ 32). lia.
Qed.

(** With bit 31 set the shift keeps the sign. *)
Lemma high_half_negative (r : Z) :
  2 ^ 31 <= r < 2 ^ 32 -> high_half r = bits_16_31 r - 65536.
Proof.
  intros Hr. unfold high_half, bits_16_31.
  assert (E : to_int32 r = r - 2 ^ 32).
  { unfold to_int32.
    replace (r + 2 ^ 31) with (r - 2 ^ 31 + 1 * 2 ^ 32) by lia.
    rewrite Z.mod_add by lia. rewrite Z.mod_small; lia. }
  rewrite E. change 65535 with (Z.ones 16). rewrite Z.land_ones by lia.
  rewrite !Z.shiftr_div_pow2 by lia.
  replace (r - 2 ^ 32) with (r + (- 65536) * 2 ^ 16) by lia.
  rewrite Z.div_add by lia.
  rewrite Z.mod_small; [lia|]. split.
  - apply Z.div_pos; lia.
  - apply Z.div_lt_upper_bound; [lia|].
    change (2 ^ 16 * 2 ^ 16) with (2 ^ 32). lia.
Qed.

Section CacheSize.

Variable b : Build.
Variable h : Host.

(** The step of the constructor that may ask cpuid: it asks only under
    CPU_X86 and only when [cache_size_] is still 0; it asks leaf
    0x80000006 only when leaf 0x80000000 says that the leaf exists. *)
Lemma ctor_cpuid_result (s : St) :
  let t := List.length (log s) in
  ctor_cpuid b h s
  = (tt,
     if CPU_X86 b && (cache_size_ (this s) =? 0) then
       if to_uint32 (to_int32 (reg1 (cpuid h 0x80000000 t))) >=? 0x80000006
       then mkSt (set_cache_size
                    (high_half (reg3 (cpuid h 0x80000006 (S t))) * 1024)
                    (this s))
                 (log s ++ [QCpuid 0x80000000; QCpuid 0x80000006])
       else mkSt (this s) (log s ++ [QCpuid 0x80000000])
     else s).
Proof.
  unfold ctor_cpuid, high_half. run.
  destruct (CPU_X86 b); cbn [andb]; [|reflexivity].
  destruct (cache_size_ (this s) =? 0); [|reflexivity].
  cbv beta iota. cbn [reg1 reg3 fst snd this log]. tidy.
  destruct (_ >=? _); cbv beta iota; cbn [reg1 reg3 fst snd this log]; tidy;
    reflexivity.
Qed.

End CacheSize.

(** ** GetMachineModel *)

Lemma repeat_snoc_app {A} (l : list A) (x : A) (n : nat) :
  (l ++ [x]) ++ repeat x n = l ++ repeat x (S n).
Proof. now rewrite <- app_assoc. Qed.

Lemma GetMachineModel_keeps_probing (b : Build) (h : Host) (n : nat) :
  forall s : St,
    OSX b || IOS b = true ->
    machine_model_ (this s) = "" ->
    (forall k, (k < n)%nat ->
               sysctl_str h "hw.model" (List.length (log s) + k) = None) ->
    repeat_call (GetMachineModel b h) n s
    = (repeat "" n, mkSt (this s) (log s ++ repeat (QSysctl "hw.model") n)).
Proof.
  induction n as [|n IH]; intros s Hb Hc Hfail.
  - cbn. unfold ret. rewrite List.app_nil_r, mkSt_eta. reflexivity.
  - cbn [repeat_call]. unfold bind at 1.
    rewrite (GetMachineModel_miss b h s Hc). unfold resolve_model.
    rewrite Hb. specialize (Hfail O ltac:(lia)) as H0.
    rewrite Nat.add_0_r in H0. rewrite H0. cbn [fst snd].
    rewrite (set_machine_model_unset _ Hc).
    unfold bind. rewrite IH; cbn [this log]; try assumption.
    + unfold ret. rewrite repeat_snoc_app. reflexivity.
    + intros k Hk. rewrite length_snoc.
      replace (S (List.length (log s)) + k)%nat
        with (List.length (log s) + S k)%nat by lia.
      apply Hfail. lia.
Qed.

(** C9. On the Apple branch, a call that finds the cache empty and whose
    source fails returns the empty string and leaves the field empty, so
    the next call asks the source again, and so does every later call
    while the source keeps failing.  "Not available" is what the branch
    without any source stores and returns, without asking anything; the
    Apple branch returns the text of the source or the empty string. *)
Theorem GetMachineModel_failure_is_not_cached (b : Build) (h : Host) (s : St) :
  OSX b || IOS b = true ->
  machine_model_ (this s) = "" ->
  sysctl_str h "hw.model" (List.length (log s)) = None ->
  let probe := QSysctl "hw.model" in
  let s' := mkSt (this s) (log s ++ [probe]) in
  GetMachineModel b h s = ("", s')
  /\ machine_model_ (this s') = ""
  /\ log (snd (GetMachineModel b h s')) = log s' ++ [probe]
  /\ (forall n,
         (forall k, (k < n)%nat ->
                    sysctl_str h "hw.model" (List.length (log s) + k) = None) ->
         repeat_call (GetMachineModel b h) n s
         = (repeat "" n, mkSt (this s) (log s ++ repeat probe n)))
  /\ (forall (b' : Build) (h' : Host) (s0 : St),
         machine_model_ (this s0) = "" ->
         if OSX b' || IOS b' then
           fst (GetMachineModel b' h' s0)
           = match sysctl_str h' "hw.model" (List.length (log s0)) with
             | Some text => text
             | None => ""
             end
           /\ log (snd (GetMachineModel b' h' s0)) = log s0 ++ [probe]
         else
           GetMachineModel b' h' s0
           = ("Not available",
              mkSt (set_machine_model "Not available" (this s0)) (log s0))).
Proof.
  intros Hb Hc Hfail probe s'.
  assert (E : GetMachineModel b h s = ("", s')).
  { rewrite (GetMachineModel_miss b h s Hc). unfold resolve_model.
    rewrite Hb, Hfail. cbn [fst snd].
    now rewrite (set_machine_model_unset _ Hc). }
  repeat split.
  - exact E.
  - exact Hc.
  - rewrite (GetMachineModel_miss b h s' Hc). unfold resolve_model.
    rewrite Hb. reflexivity.
  - intros n Hn. now apply GetMachineModel_keeps_probing.
  - intros b' h' s0 Hc0.
    rewrite (GetMachineModel_miss b' h' s0 Hc0). unfold resolve_model.
    destruct (OSX b' || IOS b'); cbn [fst snd this log].
    + split; reflexivity.
    + now rewrite List.app_nil_r.
Qed.

Lemma GetMachineModel_failure_is_not_cached_witness :
  (OSX osx_x64 || IOS osx_x64 = true
   /\ machine_model_ (this (fresh SI_ARCH_X64)) = ""
   /\ sysctl_str silent "hw.model" (List.length (log (fresh SI_ARCH_X64)))
      = None)
  /\ GetMachineModel osx_x64 silent (fresh SI_ARCH_X64)
     = ("", mkSt (initializers SI_ARCH_X64) [QSysctl "hw.model"]).
Proof.
  split; [repeat split|].
  exact (proj1 (GetMachineModel_failure_is_not_cached
                  osx_x64 silent (fresh SI_ARCH_X64)
                  eq_refl eq_refl eq_refl)).
Defined.

(** ** GetCpuVendor *)

Lemma byte_at_to_int32 (x i : Z) :
  0 <= i < 4 -> byte_at (to_int32 x) i = byte_at x i.
Proof.
  intros Hi. unfold byte_at. do 2 f_equal.
  apply Z.bits_inj'. intros n Hn.
  rewrite !Z.land_spec, !Z.shiftr_spec by lia.
  destruct (Z.ltb_spec n 8) as [Hlt|Hge].
  - rewrite to_int32_testbit by lia. reflexivity.
  - change 255 with (Z.ones 8). rewrite Z.ones_spec_high by lia.
    now rewrite !andb_false_r.
Qed.

Lemma bytes_of_int_to_int32 (x : Z) :
  bytes_of_int (to_int32 x) = bytes_of_int x.
Proof.
  unfold bytes_of_int. now rewrite !byte_at_to_int32 by lia.
Qed.

Lemma c_str_stops_at_NUL (bs rest : list ascii) :
  Forall (fun c => c <> NUL) bs ->
  c_str (bs ++ NUL :: rest) = string_of_bytes bs.
Proof.
  induction 1 as [|c bs Hc _ IH]; cbn.
  - reflexivity.
  - unfold is_NUL. destruct (Ascii.eqb_spec c NUL) as [E|_]; [contradiction|].
    now rewrite IH.
Qed.

Lemma string_of_bytes_length (bs : list ascii) :
  String.length (string_of_bytes bs) = List.length bs.
Proof. induction bs; cbn; congruence. Qed.

Lemma resolve_vendor_x86 (b : Build) (h : Host) (t : nat) :
  CPU_X86 b = true ->
  Forall (fun c => c <> NUL) (tag_bytes (cpuid h 0 t)) ->
  resolve_vendor b h t = (string_of_bytes (tag_bytes (cpuid h 0 t)), [QCpuid 0]).
Proof.
  intros Hx Htag. unfold resolve_vendor. rewrite Hx.
  rewrite !bytes_of_int_to_int32. f_equal.
  rewrite <- (c_str_stops_at_NUL _ [NUL; NUL; NUL] Htag).
  unfold tag_bytes. rewrite <- !app_assoc. reflexivity.
Qed.

(** C5. With an empty cache, an x86 build asks cpuid for leaf 0 and
    returns the vendor tag: the twelve bytes of the second, the fourth and
    the third register, in this order, when they are text (no NUL among
    them).  A build without CPU_X86 asks nothing and returns "ARM" under
    CPU_ARM and "Undefined" otherwise.  Once the field is not empty every
    call returns it and asks nothing.  The constructor leaves the field
    empty, so the first call on an instance is a call with an empty
    cache. *)
Theorem GetCpuVendor_decodes_and_caches (b : Build) (h : Host) (s : St) :
  (CPU_X86 b = true ->
   cpu_vendor_ (this s) = "" ->
   let tag := tag_bytes (cpuid h 0 (List.length (log s))) in
   Forall (fun c => c <> NUL) tag ->
   GetCpuVendor b h s
   = (string_of_bytes tag,
      mkSt (set_cpu_vendor (string_of_bytes tag) (this s))
           (log s ++ [QCpuid 0]))
   /\ String.length (string_of_bytes tag) = 12%nat)
  /\ (CPU_X86 b = false ->
      cpu_vendor_ (this s) = "" ->
      let name := if CPU_ARM b then "ARM" else "Undefined" in
      GetCpuVendor b h s
      = (name, mkSt (set_cpu_vendor name (this s)) (log s)))
  /\ (cpu_vendor_ (this s) <> "" ->
      forall n,
        repeat_call (GetCpuVendor b h) n s
        = (repeat (cpu_vendor_ (this s)) n, s))
  /\ (forall fuel s0,
         SystemInfo_ctor b h fuel = Some s0 -> cpu_vendor_ (this s0) = "").
Proof.
  split; [|split; [|split]].
  - intros Hx Hc tag Htag. split.
    + rewrite (GetCpuVendor_miss b h s Hc).
      rewrite (resolve_vendor_x86 b h _ Hx Htag). reflexivity.
    + rewrite string_of_bytes_length. reflexivity.
  - intros Hx Hc name.
    rewrite (GetCpuVendor_miss b h s Hc). unfold resolve_vendor. rewrite Hx.
    subst name. destruct (CPU_ARM b); cbn [fst snd];
      now rewrite List.app_nil_r.
  - intros Hc n. apply repeat_call_fixed. now apply GetCpuVendor_cached.
  - intros fuel s0 Hs0. apply SystemInfo_ctor_fills_nothing in Hs0.
    unfold filled_on_demand in Hs0. congruence.
Qed.

Lemma tag_bytes_intel :
  Forall (fun c => c <> NUL) (tag_bytes (cpuid intel 0 0)).
Proof. vm_compute. repeat constructor; discriminate. Qed.

Lemma GetCpuVendor_decodes_and_caches_witness :
  (CPU_X86 linux_x64 = true
   /\ cpu_vendor_ (this (fresh SI_ARCH_X64)) = ""
   /\ Forall (fun c => c <> NUL) (tag_bytes (cpuid intel 0 0)))
  /\ GetCpuVendor linux_x64 intel (fresh SI_ARCH_X64)
     = ("GenuineIntel",
        mkSt (set_cpu_vendor "GenuineIntel" (initializers SI_ARCH_X64))
             [QCpuid 0]).
Proof.
  split; [repeat split; exact tag_bytes_intel|].
  exact (proj1 (proj1 (GetCpuVendor_decodes_and_caches
                         linux_x64 intel (fresh SI_ARCH_X64))
                      eq_refl eq_refl tag_bytes_intel)).
Defined.

(** ** GetMaxCpuSpeed *)

Lemma resolve_speed_failure (b : Build) (h : Host) (t : nat) :
  speed_source_fails b h t = true -> fst (resolve_speed b h t) = -1.
Proof.
  unfold speed_source_fails, resolve_speed.
  destruct (WIN32 b); [|destruct (IOS b || OSX b)].
  - destruct (RegOpenKeyEx_cpu0 h t); cbn [negb orb fst]; [|reflexivity].
    destruct (RegQueryValueEx_Mhz h (S t)); [discriminate|reflexivity].
  - destruct (sysctl_int h "hw.cpufrequency_max" t);
      [discriminate|reflexivity].
  - discriminate.
Qed.

(** C1, at the failing input.  A Linux build on a host that has neither
    /proc/cpuinfo nor a cpufreq file: the constructor cannot determine the
    speed and leaves [cpu_speed_] at 0, and GetMaxCpuSpeed, whose branch
    there is the assignment [cpu_speed_ = 0] under a TODO, returns 0 and
    asks nothing: neither the -1 that its comment announces on error nor a
    positive number.  On the same host the WIN32 and the OSX builds, whose
    sources fail as well, return -1. *)
Theorem GetMaxCpuSpeed_returns_zero :
  (exists s,
      SystemInfo_ctor linux_x64 silent 0 = Some s
      /\ cpu_speed_ (this s) = 0
      /\ GetMaxCpuSpeed linux_x64 silent s = (0, s)
      /\ ~ (fst (GetMaxCpuSpeed linux_x64 silent s) = -1
            \/ 0 < fst (GetMaxCpuSpeed linux_x64 silent s)))
  /\ (exists s,
         SystemInfo_ctor osx_x64 silent 0 = Some s
         /\ cpu_speed_ (this s) = 0
         /\ fst (GetMaxCpuSpeed osx_x64 silent s) = -1)
  /\ (exists s,
         SystemInfo_ctor win_x64 silent 0 = Some s
         /\ cpu_speed_ (this s) = 0
         /\ fst (GetMaxCpuSpeed win_x64 silent s) = -1).
Proof.
  split; [|split].
  - eexists. split; [reflexivity|]. split; [reflexivity|].
    split; [reflexivity|].
    intros [E|E]; vm_compute in E; discriminate.
  - eexists. split; [reflexivity|]. split; reflexivity.
  - eexists. split; [reflexivity|]. split; reflexivity.
Qed.

(** ** GetMemorySize *)

(** The Apple branch is the one that turns a zero into -1. *)
Lemma GetMemorySize_apple_never_zero (b : Build) (h : Host) (s : St) :
  WIN32 b = false ->
  OSX b || IOS b = true ->
  fst (GetMemorySize b h s) <> 0.
Proof.
  intros Hw Ha.
  destruct (Z.eq_dec (memory_ (this s)) 0) as [Hc|Hc].
  - rewrite (GetMemorySize_miss b h s Hc). unfold resolve_memory.
    rewrite Hw, Ha. cbn [fst].
    destruct (sysctl_int h "hw.memsize" _) as [v|]; [|discriminate].
    destruct (Z.eqb_spec (to_int64 v) 0); [discriminate|assumption].
  - now rewrite (GetMemorySize_cached b h s Hc).
Qed.

(** C2, at the failing inputs.  Linux: [sysconf(_SC_PHYS_PAGES)] is 0, the
    product is 0, the test [memory_ < 0] lets it through and GetMemorySize
    returns 0; the field stays 0, so the next call asks again.  Windows:
    GlobalMemoryStatusEx succeeds with a total of 0, which is stored and
    returned as it is. *)
Theorem GetMemorySize_zero_is_not_normalized :
  (exists s,
      SystemInfo_ctor linux_x64 no_pages 0 = Some s
      /\ GetMemorySize linux_x64 no_pages s
         = (0, mkSt (this s)
                    (log s ++ [QSysconf "_SC_PHYS_PAGES";
                               QSysconf "_SC_PAGESIZE"])))
  /\ (exists s,
         SystemInfo_ctor win_x64 no_bytes 0 = Some s
         /\ GetMemorySize win_x64 no_bytes s
            = (0, mkSt (this s) (log s ++ [QGlobalMemoryStatusEx]))).
Proof.
  split; eexists; (split; [reflexivity|]); reflexivity.
Qed.

(** ** The driver version *)


















(** ** Two calls in a row *)

Section Steady.

Variable b : Build.
Variable h : Host.
Hypothesis Hsteady : steady h.

Lemma resolve_vendor_steady (t t' : nat) :
  resolve_vendor b h t = resolve_vendor b h t'.
Proof.
  unfold resolve_vendor. now rewrite (steady_cpuid h Hsteady 0 t t').
Qed.

Lemma resolve_speed_steady (t t' : nat) :
  resolve_speed b h t = resolve_speed b h t'.
Proof.
  unfold resolve_speed.
  rewrite (steady_RegOpenKeyEx h Hsteady t t').
  rewrite (steady_RegQueryValueEx h Hsteady (S t) (S t')).
  now rewrite (steady_sysctl_int h Hsteady _ t t').
Qed.

Lemma resolve_memory_steady (t t' : nat) :
  resolve_memory b h t = resolve_memory b h t'.
Proof.
  unfold resolve_memory.
  rewrite (steady_GlobalMemoryStatusEx h Hsteady t t').
  rewrite (steady_sysctl_int h Hsteady _ t t').
  rewrite (steady_sysconf h Hsteady "_SC_PHYS_PAGES" t t').
  now rewrite (steady_sysconf h Hsteady "_SC_PAGESIZE" (S t) (S t')).
Qed.

Lemma resolve_model_steady (t t' : nat) :
  resolve_model b h t = resolve_model b h t'.
Proof.
  unfold resolve_model. now rewrite (steady_sysctl_str h Hsteady _ t t').
Qed.

End Steady.

Section Twice.

Variable b : Build.
Variable h : Host.

Lemma GetCpuVendor_twice (s : St) :
  let r1 := GetCpuVendor b h s in
  let r2 := GetCpuVendor b h (snd r1) in
  (fst r1 <> "" -> r2 = r1) /\ (steady h -> fst r2 = fst r1).
Proof.
  cbv zeta.
  destruct (string_dec (cpu_vendor_ (this s)) "") as [Hc|Hc].
  - rewrite (GetCpuVendor_miss b h s Hc). cbn [fst snd].
    set (r := resolve_vendor b h (List.length (log s))).
    destruct (string_dec (fst r) "") as [Hr|Hr].
    + split; [congruence|]. intros Hs.
      rewrite GetCpuVendor_miss by (cbn; exact Hr). cbn [fst this log].
      subst r. apply f_equal, resolve_vendor_steady, Hs.
    + split; [|intros _]; rewrite GetCpuVendor_cached by (cbn; exact Hr);
        reflexivity.
  - rewrite (GetCpuVendor_cached b h s Hc). cbn [fst snd].
    rewrite (GetCpuVendor_cached b h s Hc). split; reflexivity.
Qed.

Lemma GetMaxCpuSpeed_twice (s : St) :
  let r1 := GetMaxCpuSpeed b h s in
  let r2 := GetMaxCpuSpeed b h (snd r1) in
  (fst r1 <> 0 -> r2 = r1) /\ (steady h -> fst r2 = fst r1).
Proof.
  cbv zeta.
  destruct (Z.eq_dec (cpu_speed_ (this s)) 0) as [Hc|Hc].
  - rewrite (GetMaxCpuSpeed_miss b h s Hc). cbn [fst snd].
    set (r := resolve_speed b h (List.length (log s))).
    destruct (Z.eq_dec (fst r) 0) as [Hr|Hr].
    + split; [congruence|]. intros Hs.
      rewrite GetMaxCpuSpeed_miss by (cbn; exact Hr). cbn [fst this log].
      subst r. apply f_equal, resolve_speed_steady, Hs.
    + split; [|intros _];
        rewrite GetMaxCpuSpeed_cached by (cbn; exact Hr); reflexivity.
  - rewrite (GetMaxCpuSpeed_cached b h s Hc). cbn [fst snd].
    rewrite (GetMaxCpuSpeed_cached b h s Hc). split; reflexivity.
Qed.

Lemma GetMemorySize_twice (s : St) :
  let r1 := GetMemorySize b h s in
  let r2 := GetMemorySize b h (snd r1) in
  (fst r1 <> 0 -> r2 = r1) /\ (steady h -> fst r2 = fst r1).
Proof.
  cbv zeta.
  destruct (Z.eq_dec (memory_ (this s)) 0) as [Hc|Hc].
  - rewrite (GetMemorySize_miss b h s Hc). cbn [fst snd].
    set (r := resolve_memory b h (List.length (log s))).
    destruct (Z.eq_dec (fst r) 0) as [Hr|Hr].
    + split; [congruence|]. intros Hs.
      rewrite GetMemorySize_miss by (cbn; exact Hr). cbn [fst this log].
      subst r. apply f_equal, resolve_memory_steady, Hs.
    + split; [|intros _];
        rewrite GetMemorySize_cached by (cbn; exact Hr); reflexivity.
  - rewrite (GetMemorySize_cached b h s Hc). cbn [fst snd].
    rewrite (GetMemorySize_cached b h s Hc). split; reflexivity.
Qed.

Lemma GetMachineModel_twice (s : St) :
  let r1 := GetMachineModel b h s in
  let r2 := GetMachineModel b h (snd r1) in
  (fst r1 <> "" -> r2 = r1) /\ (steady h -> fst r2 = fst r1).
Proof.
  cbv zeta.
  destruct (string_dec (machine_model_ (this s)) "") as [Hc|Hc].
  - rewrite (GetMachineModel_miss b h s Hc). cbn [fst snd].
    set (r := resolve_model b h (List.length (log s))).
    destruct (string_dec (fst r) "") as [Hr|Hr].
    + split; [congruence|]. intros Hs.
      rewrite GetMachineModel_miss by (cbn; exact Hr). cbn [fst this log].
      subst r. apply f_equal, resolve_model_steady, Hs.
    + split; [|intros _];
        rewrite GetMachineModel_cached by (cbn; exact Hr); reflexivity.
  - rewrite (GetMachineModel_cached b h s Hc). cbn [fst snd].
    rewrite (GetMachineModel_cached b h s Hc). split; reflexivity.
Qed.

(** What the accessor resolves is a function of what its source
    answers. *)
Lemma resolve_vendor_same (t1 t2 : nat) :
  same_answers b h AGetCpuVendor t1 t2 ->
  fst (resolve_vendor b h t1) = fst (resolve_vendor b h t2).
Proof.
  unfold same_answers, resolve_vendor.
  destruct (CPU_X86 b); [now intros ->|reflexivity].
Qed.

Lemma resolve_speed_same (t1 t2 : nat) :
  same_answers b h AGetMaxCpuSpeed t1 t2 ->
  fst (resolve_speed b h t1) = fst (resolve_speed b h t2).
Proof.
  unfold same_answers, resolve_speed.
  destruct (WIN32 b); [|destruct (IOS b || OSX b)].
  - intros [Ho Hq]. rewrite <- Ho.
    destruct (RegOpenKeyEx_cpu0 h t1); [|reflexivity].
    cbn [fst]. now rewrite (Hq eq_refl).
  - now intros ->.
  - reflexivity.
Qed.

Lemma resolve_memory_same (t1 t2 : nat) :
  same_answers b h AGetMemorySize t1 t2 ->
  fst (resolve_memory b h t1) = fst (resolve_memory b h t2).
Proof.
  unfold same_answers, resolve_memory.
  destruct (WIN32 b); [|destruct (OSX b || IOS b)].
  - now intros ->.
  - now intros ->.
  - intros [-> ->]. reflexivity.
Qed.

Lemma resolve_model_same (t1 t2 : nat) :
  same_answers b h AGetMachineModel t1 t2 ->
  fst (resolve_model b h t1) = fst (resolve_model b h t2).
Proof.
  unfold same_answers, resolve_model.
  destruct (OSX b || IOS b); [now intros ->|reflexivity].
Qed.

(** The second of two calls in a row returns what the first returned when
    the source answers it as it answered the first. *)
Lemma GetCpuVendor_again (s : St) :
  let r1 := GetCpuVendor b h s in
  let r2 := GetCpuVendor b h (snd r1) in
  same_answers b h AGetCpuVendor
               (List.length (log s)) (List.length (log (snd r1))) ->
  fst r2 = fst r1.
Proof.
  cbv zeta.
  destruct (string_dec (cpu_vendor_ (this s)) "") as [Hc|Hc].
  - rewrite (GetCpuVendor_miss b h s Hc). cbn [fst snd].
    set (r := resolve_vendor b h (List.length (log s))).
    destruct (string_dec (fst r) "") as [Hr|Hr].
    + intros Hs. rewrite GetCpuVendor_miss by (cbn; exact Hr).
      cbn [fst this log]. subst r. symmetry.
      now apply resolve_vendor_same.
    + intros _. now rewrite GetCpuVendor_cached by (cbn; exact Hr).
  - rewrite (GetCpuVendor_cached b h s Hc). cbn [fst snd].
    now rewrite (GetCpuVendor_cached b h s Hc).
Qed.

Lemma GetMaxCpuSpeed_again (s : St) :
  let r1 := GetMaxCpuSpeed b h s in
  let r2 := GetMaxCpuSpeed b h (snd r1) in
  same_answers b h AGetMaxCpuSpeed
               (List.length (log s)) (List.length (log (snd r1))) ->
  fst r2 = fst r1.
Proof.
  cbv zeta.
  destruct (Z.eq_dec (cpu_speed_ (this s)) 0) as [Hc|Hc].
  - rewrite (GetMaxCpuSpeed_miss b h s Hc). cbn [fst snd].
    set (r := resolve_speed b h (List.length (log s))).
    destruct (Z.eq_dec (fst r) 0) as [Hr|Hr].
    + intros Hs. rewrite GetMaxCpuSpeed_miss by (cbn; exact Hr).
      cbn [fst this log]. subst r. symmetry.
      now apply resolve_speed_same.
    + intros _. now rewrite GetMaxCpuSpeed_cached by (cbn; exact Hr).
  - rewrite (GetMaxCpuSpeed_cached b h s Hc). cbn [fst snd].
    now rewrite (GetMaxCpuSpeed_cached b h s Hc).
Qed.

Lemma GetMemorySize_again (s : St) :
  let r1 := GetMemorySize b h s in
  let r2 := GetMemorySize b h (snd r1) in
  same_answers b h AGetMemorySize
               (List.length (log s)) (List.length (log (snd r1))) ->
  fst r2 = fst r1.
Proof.
  cbv zeta.
  destruct (Z.eq_dec (memory_ (this s)) 0) as [Hc|Hc].
  - rewrite (GetMemorySize_miss b h s Hc). cbn [fst snd].
    set (r := resolve_memory b h (List.length (log s))).
    destruct (Z.eq_dec (fst r) 0) as [Hr|Hr].
    + intros Hs. rewrite GetMemorySize_miss by (cbn; exact Hr).
      cbn [fst this log]. subst r. symmetry.
      now apply resolve_memory_same.
    + intros _. now rewrite GetMemorySize_cached by (cbn; exact Hr).
  - rewrite (GetMemorySize_cached b h s Hc). cbn [fst snd].
    now rewrite (GetMemorySize_cached b h s Hc).
Qed.

Lemma GetMachineModel_again (s : St) :
  let r1 := GetMachineModel b h s in
  let r2 := GetMachineModel b h (snd r1) in
  same_answers b h AGetMachineModel
               (List.length (log s)) (List.length (log (snd r1))) ->
  fst r2 = fst r1.
Proof.
  cbv zeta.
  destruct (string_dec (machine_model_ (this s)) "") as [Hc|Hc].
  - rewrite (GetMachineModel_miss b h s Hc). cbn [fst snd].
    set (r := resolve_model b h (List.length (log s))).
    destruct (string_dec (fst r) "") as [Hr|Hr].
    + intros Hs. rewrite GetMachineModel_miss by (cbn; exact Hr).
      cbn [fst this log]. subst r. symmetry.
      now apply resolve_model_same.
    + intros _. now rewrite GetMachineModel_cached by (cbn; exact Hr).
  - rewrite (GetMachineModel_cached b h s Hc). cbn [fst snd].
    now rewrite (GetMachineModel_cached b h s Hc).
Qed.

(** On OSX and IOS an empty model is a failed read, and the next call
    reads again. *)
Lemma GetMachineModel_reads_again (s : St) :
  OSX b || IOS b = true ->
  let r1 := GetMachineModel b h s in
  let r2 := GetMachineModel b h (snd r1) in
  fst r1 = "" ->
  fst r2 = match sysctl_str h "hw.model" (List.length (log (snd r1))) with
           | Some text => text
           | None => ""
           end
  /\ log (snd r2) = log (snd r1) ++ [QSysctl "hw.model"].
Proof.
  intros Ha. cbv zeta.
  destruct (string_dec (machine_model_ (this s)) "") as [Hc|Hc].
  - rewrite (GetMachineModel_miss b h s Hc). cbn [fst snd].
    intros Hr. rewrite GetMachineModel_miss by (cbn; exact Hr).
    cbn [fst snd this log]. unfold resolve_model. rewrite Ha.
    cbn [fst snd]. split; reflexivity.
  - rewrite (GetMachineModel_cached b h s Hc). cbn [fst snd]. congruence.
Qed.

End Twice.

Lemma fmap_run {A B} (f : A -> B) (m : M A) (s : St) :
  fmap f m s = (f (fst (m s)), snd (m s)).
Proof. unfold fmap, bind, ret. now destruct (m s). Qed.

(** Sources that answer the same at every moment answer the second call
    as the first. *)
Lemma steady_same_answers (b : Build) (h : Host) (a : Accessor)
      (t1 t2 : nat) :
  steady h -> same_answers b h a t1 t2.
Proof.
  intros Hs. destruct a; cbn [same_answers]; try exact I.
  - destruct (CPU_X86 b); [apply (steady_cpuid h Hs)|exact I].
  - destruct (WIN32 b); [|destruct (IOS b || OSX b)].
    + split; [apply (steady_RegOpenKeyEx h Hs)|].
      intros _. apply (steady_RegQueryValueEx h Hs).
    + apply (steady_sysctl_int h Hs).
    + exact I.
  - destruct (WIN32 b); [|destruct (OSX b || IOS b)].
    + apply (steady_GlobalMemoryStatusEx h Hs).
    + apply (steady_sysctl_int h Hs).
    + split; apply (steady_sysconf h Hs).
  - destruct (OSX b || IOS b); [apply (steady_sysctl_str h Hs)|exact I].
Qed.

(** C6, as the code has it.  Two calls in a row of a stable accessor
    return the same value when the accessor only reads a field the
    constructor filled, in which case nothing is asked and nothing
    changes; when the first value shows the field set (a non-zero number,
    -1 included, or a non-empty string, "Not available" and "Undefined"
    included), in which case the second call asks nothing and changes
    nothing; and when the source answers the second call as it answered
    the first.  On OSX and IOS an empty GetMachineModel() is not kept: the
    second call reads [hw.model] again and returns what it is then
    answered. *)
Theorem stable_accessors_twice (b : Build) (h : Host) (a : Accessor)
        (s : St) :
  let r1 := call b h a s in
  let r2 := call b h a (snd r1) in
  (read_only a = true -> r2 = r1 /\ snd r1 = s)
  /\ (is_set (fst r1) = true -> r2 = r1)
  /\ (same_answers b h a (List.length (log s)) (List.length (log (snd r1))) ->
      fst r2 = fst r1)
  /\ (a = AGetMachineModel ->
      OSX b || IOS b = true ->
      fst r1 = VString "" ->
      fst r2
      = VString match sysctl_str h "hw.model" (List.length (log (snd r1))) with
                | Some text => text
                | None => ""
                end
      /\ log (snd r2) = log (snd r1) ++ [QSysctl "hw.model"]).
Proof.
  cbv zeta.
  destruct a; cbn [call read_only];
    try (repeat split; intros; reflexivity || discriminate).
  - rewrite !fmap_run. cbn [fst snd is_set].
    destruct (GetCpuVendor_twice b h s) as [Hset _].
    split; [discriminate|]. split; [|split; [|discriminate]].
    + intros Hv. apply negb_true_iff, empty_false in Hv.
      now rewrite (Hset Hv).
    + intros Hs. now rewrite (GetCpuVendor_again b h s Hs).
  - rewrite !fmap_run. cbn [fst snd is_set].
    destruct (GetMaxCpuSpeed_twice b h s) as [Hset _].
    split; [discriminate|]. split; [|split; [|discriminate]].
    + intros Hv. apply negb_true_iff, Z.eqb_neq in Hv.
      now rewrite (Hset Hv).
    + intros Hs. now rewrite (GetMaxCpuSpeed_again b h s Hs).
  - rewrite !fmap_run. cbn [fst snd is_set].
    destruct (GetMemorySize_twice b h s) as [Hset _].
    split; [discriminate|]. split; [|split; [|discriminate]].
    + intros Hv. apply negb_true_iff, Z.eqb_neq in Hv.
      now rewrite (Hset Hv).
    + intros Hs. now rewrite (GetMemorySize_again b h s Hs).
  - rewrite !fmap_run. cbn [fst snd is_set].
    destruct (GetMachineModel_twice b h s) as [Hset _].
    split; [discriminate|]. split; [|split].
    + intros Hv. apply negb_true_iff, empty_false in Hv.
      now rewrite (Hset Hv).
    + intros Hs. now rewrite (GetMachineModel_again b h s Hs).
    + intros _ Ha Hr. injection Hr as Hr.
      destruct (GetMachineModel_reads_again b h s Ha Hr) as [E1 E2].
      now rewrite E1, E2.
Qed.

Lemma stable_accessors_twice_witness :
  same_answers osx_x64 late_model AGetMachineModel
               (List.length (log (fresh SI_ARCH_X64)))
               (List.length
                  (log (snd (call osx_x64 late_model AGetMachineModel
                                  (fresh SI_ARCH_X64)))))
  /\ fst (call osx_x64 late_model AGetMachineModel
               (snd (call osx_x64 late_model AGetMachineModel
                          (fresh SI_ARCH_X64))))
     = fst (call osx_x64 late_model AGetMachineModel (fresh SI_ARCH_X64)).
Proof.
  split; [reflexivity|].
  exact (proj1 (proj2 (proj2 (stable_accessors_twice
                                osx_x64 late_model AGetMachineModel
                                (fresh SI_ARCH_X64))))
               eq_refl).
Defined.

(** C6 as stated fails: the constructor asks eight queries, the first
    GetMachineModel is the ninth and fails, the empty string it returns is
    not kept, and the second call reads the model. *)
Lemma GetMachineModel_twice_differs :
  exists s,
    SystemInfo_ctor osx_x64 late_model 0 = Some s
    /\ fst (call osx_x64 late_model AGetMachineModel s) = VString ""
    /\ fst (call osx_x64 late_model AGetMachineModel
                 (snd (call osx_x64 late_model AGetMachineModel s)))
       = VString "MacBookAir1,1"
    /\ fst (call osx_x64 late_model AGetMachineModel
                 (snd (call osx_x64 late_model AGetMachineModel s)))
       <> fst (call osx_x64 late_model AGetMachineModel s).
Proof.
  eexists. split; [reflexivity|]. split; [reflexivity|].
  split; [reflexivity|]. vm_compute. discriminate.
Qed.

(** ** GetMaxCpus and GetMaxPhysicalCpus *)

(** The loop ends once, so the source reports one thing. *)
Lemma enumeration_ends_once (h : Host) (n n' : nat) (a a' : GlpiAnswer) :
  enumeration_ends h n a -> enumeration_ends h n' a' -> n = n' /\ a = a'.
Proof.
  intros (Hk & Ha & Hne) (Hk' & Ha' & Hne').
  destruct (Nat.lt_trichotomy n n') as [L|[E|L]].
  - specialize (Hk' n L). congruence.
  - subst n'. split; congruence.
  - specialize (Hk n' L). congruence.
Qed.

Lemma physical_report_unique (b : Build) (h : Host) (r r' : option Z) :
  physical_report b h r -> physical_report b h r' -> r = r'.
Proof.
  unfold physical_report.
  destruct (WIN32 b); [|destruct (OSX b || IOS b); congruence].
  destruct (GetProcAddress_glpi h 1); [|congruence].
  intros (n & [[H ->]|(infos & H & ->)]) (n' & [[H' ->]|(infos' & H' & ->)]);
    destruct (enumeration_ends_once h n n' _ _ H H') as [_ E];
    congruence.
Qed.

Lemma counts_from_report (win : bool) (r : option Z) (physical logical : Z) :
  physical = match r with
             | None => 1
             | Some c => if win then (if c <=? 0 then logical else c) else c
             end ->
  (r = None -> physical = 1)
  /\ (win = true ->
      forall c, r = Some c -> physical = if c <=? 0 then logical else c)
  /\ (win = false -> forall c, r = Some c -> 1 <= c -> physical = c)
  /\ (1 <= logical ->
      (forall c, r = Some c -> c <= logical /\ (win = false -> 1 <= c)) ->
      1 <= physical <= logical).
Proof.
  intros ->. split; [|split; [|split]].
  - now intros ->.
  - intros -> c ->. reflexivity.
  - intros -> c -> _. reflexivity.
  - intros Hl Hc. destruct r as [c|]; [|lia].
    destruct (Hc c eq_refl) as [Hle Hone].
    destruct win.
    + destruct (Z.leb_spec c 0); lia.
    + specialize (Hone eq_refl). lia.
Qed.

(** C3, as the code has it.  After construction GetMaxPhysicalCpus() is
    determined by what the source of the physical count reported to the
    constructor, which is one thing on every host.  When
    the source gives nothing (on WIN32 also when the enumeration fails
    after answers "buffer too small") it is 1, the value of the
    initializer, and not the logical count.  On WIN32 it is the number of
    cores the enumeration lists, and the logical count when it lists none.
    On the other branches a reported count of at least 1 is returned as it
    is; what happens to a smaller one is not stated here.  Hence
    1 <= GetMaxPhysicalCpus() <= GetMaxCpus() whenever GetMaxCpus() is at
    least 1 and the reported count, if there is one, is no larger than
    GetMaxCpus() and, outside WIN32, at least 1. *)
Theorem cpu_counts_after_construction (b : Build) (h : Host) (fuel : nat)
        (s : St) :
  SystemInfo_ctor b h fuel = Some s ->
  let physical := fst (GetMaxPhysicalCpus s) in
  let logical := fst (GetMaxCpus s) in
  exists r,
    (physical_report b h r /\ forall r', physical_report b h r' -> r' = r)
    /\ (r = None -> physical = 1)
    /\ (WIN32 b = true ->
        forall c, r = Some c -> physical = if c <=? 0 then logical else c)
    /\ (WIN32 b = false -> forall c, r = Some c -> 1 <= c -> physical = c)
    /\ (1 <= logical ->
        (forall c, r = Some c -> c <= logical /\ (WIN32 b = false -> 1 <= c)) ->
        1 <= physical <= logical).
Proof.
  intros C. cbv zeta.
  cut (exists r,
          physical_report b h r
          /\ (r = None -> fst (GetMaxPhysicalCpus s) = 1)
          /\ (WIN32 b = true ->
              forall c, r = Some c ->
                        fst (GetMaxPhysicalCpus s)
                        = if c <=? 0 then fst (GetMaxCpus s) else c)
          /\ (WIN32 b = false ->
              forall c, r = Some c -> 1 <= c -> fst (GetMaxPhysicalCpus s) = c)
          /\ (1 <= fst (GetMaxCpus s) ->
              (forall c, r = Some c ->
                         c <= fst (GetMaxCpus s)
                         /\ (WIN32 b = false -> 1 <= c)) ->
              1 <= fst (GetMaxPhysicalCpus s) <= fst (GetMaxCpus s))).
  { intros (r & Hr & H). exists r. split; [split; [exact Hr|]|exact H].
    intros r' Hr'. exact (physical_report_unique b h r' r Hr' Hr). }
  revert C.
  unfold SystemInfo_ctor, GetMaxPhysicalCpus, GetMaxCpus, get. cbn [fst].
  destruct (cpu_arch_of_build b) as [arch|]; [|discriminate].
  unfold physical_report. cbv zeta.
  change (physical_cpus_ (this s)) with (fst (counts (this s))).
  change (logical_cpus_ (this s)) with (snd (counts (this s))).
  destruct (WIN32 b) eqn:Hw.
  - destruct (ctor_win32 h fuel _) as [s1|] eqn:C; [|discriminate].
    intros E. injection E as <-. rewrite ctor_cpuid_counts.
    apply ctor_win32_report in C as [Hl Hp]. cbv zeta in Hl, Hp.
    unfold counts. cbn [fst snd]. rewrite Hl.
    destruct (GetProcAddress_glpi h 1).
    + destruct Hp as (n & a & Hend & Hp).
      destruct a as [infos| |].
      * exists (Some (cores infos)). split.
        { exists n. right. exists infos. split; [exact Hend|reflexivity]. }
        apply counts_from_report. exact Hp.
      * destruct Hend as (_ & _ & Hne). congruence.
      * exists None. split.
        { exists n. left. split; [exact Hend|reflexivity]. }
        apply counts_from_report. exact Hp.
    + exists None. split; [reflexivity|].
      apply counts_from_report. exact Hp.
  - destruct (OSX b || IOS b) eqn:Ha; intros E; injection E as <-;
      rewrite ctor_cpuid_counts; eexists; (split; [reflexivity|]);
      apply counts_from_report.
    + rewrite ctor_apple_counts. cbn [fst snd].
      now destruct (sysctl_int h "hw.physicalcpu_max" 0).
    + rewrite ctor_linux_counts.
      destruct (LoadFromSystem h 0) as [p|]; cbn [fst snd]; [|reflexivity].
      now destruct (GetNumPhysicalCpus p).
Qed.

Lemma cpu_counts_after_construction_witness :
  exists s,
    SystemInfo_ctor win_x64 enumeration_breaks 2 = Some s
    /\ physical_report win_x64 enumeration_breaks None
    /\ fst (GetMaxPhysicalCpus s) = 1
    /\ 1 <= fst (GetMaxPhysicalCpus s) <= fst (GetMaxCpus s).
Proof.
  eexists. split; [reflexivity|].
  assert (R : physical_report win_x64 enumeration_breaks None).
  { exists 1%nat. left. split; [|reflexivity].
    repeat split.
    - intros k Hk. destruct k as [|k]; [reflexivity|lia].
    - discriminate. }
  destruct (cpu_counts_after_construction
              win_x64 enumeration_breaks 2 _ eq_refl)
    as (r & [_ Hr] & Hnone & _ & _ & Hbounds).
  assert (E : r = None) by (symmetry; exact (Hr None R)).
  split; [exact R|]. split.
  - exact (Hnone E).
  - apply Hbounds.
    + cbn. lia.
    + intros c Hc. rewrite E in Hc. discriminate Hc.
Defined.

(** C3 as stated fails, in its fallback and in its bounds.  On an Apple
    host [hw.physicalcpu_max] cannot be read and the logical count is 4:
    GetMaxPhysicalCpus() is the initial 1 and not the logical count.  On a
    Windows host GetSystemInfo reports two processors and the enumeration
    lists four cores: GetMaxPhysicalCpus() is 4, above GetMaxCpus().  And
    where the host reports no logical processor, GetMaxCpus() is 0, below
    GetMaxPhysicalCpus(). *)
Lemma physical_count_is_not_the_logical_one :
  (exists s,
      SystemInfo_ctor osx_x64 four_threads 0 = Some s
      /\ sysctl_int four_threads "hw.physicalcpu_max" 0 = None
      /\ GetMaxPhysicalCpus s = (1, s)
      /\ GetMaxCpus s = (4, s)
      /\ fst (GetMaxPhysicalCpus s) <> fst (GetMaxCpus s))
  /\ (exists s,
         SystemInfo_ctor win_x64 counts_disagree 2 = Some s
         /\ GetMaxPhysicalCpus s = (4, s)
         /\ GetMaxCpus s = (2, s)
         /\ ~ fst (GetMaxPhysicalCpus s) <= fst (GetMaxCpus s))
  /\ (exists s,
         SystemInfo_ctor osx_x64 no_threads 0 = Some s
         /\ GetMaxPhysicalCpus s = (1, s)
         /\ GetMaxCpus s = (0, s)
         /\ ~ fst (GetMaxPhysicalCpus s) <= fst (GetMaxCpus s)).
Proof.
  split; [|split]; eexists; (split; [reflexivity|]).
  - split; [reflexivity|]. split; [reflexivity|]. split; [reflexivity|].
    discriminate.
  - split; [reflexivity|]. split; [reflexivity|]. cbn. lia.
  - split; [reflexivity|]. split; [reflexivity|]. cbn. lia.
Qed.

(** ** GetCpuCacheSize *)

(** The earlier source yields 0 and the leaf yields 4194304. *)
Lemma cache_size_falls_back_to_cpuid :
  exists s,
    SystemInfo_ctor linux_x64 four_megabytes 0 = Some s
    /\ GetCpuCacheSize s = (4194304, s)
    /\ log s = [QLoadFromSystem; QReadCpuMaxFreq;
                QCpuid 0x80000000; QCpuid 0x80000006].
Proof. eexists. repeat split; reflexivity. Qed.

(** C4, at the failing input.  The leaf is asked because the earlier
    source left 0, but the value stored is that of the signed
    [cpu_info[2] >> 16], -32768, times 1024, and not bits 16 to 31 of the
    register, 32768, times 1024. *)
Theorem cache_size_of_cpuid_keeps_the_sign :
  exists s,
    SystemInfo_ctor linux_x64 bit_31_set 0 = Some s
    /\ GetCpuCacheSize s = (-33554432, s)
    /\ bits_16_31 (reg3 (cpuid bit_31_set 0x80000006 3)) * 1024 = 33554432.
Proof. eexists. repeat split; reflexivity. Qed.

(** * Further properties of the code *)

(** ** GetCurCpus *)

Lemma land_even_odd (a c : Z) : Z.land (2 * a) (2 * c + 1) = 2 * Z.land a c.
Proof.
  apply Z.bits_inj'. intros n Hn. rewrite Z.land_spec.
  destruct (Z.eq_dec n 0) as [->|Hz].
  - rewrite !Z.testbit_even_0. reflexivity.
  - replace n with (Z.succ (n - 1)) by lia.
    rewrite !Z.testbit_even_succ, Z.testbit_odd_succ, Z.land_spec by lia.
    reflexivity.
Qed.

Lemma land_odd_pred (a : Z) : Z.land (2 * a + 1) (2 * a) = 2 * a.
Proof.
  apply Z.bits_inj'. intros n Hn. rewrite Z.land_spec.
  destruct (Z.eq_dec n 0) as [->|Hz].
  - rewrite Z.testbit_even_0. now rewrite andb_false_r.
  - replace n with (Z.succ (n - 1)) by lia.
    rewrite Z.testbit_even_succ, Z.testbit_odd_succ by lia.
    now rewrite andb_diag.
Qed.

Lemma popcount_double (x : Z) : 0 <= x -> popcount (2 * x) = popcount x.
Proof. destruct x; intros; try reflexivity; lia. Qed.

Lemma pop_positive (p : positive) : 1 <= pop p.
Proof. induction p; cbn [pop]; lia. Qed.

(** One round of the loop removes exactly one set bit. *)
Lemma clear_lowest_bit (p : positive) :
  popcount (Z.land (Zpos p) (Zpos p - 1)) = pop p - 1.
Proof.
  induction p as [q IH|q IH|].
  - change (Zpos q~1) with (2 * Zpos q + 1).
    replace (2 * Zpos q + 1 - 1) with (2 * Zpos q) by lia.
    rewrite land_odd_pred. cbn [pop]. rewrite popcount_double by lia.
    cbn [popcount]. lia.
  - change (Zpos q~0) with (2 * Zpos q).
    replace (2 * Zpos q - 1) with (2 * (Zpos q - 1) + 1) by lia.
    rewrite land_even_odd.
    rewrite popcount_double by (apply Z.land_nonneg; lia).
    rewrite IH. reflexivity.
  - reflexivity.
Qed.

Lemma sparse_ones_counts (fuel : nat) :
  forall m c,
    0 <= m -> popcount m <= Z.of_nat fuel ->
    sparse_ones fuel m c = c + popcount m.
Proof.
  induction fuel as [|fuel IH]; intros m c Hm Hf.
  - destruct m as [|p|p]; cbn in *; try lia.
    pose proof (pop_positive p). lia.
  - cbn [sparse_ones]. destruct m as [|p|p]; [cbn; lia| |lia].
    change (Zpos p =? 0) with false. cbv iota.
    rewrite IH.
    + rewrite clear_lowest_bit. cbn [popcount]. lia.
    + apply Z.land_nonneg. lia.
    + rewrite clear_lowest_bit. cbn [popcount] in Hf. lia.
Qed.

Lemma pop_le_size (p : positive) : pop p <= Zpos (Pos.size p).
Proof. induction p; cbn [pop Pos.size]; lia. Qed.

Lemma popcount_bound (m n : Z) :
  0 <= n -> 0 <= m < 2 ^ n -> 0 <= popcount m <= n.
Proof.
  intros Hn Hm. destruct m as [|p|p]; cbn [popcount]; try lia.
  pose proof (pop_positive p). pose proof (pop_le_size p).
  split; [lia|].
  destruct (Z.le_gt_cases (Zpos (Pos.size p)) n) as [|Hgt]; [lia|].
  exfalso.
  pose proof (Pos.size_le p) as Hs.
  assert (E : 2 ^ Zpos (Pos.size p) <= Zpos p~0).
  { rewrite <- Pos2Z.inj_pow. exact Hs. }
  assert (2 ^ (n + 1) <= 2 ^ Zpos (Pos.size p))
    by (apply Z.pow_le_mono_r; lia).
  rewrite Z.pow_add_r in * by lia. lia.
Qed.

(** X8. On WIN32 GetCurCpus returns the number of bits set in the
    affinity mask, between 0 and 64: the 64 rounds allowed to the loop are
    enough.  On OSX and IOS a failing [hw.ncpu] gives 1.  On every build
    the call leaves the instance as it was: nothing is cached. *)
Theorem GetCurCpus_counts_the_affinity_mask (b : Build) (h : Host)
        (process_mask : Z) (s : St) :
  (WIN32 b = true ->
   GetCurCpus b h process_mask s = (popcount (to_uint64 process_mask), s)
   /\ 0 <= popcount (to_uint64 process_mask) <= 64)
  /\ (WIN32 b = false ->
      OSX b || IOS b = true ->
      sysctl_int h "hw.ncpu" (List.length (log s)) = None ->
      fst (GetCurCpus b h process_mask s) = 1)
  /\ this (snd (GetCurCpus b h process_mask s)) = this s.
Proof.
  assert (R : 0 <= to_uint64 process_mask < 2 ^ 64)
    by (apply Z.mod_pos_bound; lia).
  pose proof (popcount_bound _ 64 ltac:(lia) R) as B.
  split; [|split].
  - intros Hw. unfold GetCurCpus. rewrite Hw. unfold ret.
    rewrite sparse_ones_counts by (cbn; lia). split; [reflexivity|exact B].
  - intros Hw Ha Hfail. unfold GetCurCpus. rewrite Hw, Ha. run.
    now rewrite Hfail.
  - unfold GetCurCpus. run. split_branches; reflexivity.
Qed.

Lemma GetCurCpus_counts_the_affinity_mask_witness :
  WIN32 win_x64 = true
  /\ GetCurCpus win_x64 silent 11 (fresh SI_ARCH_X64)
     = (3, fresh SI_ARCH_X64).
Proof.
  split; [reflexivity|].
  exact (proj1 (proj1 (GetCurCpus_counts_the_affinity_mask
                         win_x64 silent 11 (fresh SI_ARCH_X64)) eq_refl)).
Defined.

(** ** GetProcessorInformation *)

Lemma scan_infos_spec (infos : list Relationship) :
  forall p c,
    scan_infos infos p c
    = (p + Z.of_nat (List.length (filter is_core infos)),
       fold_left Z.max (cache_sizes infos) c).
Proof.
  induction infos as [|[|size|] infos IH]; intros p c;
    cbn [scan_infos filter is_core cache_sizes flat_map app fold_left
         List.length].
  - f_equal. lia.
  - rewrite IH. f_equal. lia.
  - rewrite IH. f_equal. fold (cache_sizes infos). f_equal.
    destruct (Z.geb_spec (to_int32 size) c); lia.
  - apply IH.
Qed.

Lemma fold_max_bounds (l : list Z) :
  forall c,
    c <= fold_left Z.max l c
    /\ (forall x, In x l -> x <= fold_left Z.max l c)
    /\ (fold_left Z.max l c = c \/ In (fold_left Z.max l c) l).
Proof.
  induction l as [|y l IH]; intros c; cbn [fold_left In].
  - split; [lia|]. split; [tauto|]. now left.
  - destruct (IH (Z.max c y)) as (H1 & H2 & H3). split; [lia|]. split.
    + intros x [->|Hx]; [lia|now apply H2].
    + destruct H3 as [H3|H3]; [|now right; right].
      rewrite H3. destruct (Z.max_spec c y) as [[_ ->]|[_ ->]]; auto.
Qed.

Lemma geb_max (a c : Z) : (if a >=? c then a else c) = Z.max c a.
Proof. destruct (Z.geb_spec a c); lia. Qed.

Lemma scan_infos_perm (infos infos' : list Relationship) :
  Permutation infos infos' ->
  forall p c, scan_infos infos p c = scan_infos infos' p c.
Proof.
  induction 1 as [|x l l' _ IH|x y l|l l' l'' _ IH1 _ IH2]; intros p c.
  - reflexivity.
  - destruct x; cbn [scan_infos]; apply IH.
  - destruct x, y; cbn [scan_infos]; try reflexivity.
    rewrite !geb_max. f_equal. lia.
  - now rewrite IH1.
Qed.

(** X1. The loop over the entries of the enumeration counts the entries
    that are processor cores and keeps the largest cache size: started
    from 0 and 0, the cache size is 0 when no cache is listed (or none has
    a positive size) and is otherwise the size of a listed cache that no
    listed cache exceeds.  The order of the entries does not matter. *)
Theorem scan_infos_counts_cores_and_keeps_largest_cache
        (infos : list Relationship) :
  (let (physical_cpus, cache_size) := scan_infos infos 0 0 in
   physical_cpus = Z.of_nat (List.length (filter is_core infos))
   /\ 0 <= cache_size
   /\ (forall size, In size (cache_sizes infos) -> size <= cache_size)
   /\ (cache_size = 0 \/ In cache_size (cache_sizes infos)))
  /\ (forall infos',
         Permutation infos infos' ->
         scan_infos infos' 0 0 = scan_infos infos 0 0).
Proof.
  split.
  - rewrite scan_infos_spec.
    destruct (fold_max_bounds (cache_sizes infos) 0) as (H1 & H2 & H3).
    repeat split; auto.
  - intros infos' Hp. symmetry. now apply scan_infos_perm.
Qed.

Lemma scan_infos_counts_cores_and_keeps_largest_cache_witness :
  Permutation [RelationCache 512; RelationProcessorCore; RelationCache 1024]
              [RelationProcessorCore; RelationCache 1024; RelationCache 512]
  /\ scan_infos [RelationProcessorCore; RelationCache 1024; RelationCache 512]
                0 0
     = scan_infos [RelationCache 512; RelationProcessorCore;
                   RelationCache 1024] 0 0.
Proof.
  assert (P : Permutation
                [RelationCache 512; RelationProcessorCore; RelationCache 1024]
                [RelationProcessorCore; RelationCache 1024;
                 RelationCache 512]).
  { apply perm_trans with
      [RelationProcessorCore; RelationCache 512; RelationCache 1024];
      [apply perm_swap|apply perm_skip, perm_swap]. }
  split; [exact P|].
  exact (proj2 (scan_infos_counts_cores_and_keeps_largest_cache _) _ P).
Defined.

(** How the loop of the enumeration ends: after [n] answers "buffer too
    small" the next answer ends it; the instance is untouched. *)
Lemma glpi_loop_after_retries (h : Host) (n : nat) :
  forall (s : St) (fuel : nat),
    (forall k, (k < n)%nat ->
               GetLogicalProcessorInformation h (List.length (log s) + k)
               = GlpiInsufficientBuffer) ->
    GetLogicalProcessorInformation h (List.length (log s) + n)
    <> GlpiInsufficientBuffer ->
    (n < fuel)%nat ->
    glpi_loop h fuel s
    = Some (match GetLogicalProcessorInformation h (List.length (log s) + n)
            with
            | GlpiTrue infos => Some infos
            | _ => None
            end,
            mkSt (this s)
                 (log s ++ repeat QGetLogicalProcessorInformation (S n))).
Proof.
  induction n as [|n IH]; intros s fuel Hretry Hend Hfuel;
    (destruct fuel as [|fuel]; [lia|]); cbn [glpi_loop]; run.
  - rewrite Nat.add_0_r in *.
    destruct (GetLogicalProcessorInformation h (List.length (log s)));
      try reflexivity; congruence.
  - pose proof (Hretry O ltac:(lia)) as H0. rewrite Nat.add_0_r in H0.
    rewrite H0. rewrite IH; cbn [this log]; rewrite ?length_snoc.
    + replace (S (List.length (log s)) + n)%nat
        with (List.length (log s) + S n)%nat by lia.
      now rewrite repeat_snoc_app.
    + intros k Hk.
      replace (S (List.length (log s)) + k)%nat
        with (List.length (log s) + S k)%nat by lia.
      apply Hretry. lia.
    + now replace (S (List.length (log s)) + n)%nat
        with (List.length (log s) + S n)%nat by lia.
    + lia.
Qed.

Lemma GetProcessorInformation_writes (h : Host) (fuel : nat) (s s' : St) :
  GetProcessorInformation h fuel s = Some s' ->
  (this s' = this s
   /\ (GetProcAddress_glpi h (List.length (log s)) = false
       \/ exists t, GetLogicalProcessorInformation h t = GlpiError))
  \/ exists t infos,
      GetLogicalProcessorInformation h t = GlpiTrue infos
      /\ this s'
         = set_cache_size (snd (scan_infos infos 0 0))
             (set_physical_cpus (fst (scan_infos infos 0 0)) (this s)).
Proof.
  unfold GetProcessorInformation. run.
  destruct (GetProcAddress_glpi h (List.length (log s))) eqn:Hp; cbn [negb].
  - destruct (glpi_loop h fuel _) as [[[infos|] s2]|] eqn:L; [| |discriminate];
      apply glpi_loop_result in L as [Hthis Ht]; cbn [this] in Hthis.
    + destruct Ht as [t Ht]. destruct (scan_infos infos 0 0) as [p c] eqn:Sc.
      intros E. injection E as <-. right. exists t, infos.
      cbn [this]. rewrite Sc, Hthis. auto.
    + intros E. injection E as <-. left. rewrite Hthis. auto.
  - intros E. injection E as <-. left. auto.
Qed.

(** X2. GetProcessorInformation returns once the fuel covers the answers
    "buffer too small".  Without the entry point in kernel32, or when the
    enumeration fails for another reason, the two outputs are left as
    they were; when it succeeds they are overwritten with the count of
    cores and the largest cache of the entries, whatever they held.  The
    log shows one lookup of the entry point and one query per round. *)
Theorem GetProcessorInformation_after_retries (h : Host) (n fuel : nat)
        (s : St) :
  let t := List.length (log s) in
  let lookup := QGetProcAddress "GetLogicalProcessorInformation" in
  let rounds := repeat QGetLogicalProcessorInformation (S n) in
  (GetProcAddress_glpi h t = false ->
   GetProcessorInformation h fuel s = Some (mkSt (this s) (log s ++ [lookup])))
  /\ (GetProcAddress_glpi h t = true ->
      (forall k, (k < n)%nat ->
                 GetLogicalProcessorInformation h (S t + k)
                 = GlpiInsufficientBuffer) ->
      (n < fuel)%nat ->
      (GetLogicalProcessorInformation h (S t + n) = GlpiError ->
       GetProcessorInformation h fuel s
       = Some (mkSt (this s) (log s ++ lookup :: rounds)))
      /\ (forall infos,
             GetLogicalProcessorInformation h (S t + n) = GlpiTrue infos ->
             GetProcessorInformation h fuel s
             = Some (mkSt (set_cache_size (snd (scan_infos infos 0 0))
                             (set_physical_cpus (fst (scan_infos infos 0 0))
                                                (this s)))
                          (log s ++ lookup :: rounds)))).
Proof.
  cbv zeta. split.
  - intros Hp. unfold GetProcessorInformation. run. now rewrite Hp.
  - intros Hp Hretry Hfuel.
    assert (L : forall a,
               GetLogicalProcessorInformation h (S (List.length (log s)) + n)
               = a ->
               a <> GlpiInsufficientBuffer ->
               glpi_loop h fuel
                 (mkSt (this s)
                       (log s
                        ++ [QGetProcAddress "GetLogicalProcessorInformation"]))
               = Some (match a with
                       | GlpiTrue infos => Some infos
                       | _ => None
                       end,
                       mkSt (this s)
                            ((log s
                              ++ [QGetProcAddress
                                    "GetLogicalProcessorInformation"])
                             ++ repeat QGetLogicalProcessorInformation
                                       (S n)))).
    { intros a Ha Hne.
      rewrite (glpi_loop_after_retries h n); cbn [this log];
        rewrite ?length_snoc; try assumption.
      - now rewrite Ha.
      - congruence. }
    split.
    + intros Herr. unfold GetProcessorInformation. run. rewrite Hp.
      cbn [negb]. rewrite (L _ Herr) by discriminate.
      now rewrite <- app_assoc.
    + intros infos Hok. unfold GetProcessorInformation. run. rewrite Hp.
      cbn [negb]. rewrite (L _ Hok) by discriminate.
      destruct (scan_infos infos 0 0). cbn [this log fst snd].
      now rewrite <- app_assoc.
Qed.

Lemma GetProcessorInformation_after_retries_witness :
  (GetProcAddress_glpi two_cores 0 = true
   /\ (forall k, (k < 2)%nat ->
                 GetLogicalProcessorInformation two_cores (1 + k)
                 = GlpiInsufficientBuffer)
   /\ (2 < 3)%nat)
  /\ GetProcessorInformation two_cores 3 (fresh SI_ARCH_X64)
     = Some (mkSt (set_cache_size 3145728
                     (set_physical_cpus 2 (initializers SI_ARCH_X64)))
                  [QGetProcAddress "GetLogicalProcessorInformation";
                   QGetLogicalProcessorInformation;
                   QGetLogicalProcessorInformation;
                   QGetLogicalProcessorInformation]).
Proof.
  assert (R : forall k, (k < 2)%nat ->
                        GetLogicalProcessorInformation two_cores (1 + k)
                        = GlpiInsufficientBuffer).
  { intros [|[|k]] Hk; [reflexivity|reflexivity|lia]. }
  split; [repeat split; [exact R|lia]|].
  exact (proj2 (proj2 (GetProcessorInformation_after_retries
                         two_cores 2 3 (fresh SI_ARCH_X64))
                      eq_refl R ltac:(lia))
               _ eq_refl).
Defined.

(** ** The constructor *)

Lemma revision_splits (r : Z) :
  0 <= r ->
  Z.shiftr r 8 * 256 + Z.land r 255 = r
  /\ 0 <= Z.land r 255 < 256.
Proof.
  intros Hr. change 255 with (Z.ones 8).
  rewrite Z.land_ones, Z.shiftr_div_pow2 by lia.
  change (2 ^ 8) with 256.
  pose proof (Z.div_mod r 256 ltac:(lia)).
  pose proof (Z.mod_pos_bound r 256 ltac:(lia)). lia.
Qed.

(** X4. On WIN32 the constructor takes the family from wProcessorLevel
    and splits wProcessorRevision into model (high byte) and stepping
    (low byte): both lie in 0..255 and model * 256 + stepping gives the
    revision word back.  The enumeration of the processors and the cpuid
    step do not disturb them. *)
Theorem win32_revision_splits_into_model_and_stepping (b : Build) (h : Host)
        (fuel : nat) (s : St) :
  WIN32 b = true ->
  SystemInfo_ctor b h fuel = Some s ->
  let si := GetSystemInfo h 0 in
  fst (GetCpuFamily s) = to_uint16 (wProcessorLevel si)
  /\ fst (GetCpuModel s) * 256 + fst (GetCpuStepping s)
     = to_uint16 (wProcessorRevision si)
  /\ 0 <= fst (GetCpuModel s) < 256
  /\ 0 <= fst (GetCpuStepping s) < 256.
Proof.
  intros Hw. unfold SystemInfo_ctor. rewrite Hw.
  destruct (cpu_arch_of_build b) as [arch|]; [|discriminate].
  destruct (ctor_win32 h fuel _) as [s1|] eqn:C; [|discriminate].
  intros E. injection E as <-. cbv zeta.
  unfold GetCpuFamily, GetCpuModel, GetCpuStepping, get. cbn [fst].
  assert (I : identity (this (snd (ctor_cpuid b h s1)))
              = (to_uint16 (wProcessorLevel (GetSystemInfo h 0)),
                 Z.shiftr (to_uint16 (wProcessorRevision (GetSystemInfo h 0)))
                          8,
                 Z.land (to_uint16 (wProcessorRevision (GetSystemInfo h 0)))
                        255)).
  { rewrite ctor_cpuid_keeps by reflexivity.
    unfold ctor_win32 in C. run. cbn [Datatypes.length] in C.
    destruct (GetProcessorInformation h fuel _) as [s3|]; [|discriminate].
    injection C as <-. unfold ctor_win32_rest. run.
    destruct (physical_cpus_ (this s3) <=? 0); reflexivity. }
  unfold identity in I. injection I as -> -> ->.
  assert (R : 0 <= to_uint16 (wProcessorRevision (GetSystemInfo h 0)) < 2 ^ 16)
    by (apply Z.mod_pos_bound; lia).
  destruct (revision_splits _ (proj1 R)) as [Hsplit Hlow].
  repeat split; try lia; reflexivity.
Qed.

Lemma win32_revision_splits_into_model_and_stepping_witness :
  (WIN32 win_x64 = true
   /\ exists s, SystemInfo_ctor win_x64 two_cores 3 = Some s)
  /\ exists s,
      SystemInfo_ctor win_x64 two_cores 3 = Some s
      /\ fst (GetCpuModel s) * 256 + fst (GetCpuStepping s) = 0x2A07.
Proof.
  split; [split; [reflexivity|eexists; reflexivity]|].
  eexists. split; [reflexivity|].
  exact (proj1 (proj2 (win32_revision_splits_into_model_and_stepping
                         win_x64 two_cores 3 _ eq_refl eq_refl))).
Defined.

(** The steps of a chain, one at a time. *)
Lemma log_store (f : Z -> SystemInfo -> SystemInfo) (v : option Z) (s : St) :
  log (snd (store f v s)) = log s.
Proof. now destruct v. Qed.

Lemma this_store (f : Z -> SystemInfo -> SystemInfo) (v : option Z) (s : St) :
  this (snd (store f v s))
  = match v with
    | Some z => f (to_int32 z) (this s)
    | None => this s
    end.
Proof. now destruct v. Qed.

Lemma log_ask {A} (q : Query) (f : nat -> A) (s : St) :
  log (snd (ask q f s)) = log s ++ [q].
Proof. reflexivity. Qed.

Lemma this_ask {A} (q : Query) (f : nat -> A) (s : St) :
  this (snd (ask q f s)) = this s.
Proof. reflexivity. Qed.

Lemma fst_ask {A} (q : Query) (f : nat -> A) (s : St) :
  fst (ask q f s) = f (List.length (log s)).
Proof. reflexivity. Qed.

Lemma snd_get {A} (f : SystemInfo -> A) (s : St) : snd (get f s) = s.
Proof. reflexivity. Qed.

Lemma fst_get {A} (f : SystemInfo -> A) (s : St) : fst (get f s) = f (this s).
Proof. reflexivity. Qed.

Create Rewrite HintDb steps.
#[local] Hint Rewrite log_store this_store @log_ask @this_ask @fst_ask
  @snd_get @fst_get @length_snoc : steps.

Ltac steps :=
  unfold sysctlbyname, __cpuid;
  repeat (rewrite bind_run; cbv beta);
  autorewrite with steps; cbn [Datatypes.length app log this fresh].

Create Rewrite HintDb logs.
#[local] Hint Rewrite log_store @log_ask @this_ask @fst_ask @snd_get @fst_get
  @length_snoc : logs.

(** The same without opening the conditional writes. *)
Ltac logs :=
  unfold sysctlbyname, __cpuid;
  repeat (rewrite bind_run; cbv beta);
  autorewrite with logs; cbn [Datatypes.length app log this fresh].

Lemma ctor_cpuid_keeps_cache (b : Build) (h : Host) (s : St) :
  cache_size_ (this s) <> 0 \/ CPU_X86 b = false ->
  cache_size_ (this (snd (ctor_cpuid b h s))) = cache_size_ (this s).
Proof.
  intros H. rewrite ctor_cpuid_result. cbn [snd].
  destruct H as [H|H].
  - apply Z.eqb_neq in H. rewrite H, andb_false_r. reflexivity.
  - rewrite H. reflexivity.
Qed.

Lemma ctor_apple_cache_size (h : Host) (arch : Architecture) :
  let l3 := match sysctl_int h "hw.l3cachesize" 2 with
            | Some v => to_int32 v
            | None => 0
            end in
  let l2 := match sysctl_int h "hw.l2cachesize" 3 with
            | Some v => to_int32 v
            | None => 0
            end in
  cache_size_ (this (snd (ctor_apple h (fresh arch))))
  = if l3 =? 0 then l2 else l3.
Proof.
  cbv zeta. unfold ctor_apple. repeat (rewrite bind_run; cbv beta).
  repeat peel cache_size_. steps. unfold when.
  destruct (sysctl_int h "hw.l3cachesize" 2) as [v3|];
    cbn [cache_size_ set_cache_size set_logical_cpus set_physical_cpus].
  - destruct (to_int32 v3 =? 0) eqn:E3.
    + steps. destruct (sysctl_int h "hw.l2cachesize" 3); cbn.
      * reflexivity.
      * now apply Z.eqb_eq in E3.
    + reflexivity.
  - replace (cache_size_ _ =? 0) with true
      by (destruct (sysctl_int h "hw.logicalcpu_max" 1);
          destruct (sysctl_int h "hw.physicalcpu_max" 0); reflexivity).
    steps. destruct (sysctl_int h "hw.l2cachesize" 3); cbn; [reflexivity|].
    destruct (sysctl_int h "hw.logicalcpu_max" 1);
      destruct (sysctl_int h "hw.physicalcpu_max" 0); reflexivity.
Qed.

(** X5. On OSX and IOS the cache size is the L3 size when [hw.l3cachesize]
    reports a non-zero one; the L2 size counts only when the L3 size is
    zero or cannot be read; with both zero and no cpuid the result is 0.
    A non-zero size from sysctl is never replaced by the cpuid step. *)
Theorem apple_cache_size_prefers_l3 (b : Build) (h : Host) (fuel : nat)
        (s : St) :
  WIN32 b = false ->
  OSX b || IOS b = true ->
  SystemInfo_ctor b h fuel = Some s ->
  let l3 := match sysctl_int h "hw.l3cachesize" 2 with
            | Some v => to_int32 v
            | None => 0
            end in
  let l2 := match sysctl_int h "hw.l2cachesize" 3 with
            | Some v => to_int32 v
            | None => 0
            end in
  (l3 <> 0 -> fst (GetCpuCacheSize s) = l3)
  /\ (l3 = 0 -> l2 <> 0 -> fst (GetCpuCacheSize s) = l2)
  /\ (l3 = 0 -> l2 = 0 -> CPU_X86 b = false -> fst (GetCpuCacheSize s) = 0).
Proof.
  intros Hw Ha Hs l3 l2. revert Hs.
  unfold SystemInfo_ctor. rewrite Hw, Ha.
  destruct (cpu_arch_of_build b) as [arch|]; [|discriminate].
  intros E. injection E as <-.
  unfold GetCpuCacheSize, get. cbn [fst].
  pose proof (ctor_apple_cache_size h arch) as C. cbv zeta in C.
  fold l3 l2 in C. unfold fresh in C.
  split; [|split].
  - intros H3. rewrite ctor_cpuid_keeps_cache; rewrite C;
      apply Z.eqb_neq in H3; rewrite H3; [reflexivity|].
    left. now apply Z.eqb_neq.
  - intros H3 H2. rewrite ctor_cpuid_keeps_cache; rewrite C, H3; cbn;
      [reflexivity|now left].
  - intros H3 H2 Hx. rewrite ctor_cpuid_keeps_cache by now right.
    rewrite C, H3. exact H2.
Qed.

Lemma apple_cache_size_prefers_l3_witness :
  (WIN32 osx_x64 = false
   /\ OSX osx_x64 || IOS osx_x64 = true
   /\ exists s, SystemInfo_ctor osx_x64 l2_only 0 = Some s)
  /\ exists s,
      SystemInfo_ctor osx_x64 l2_only 0 = Some s
      /\ fst (GetCpuCacheSize s) = 262144.
Proof.
  split; [repeat split; eexists; reflexivity|].
  eexists. split; [reflexivity|].
  exact (proj1 (proj2 (apple_cache_size_prefers_l3
                         osx_x64 l2_only 0 _ eq_refl eq_refl eq_refl))
               eq_refl ltac:(discriminate)).
Defined.

(** Steps that issue no query. *)
Lemma quiet_ret {A} (a : A) : asks_nothing (ret a).
Proof. intros s. reflexivity. Qed.

Lemma quiet_get {A} (f : SystemInfo -> A) : asks_nothing (get f).
Proof. intros s. reflexivity. Qed.

Lemma quiet_modify (f : SystemInfo -> SystemInfo) : asks_nothing (modify f).
Proof. intros s. reflexivity. Qed.

Lemma quiet_store (f : Z -> SystemInfo -> SystemInfo) (v : option Z) :
  asks_nothing (store f v).
Proof. intros s. apply log_store. Qed.

Lemma quiet_when (c : bool) (m : M unit) :
  asks_nothing m -> asks_nothing (when c m).
Proof. intros Hm. destruct c; [exact Hm|apply quiet_ret]. Qed.

Lemma quiet_bind {A B} (m : M A) (k : A -> M B) :
  asks_nothing m -> (forall a, asks_nothing (k a)) -> asks_nothing (bind m k).
Proof. intros Hm Hk s. rewrite bind_run, Hk. apply Hm. Qed.

Create HintDb quiet.
#[local] Hint Resolve quiet_ret quiet_get quiet_modify quiet_store
  quiet_when : quiet.
#[local] Hint Extern 1 (asks_nothing (bind _ _)) =>
  apply quiet_bind; [|intros ?] : quiet.

(** Forget a quiet step when only the log is looked at. *)
Ltac hush :=
  match goal with
  | |- context [log (snd (?m ?s))] =>
      let H := fresh in
      assert (H : asks_nothing m) by auto 12 with quiet;
      rewrite (H s); clear H
  end.

Lemma ctor_linux_speed (b : Build) (h : Host) (arch : Architecture) :
  let max_freq := to_int32 (ReadCpuMaxFreq h 1) in
  cpu_speed_ (this (snd (ctor_linux b h (fresh arch))))
  = if max_freq >? 0 then Z.quot max_freq 1000
    else match LoadFromSystem h 0 with
         | Some proc_info =>
             if CPU_ARM b then 0
             else match GetSectionIntValue proc_info 0 "cpu MHz" with
                  | Some v => to_int32 v
                  | None => 0
                  end
         | None => 0
         end.
Proof.
  cbv zeta. unfold ctor_linux. logs.
  destruct (LoadFromSystem h 0) as [p|].
  - logs. repeat hush. logs. unfold when at 1.
    destruct (to_int32 (ReadCpuMaxFreq h 1) >? 0); [reflexivity|].
    cbn [snd ret]. logs. unfold when.
    destruct (CPU_ARM b); cbn [negb].
    + cbn [ret snd]. repeat peel cpu_speed_. reflexivity.
    + repeat (rewrite bind_run; cbv beta). repeat peel cpu_speed_.
      rewrite this_store.
      destruct (GetSectionIntValue p 0 "cpu MHz"); [reflexivity|].
      repeat peel cpu_speed_. reflexivity.
  - cbn [ret snd]. logs. unfold when.
    destruct (to_int32 (ReadCpuMaxFreq h 1) >? 0); reflexivity.
Qed.

Lemma GetMaxCpuSpeed_without_source (b : Build) (h : Host) (s : St) :
  WIN32 b = false ->
  IOS b || OSX b = false ->
  GetMaxCpuSpeed b h s = (cpu_speed_ (this s), s).
Proof.
  intros Hw Ha.
  destruct (Z.eq_dec (cpu_speed_ (this s)) 0) as [Hc|Hc].
  - rewrite (GetMaxCpuSpeed_miss b h s Hc). unfold resolve_speed.
    rewrite Hw, Ha. cbn [fst snd].
    rewrite (set_cpu_speed_unset _ Hc), List.app_nil_r, mkSt_eta.
    now rewrite Hc.
  - now apply GetMaxCpuSpeed_cached.
Qed.

Lemma ctor_cpuid_keeps_speed (b : Build) (h : Host) (s : St) :
  cpu_speed_ (this (snd (ctor_cpuid b h s))) = cpu_speed_ (this s).
Proof. now apply ctor_cpuid_keeps. Qed.

(** X6. On LINUX and ANDROID the nominal speed is the cpuinfo_max_freq of
    cpufreq, in MHz rounded down, as soon as that file gives a positive
    number: it overrides the "cpu MHz" of /proc/cpuinfo, and a value below
    1000 kHz gives 0.  Without it the speed is the "cpu MHz" that a
    non-ARM build read, and 0 otherwise.  GetMaxCpuSpeed returns exactly
    this value and asks nothing. *)
Theorem linux_max_freq_overrides_cpuinfo (b : Build) (h : Host) (fuel : nat)
        (s : St) :
  WIN32 b = false ->
  OSX b || IOS b = false ->
  SystemInfo_ctor b h fuel = Some s ->
  let max_freq := to_int32 (ReadCpuMaxFreq h 1) in
  let mhz := fst (GetMaxCpuSpeed b h s) in
  log (snd (GetMaxCpuSpeed b h s)) = log s
  /\ (0 < max_freq ->
      1000 * mhz <= max_freq < 1000 * (mhz + 1))
  /\ (max_freq <= 0 ->
      mhz = match LoadFromSystem h 0 with
            | Some proc_info =>
                if CPU_ARM b then 0
                else match GetSectionIntValue proc_info 0 "cpu MHz" with
                     | Some v => to_int32 v
                     | None => 0
                     end
            | None => 0
            end).
Proof.
  intros Hw Ha Hs max_freq mhz.
  assert (Hios : IOS b || OSX b = false) by now rewrite orb_comm.
  pose proof (GetMaxCpuSpeed_without_source b h s Hw Hios) as E.
  subst mhz. rewrite E. cbn [fst snd]. split; [reflexivity|].
  revert Hs. unfold SystemInfo_ctor. rewrite Hw, Ha.
  destruct (cpu_arch_of_build b) as [arch|]; [|discriminate].
  intros Hs. injection Hs as <-.
  rewrite ctor_cpuid_keeps_speed.
  pose proof (ctor_linux_speed b h arch) as S. cbv zeta in S.
  fold max_freq in S. unfold fresh in S. rewrite S. split.
  - intros Hpos. apply Z.gtb_lt in Hpos as Hb. rewrite Hb.
    rewrite Z.quot_div_nonneg by lia.
    pose proof (Z.div_mod max_freq 1000 ltac:(lia)).
    pose proof (Z.mod_pos_bound max_freq 1000 ltac:(lia)). lia.
  - intros Hneg. destruct (Z.gtb_spec max_freq 0); [lia|reflexivity].
Qed.

Lemma linux_max_freq_overrides_cpuinfo_witness :
  (WIN32 linux_x64 = false
   /\ OSX linux_x64 || IOS linux_x64 = false
   /\ (exists s, SystemInfo_ctor linux_x64 scaled_down 0 = Some s)
   /\ 0 < to_int32 (ReadCpuMaxFreq scaled_down 1))
  /\ exists s,
      SystemInfo_ctor linux_x64 scaled_down 0 = Some s
      /\ 1000 * fst (GetMaxCpuSpeed linux_x64 scaled_down s)
         <= to_int32 (ReadCpuMaxFreq scaled_down 1)
         < 1000 * (fst (GetMaxCpuSpeed linux_x64 scaled_down s) + 1).
Proof.
  split; [repeat split; eexists; reflexivity|].
  eexists. split; [reflexivity|].
  exact (proj1 (proj2 (linux_max_freq_overrides_cpuinfo
                         linux_x64 scaled_down 0 _ eq_refl eq_refl eq_refl))
               eq_refl).
Defined.

Lemma ctor_linux_cache_size (b : Build) (h : Host) (arch : Architecture) :
  cache_size_ (this (snd (ctor_linux b h (fresh arch))))
  = match LoadFromSystem h 0 with
    | Some proc_info =>
        if CPU_ARM b then 0
        else to_int32
               (match GetSectionIntValue proc_info 0 "cache size" with
                | Some v => to_int32 v
                | None => 0
                end * 1024)
    | None => 0
    end.
Proof.
  unfold ctor_linux. logs. repeat peel cache_size_.
  destruct (LoadFromSystem h 0) as [p|]; [|reflexivity].
  repeat (rewrite bind_run; cbv beta). unfold when.
  destruct (CPU_ARM b); cbn [negb].
  - cbn [ret snd]. repeat peel cache_size_. reflexivity.
  - repeat (rewrite bind_run; cbv beta).
    cbn [modify snd this cache_size_ set_cache_size].
    rewrite fst_get, this_store.
    destruct (GetSectionIntValue p 0 "cache size"); [reflexivity|].
    do 2 f_equal. repeat peel cache_size_. reflexivity.
Qed.

Lemma ctor_linux_arm (b : Build) (h : Host) :
  CPU_ARM b = true -> keeps not_read_on_arm (ctor_linux b h).
Proof.
  intros Harm. unfold ctor_linux. rewrite Harm. cbn [negb when].
  auto 15 with keeps.
Qed.

(** X7. On LINUX the "cache size" of /proc/cpuinfo is a number of KB: a
    non-ARM build stores it times 1024, and for a size between 1 KB and
    2 GB nothing wraps and the cpuid step leaves it alone.  A CPU_ARM
    build without CPU_X86 reads neither cache size nor model nor
    stepping: the three accessors return 0. *)
Theorem linux_cache_size_is_kilobytes_times_1024 (b : Build) (h : Host)
        (fuel : nat) (s : St) :
  WIN32 b = false ->
  OSX b || IOS b = false ->
  SystemInfo_ctor b h fuel = Some s ->
  (forall proc_info k,
      LoadFromSystem h 0 = Some proc_info ->
      CPU_ARM b = false ->
      GetSectionIntValue proc_info 0 "cache size" = Some k ->
      0 < k < 2 ^ 21 ->
      fst (GetCpuCacheSize s) = k * 1024)
  /\ (CPU_ARM b = true ->
      CPU_X86 b = false ->
      fst (GetCpuCacheSize s) = 0
      /\ fst (GetCpuModel s) = 0
      /\ fst (GetCpuStepping s) = 0).
Proof.
  intros Hw Ha. unfold SystemInfo_ctor. rewrite Hw, Ha.
  destruct (cpu_arch_of_build b) as [arch|]; [|discriminate].
  intros E. injection E as <-.
  unfold GetCpuCacheSize, GetCpuModel, GetCpuStepping, get. cbn [fst].
  split.
  - intros p k Hp Harm Hk Hrange.
    assert (C : cache_size_
                  (this (snd (ctor_linux b h (mkSt (initializers arch) []))))
                = k * 1024).
    { change (mkSt (initializers arch) []) with (fresh arch).
      rewrite ctor_linux_cache_size, Hp, Harm, Hk.
      rewrite (to_int32_small k) by lia. apply to_int32_small. lia. }
    rewrite ctor_cpuid_keeps_cache; rewrite C; [reflexivity|left; lia].
  - intros Harm Hx.
    assert (K : keeps not_read_on_arm (ctor_cpuid b h)).
    { unfold ctor_cpuid. rewrite Hx. apply keeps_ret. }
    pose proof (K (snd (ctor_linux b h (mkSt (initializers arch) []))))
      as E1.
    rewrite (ctor_linux_arm b h Harm) in E1.
    unfold not_read_on_arm in E1. injection E1 as H1 H2 H3.
    rewrite H1, H2, H3. auto.
Qed.

Lemma linux_cache_size_is_kilobytes_times_1024_witness :
  (WIN32 linux_x64 = false
   /\ OSX linux_x64 || IOS linux_x64 = false
   /\ exists s, SystemInfo_ctor linux_x64 scaled_down 0 = Some s)
  /\ exists s,
      SystemInfo_ctor linux_x64 scaled_down 0 = Some s
      /\ fst (GetCpuCacheSize s) = 6144 * 1024.
Proof.
  split; [repeat split; eexists; reflexivity|].
  eexists. split; [reflexivity|].
  exact (proj1 (linux_cache_size_is_kilobytes_times_1024
                  linux_x64 scaled_down 0 _ eq_refl eq_refl eq_refl)
               _ 6144 eq_refl eq_refl eq_refl ltac:(lia)).
Defined.

(** ** GetCurCpuSpeed *)

Lemma GetCurCpuSpeed_live (b : Build) (h : Host) (s : St) (v : Z) :
  WIN32 b = false ->
  IOS b || OSX b = true ->
  sysctl_int h "hw.cpufrequency" (List.length (log s)) = Some v ->
  GetCurCpuSpeed b h s
  = (to_int32 (to_uint64 v / 1000000),
     mkSt (this s) (log s ++ [QSysctl "hw.cpufrequency"])).
Proof.
  intros Hw Ha Hv. unfold GetCurCpuSpeed. rewrite Hw, Ha. run.
  now rewrite Hv.
Qed.

(** X9. GetCurCpuSpeed is GetMaxCpuSpeed on WIN32 and on LINUX.  On OSX
    and IOS it reads [hw.cpufrequency] at every call and returns it in
    MHz without storing it: [n] calls make [n] queries and leave the
    instance, the cached nominal speed included, as it was.  Only when
    the read fails does the call fall back to GetMaxCpuSpeed. *)
Theorem GetCurCpuSpeed_is_live_or_nominal (b : Build) (h : Host) (s : St) :
  (WIN32 b = true \/ IOS b || OSX b = false ->
   GetCurCpuSpeed b h s = GetMaxCpuSpeed b h s)
  /\ (WIN32 b = false ->
      IOS b || OSX b = true ->
      sysctl_int h "hw.cpufrequency" (List.length (log s)) = None ->
      GetCurCpuSpeed b h s
      = GetMaxCpuSpeed b h
          (mkSt (this s) (log s ++ [QSysctl "hw.cpufrequency"])))
  /\ (WIN32 b = false ->
      IOS b || OSX b = true ->
      forall (n : nat) (live : nat -> Z),
        (forall k, (k < n)%nat ->
                   sysctl_int h "hw.cpufrequency" (List.length (log s) + k)
                   = Some (live k)) ->
        repeat_call (GetCurCpuSpeed b h) n s
        = (map (fun k => to_int32 (to_uint64 (live k) / 1000000)) (seq 0 n),
           mkSt (this s) (log s ++ repeat (QSysctl "hw.cpufrequency") n))).
Proof.
  split; [|split].
  - intros [Hw|Ha]; unfold GetCurCpuSpeed.
    + now rewrite Hw.
    + rewrite Ha. now destruct (WIN32 b).
  - intros Hw Ha Hv. unfold GetCurCpuSpeed. rewrite Hw, Ha. run.
    now rewrite Hv.
  - intros Hw Ha n. revert s.
    induction n as [|n IH]; intros s live Hlive.
    + cbn. unfold ret. now rewrite List.app_nil_r, mkSt_eta.
    + cbn [repeat_call]. unfold bind at 1.
      pose proof (Hlive O ltac:(lia)) as H0. rewrite Nat.add_0_r in H0.
      rewrite (GetCurCpuSpeed_live b h s _ Hw Ha H0).
      unfold bind. rewrite (IH _ (fun k => live (S k))).
      * unfold ret. cbn [this log]. rewrite repeat_snoc_app.
        cbn [seq map]. now rewrite <- seq_shift, map_map.
      * intros k Hk. cbn [log]. rewrite length_snoc.
        replace (S (List.length (log s)) + k)%nat
          with (List.length (log s) + S k)%nat by lia.
        apply Hlive. lia.
Qed.

Lemma GetCurCpuSpeed_is_live_or_nominal_witness :
  (WIN32 osx_x64 = false
   /\ IOS osx_x64 || OSX osx_x64 = true
   /\ forall k, (k < 2)%nat ->
                sysctl_int throttled "hw.cpufrequency"
                           (List.length (log (fresh SI_ARCH_X64)) + k)
                = Some 1200000000)
  /\ repeat_call (GetCurCpuSpeed osx_x64 throttled) 2 (fresh SI_ARCH_X64)
     = ([1200; 1200],
        mkSt (initializers SI_ARCH_X64)
             [QSysctl "hw.cpufrequency"; QSysctl "hw.cpufrequency"]).
Proof.
  split; [repeat split|].
  exact (proj2 (proj2 (GetCurCpuSpeed_is_live_or_nominal
                         osx_x64 throttled (fresh SI_ARCH_X64)))
               eq_refl eq_refl 2%nat (fun _ => 1200000000)
               (fun _ _ => eq_refl)).
Defined.

(** ** GetGpuInfo *)

(** X10. GetGpuInfo never reads or writes the instance: on every build,
    for every argument, the instance after the call is the one before.
    On a build without Direct3D that is not OSX (LINUX, ANDROID, IOS, or
    WIN32 with EXCLUDE_D3D9) a call with a struct returns false, asks
    nothing and leaves the struct as it was. *)
Theorem GetGpuInfo_keeps_the_instance (b : Build) (h : Host)
        (loc : numpunct) (info : option GpuInfo) (s : St) :
  this (snd (GetGpuInfo b h loc info s)) = this s
  /\ (uses_d3d9 b = false ->
      OSX b = false ->
      forall i, GetGpuInfo b h loc (Some i) s = ((false, Some i), s)).
Proof.
  split.
  - unfold GetGpuInfo, GetAdapterIdentifier_default, GetProperty_int,
      GetProperty_string. run.
    destruct info; [|reflexivity]. split_branches; reflexivity.
  - unfold uses_d3d9. intros Hd Ho i. unfold GetGpuInfo.
    now rewrite Hd, Ho.
Qed.

Lemma GetGpuInfo_keeps_the_instance_witness :
  (uses_d3d9 linux_x64 = false /\ OSX linux_x64 = false)
  /\ GetGpuInfo linux_x64 geforce classic (Some blank) (fresh SI_ARCH_X64)
     = ((false, Some blank), fresh SI_ARCH_X64).
Proof.
  split; [split; reflexivity|].
  exact (proj2 (GetGpuInfo_keeps_the_instance
                  linux_x64 geforce classic None (fresh SI_ARCH_X64))
               eq_refl eq_refl blank).
Defined.

(** X11. On OSX (without Direct3D) GetGpuInfo returns true whatever IOKit
    answers.  It searches "vendor-id", "device-id" and "model", in this
    order; device_name, driver and driver_version are never written, and
    a field whose property is missing or of an unexpected type keeps the
    value the caller put in the struct. *)
Theorem GetGpuInfo_osx_always_succeeds (b : Build) (h : Host)
        (loc : numpunct) (i : GpuInfo) (s : St) :
  uses_d3d9 b = false ->
  OSX b = true ->
  let t := List.length (log s) in
  exists i',
    GetGpuInfo b h loc (Some i) s
    = ((true, Some i'),
       mkSt (this s)
            (log s ++ [QIOKit "vendor-id"; QIOKit "device-id";
                       QIOKit "model"]))
    /\ device_name i' = device_name i
    /\ driver i' = driver i
    /\ driver_version i' = driver_version i
    /\ (unusable_number (IORegistryEntrySearchCFProperty h "vendor-id" t)
        = true -> vendor_id i' = vendor_id i)
    /\ (unusable_number (IORegistryEntrySearchCFProperty h "device-id" (S t))
        = true -> device_id i' = device_id i)
    /\ (unusable_text (IORegistryEntrySearchCFProperty h "model" (S (S t)))
        = true -> description i' = description i).
Proof.
  intros Hd Ho t. unfold uses_d3d9 in Hd.
  unfold GetGpuInfo, GetProperty_int, GetProperty_string. rewrite Hd, Ho.
  run. tidy. fold t. rewrite <- app_assoc. cbn [app].
  eexists. split; [reflexivity|]. cbn [device_name driver driver_version
                                       vendor_id device_id description].
  repeat split.
  - destruct (IORegistryEntrySearchCFProperty h "vendor-id" t);
      cbn; try reflexivity; try discriminate.
    destruct (_ =? _)%nat; [discriminate|reflexivity].
  - destruct (IORegistryEntrySearchCFProperty h "device-id" (S t));
      cbn; try reflexivity; try discriminate.
    destruct (_ =? _)%nat; [discriminate|reflexivity].
  - destruct (IORegistryEntrySearchCFProperty h "model" (S (S t)));
      cbn; try reflexivity; discriminate.
Qed.

Lemma GetGpuInfo_osx_always_succeeds_witness :
  (uses_d3d9 osx_x64 = false /\ OSX osx_x64 = true)
  /\ exists i',
      fst (GetGpuInfo osx_x64 headless classic (Some blank) (fresh SI_ARCH_X64))
      = (true, Some i').
Proof.
  split; [split; reflexivity|].
  destruct (GetGpuInfo_osx_always_succeeds
              osx_x64 headless classic blank (fresh SI_ARCH_X64) eq_refl eq_refl)
    as (i' & E & _).
  exists i'. now rewrite E.
Defined.

Lemma GetAdapterIdentifier_default_steps (h : Host) (s : St) :
  let t := List.length (log s) in
  fst (GetAdapterIdentifier_default h s)
  = if LoadLibrary_d3d9 h t then
      if GetProcAddress_Direct3DCreate9 h (S t) then
        if Direct3DCreate9 h (S (S t)) then
          GetAdapterIdentifier h (S (S (S t)))
        else None
      else None
    else None.
Proof.
  cbv zeta. unfold GetAdapterIdentifier_default. logs.
  destruct (LoadLibrary_d3d9 h (List.length (log s))); [|reflexivity].
  logs. destruct (GetProcAddress_Direct3DCreate9 h _); [|reflexivity].
  logs. destruct (Direct3DCreate9 h _); [|reflexivity].
  logs. reflexivity.
Qed.

(** X12. With Direct3D, GetGpuInfo returns true exactly when the four
    steps succeed one after the other: d3d9.dll is loaded, Direct3DCreate9
    is found, the object is created and the adapter identifier is
    obtained.  When it returns false the struct is as the caller left
    it. *)
Theorem GetGpuInfo_d3d9_succeeds_iff (b : Build) (h : Host)
        (loc : numpunct) (i : GpuInfo) (s : St) :
  uses_d3d9 b = true ->
  let t := List.length (log s) in
  let r := fst (GetGpuInfo b h loc (Some i) s) in
  (fst r = true
   <-> LoadLibrary_d3d9 h t = true
       /\ GetProcAddress_Direct3DCreate9 h (S t) = true
       /\ Direct3DCreate9 h (S (S t)) = true
       /\ GetAdapterIdentifier h (S (S (S t))) <> None)
  /\ (fst r = false -> snd r = Some i).
Proof.
  intros Hd t r. unfold uses_d3d9 in Hd. subst r.
  assert (E : fst (GetAdapterIdentifier_default h s) = None ->
              fst (GetGpuInfo b h loc (Some i) s) = (false, Some i)).
  { unfold GetGpuInfo. rewrite Hd. rewrite bind_run. now intros ->. }
  assert (T : fst (fst (GetGpuInfo b h loc (Some i) s))
              = match fst (GetAdapterIdentifier_default h s) with
                | Some _ => true
                | None => false
                end).
  { unfold GetGpuInfo. rewrite Hd. rewrite bind_run.
    now destruct (fst (GetAdapterIdentifier_default h s)). }
  rewrite T. rewrite (GetAdapterIdentifier_default_steps h s) in *.
  fold t in E |- *.
  destruct (LoadLibrary_d3d9 h t);
    [destruct (GetProcAddress_Direct3DCreate9 h (S t));
     [destruct (Direct3DCreate9 h (S (S t)));
      [destruct (GetAdapterIdentifier h (S (S (S t))))|]|]|];
    (split; [split|]);
    try (intros (? & ? & ? & ?); congruence);
    try (intros; repeat split; discriminate);
    try discriminate;
    intros _; now rewrite E.
Qed.

Lemma GetGpuInfo_d3d9_succeeds_iff_witness :
  uses_d3d9 win_x64 = true
  /\ (fst (fst (GetGpuInfo win_x64 silent classic (Some blank) (fresh SI_ARCH_X64)))
      = false
      -> snd (fst (GetGpuInfo win_x64 silent classic (Some blank)
                              (fresh SI_ARCH_X64)))
         = Some blank).
Proof.
  split; [reflexivity|].
  exact (proj2 (GetGpuInfo_d3d9_succeeds_iff
                  win_x64 silent classic blank (fresh SI_ARCH_X64) eq_refl)).
Defined.

(** ** GetMemorySize *)

Lemma resolve_memory_failure (b : Build) (h : Host) (t : nat) :
  memory_source_fails b h t = true -> fst (resolve_memory b h t) = -1.
Proof.
  unfold memory_source_fails, resolve_memory.
  destruct (WIN32 b); [|destruct (OSX b || IOS b)]; cbn [fst].
  - destruct (GlobalMemoryStatusEx h t); [discriminate|reflexivity].
  - destruct (sysctl_int h "hw.memsize" t); [|reflexivity].
    now intros ->.
  - now intros ->.
Qed.

(** X13. GetMemorySize keeps what it resolved: a non-zero [memory_], -1
    included, is returned by every call, which asks nothing and changes
    nothing.  On an unresolved instance a failing source makes the call
    store and return -1, for good; and whatever non-zero value a call
    returns, every later call returns it without asking. *)
Theorem GetMemorySize_caches_for_good (b : Build) (h : Host) (s : St) :
  (memory_ (this s) <> 0 ->
   forall n,
     repeat_call (GetMemorySize b h) n s = (repeat (memory_ (this s)) n, s))
  /\ (memory_ (this s) = 0 ->
      memory_source_fails b h (List.length (log s)) = true ->
      exists s',
        GetMemorySize b h s = (-1, s')
        /\ memory_ (this s') = -1
        /\ forall n,
            repeat_call (GetMemorySize b h) n s' = (repeat (-1) n, s'))
  /\ (fst (GetMemorySize b h s) <> 0 ->
      forall n,
        repeat_call (GetMemorySize b h) n (snd (GetMemorySize b h s))
        = (repeat (fst (GetMemorySize b h s)) n, snd (GetMemorySize b h s))).
Proof.
  split; [|split].
  - intros Hc n. apply repeat_call_fixed. now apply GetMemorySize_cached.
  - intros Hc Hfail.
    pose proof (GetMemorySize_miss b h s Hc) as E. cbv zeta in E.
    rewrite (resolve_memory_failure _ _ _ Hfail) in E.
    eexists. split; [exact E|]. split; [reflexivity|].
    intros n. apply repeat_call_fixed. now rewrite GetMemorySize_cached.
  - intros Hr n. apply repeat_call_fixed.
    destruct (GetMemorySize_twice b h s) as [Hset _]. cbv zeta in Hset.
    rewrite (Hset Hr). now destruct (GetMemorySize b h s).
Qed.

Lemma GetMemorySize_caches_for_good_witness :
  (memory_ (this (fresh SI_ARCH_X64)) = 0
   /\ memory_source_fails linux_x64 silent
        (List.length (log (fresh SI_ARCH_X64))) = false
   /\ memory_source_fails osx_x64 silent
        (List.length (log (fresh SI_ARCH_X64))) = true)
  /\ exists s',
      GetMemorySize osx_x64 silent (fresh SI_ARCH_X64) = (-1, s')
      /\ memory_ (this s') = -1
      /\ forall n,
          repeat_call (GetMemorySize osx_x64 silent) n s' = (repeat (-1) n, s').
Proof.
  split; [repeat split|].
  exact (proj1 (proj2 (GetMemorySize_caches_for_good
                         osx_x64 silent (fresh SI_ARCH_X64)))
               eq_refl eq_refl).
Defined.

Lemma to_int64_small (z : Z) : - 2 ^ 63 <= z < 2 ^ 63 -> to_int64 z = z.
Proof. intros Hz. unfold to_int64. rewrite Z.mod_small; lia. Qed.

(** X14. On LINUX and ANDROID an unresolved GetMemorySize returns the
    number of pages times the page size whenever both are non-negative
    (as a long is) and the product fits 63 bits.  One failing sysconf (-1) beside a
    positive answer makes the product negative and the result -1; two
    failing sysconf give the product 1, which is returned as a size.  The
    result is never below -1. *)
Theorem GetMemorySize_linux_is_pages_times_page_size (b : Build) (h : Host)
        (s : St) :
  WIN32 b = false ->
  OSX b || IOS b = false ->
  memory_ (this s) = 0 ->
  let t := List.length (log s) in
  let pages := sysconf h "_SC_PHYS_PAGES" t in
  let size := sysconf h "_SC_PAGESIZE" (S t) in
  let bytes := fst (GetMemorySize b h s) in
  (0 <= pages < 2 ^ 63 -> 0 <= size < 2 ^ 63 -> pages * size < 2 ^ 63 ->
   bytes = pages * size)
  /\ (pages = -1 -> 0 < size < 2 ^ 63 -> bytes = -1)
  /\ (0 < pages < 2 ^ 63 -> size = -1 -> bytes = -1)
  /\ (pages = -1 -> size = -1 -> bytes = 1)
  /\ -1 <= bytes.
Proof.
  intros Hw Ha Hc t pages size bytes. subst bytes.
  rewrite (GetMemorySize_miss b h s Hc). unfold resolve_memory.
  rewrite Hw, Ha. cbn [fst]. fold t. fold pages. fold size.
  repeat split.
  - intros Hp Hs Hprod.
    rewrite (to_int64_small pages), (to_int64_small size) by lia.
    rewrite to_int64_small by nia.
    destruct (Z.ltb_spec (pages * size) 0); [nia|reflexivity].
  - intros -> Hs. rewrite (to_int64_small size) by lia.
    change (to_int64 (-1)) with (-1).
    rewrite to_int64_small by lia.
    destruct (Z.ltb_spec (-1 * size) 0); [reflexivity|lia].
  - intros Hp ->. rewrite (to_int64_small pages) by lia.
    change (to_int64 (-1)) with (-1).
    rewrite to_int64_small by lia.
    destruct (Z.ltb_spec (pages * -1) 0); [reflexivity|lia].
  - intros -> ->. reflexivity.
  - destruct (Z.ltb_spec (to_int64 (to_int64 pages * to_int64 size)) 0); lia.
Qed.

Lemma GetMemorySize_linux_is_pages_times_page_size_witness :
  (WIN32 linux_x64 = false
   /\ OSX linux_x64 || IOS linux_x64 = false
   /\ memory_ (this (fresh SI_ARCH_X64)) = 0)
  /\ fst (GetMemorySize linux_x64 eight_gigabytes (fresh SI_ARCH_X64))
     = 2097152 * 4096.
Proof.
  split; [repeat split|].
  exact (proj1 (GetMemorySize_linux_is_pages_times_page_size
                  linux_x64 eight_gigabytes (fresh SI_ARCH_X64)
                  eq_refl eq_refl eq_refl)
               ltac:(cbn; lia) ltac:(cbn; lia) ltac:(cbn; lia)).
Defined.

(** ** GetMachineModel, once more *)

(** X15. GetMachineModel keeps what it finds: on OSX and IOS a model
    name that is not empty is stored at the first successful read, which
    costs one query, and every later call returns it without asking,
    whatever the source would then say; on the other builds the call
    stores "Not available" without asking and every later call returns
    it. *)
Theorem GetMachineModel_caches_what_it_finds (b : Build) (h : Host) (s : St) :
  machine_model_ (this s) = "" ->
  (OSX b || IOS b = true ->
   forall text,
     sysctl_str h "hw.model" (List.length (log s)) = Some text ->
     text <> "" ->
     exists s',
       GetMachineModel b h s = (text, s')
       /\ log s' = log s ++ [QSysctl "hw.model"]
       /\ forall n,
           repeat_call (GetMachineModel b h) n s' = (repeat text n, s'))
  /\ (OSX b || IOS b = false ->
      exists s',
        GetMachineModel b h s = ("Not available", s')
        /\ log s' = log s
        /\ forall n,
            repeat_call (GetMachineModel b h) n s'
            = (repeat "Not available" n, s')).
Proof.
  intros Hc. pose proof (GetMachineModel_miss b h s Hc) as E.
  cbv zeta in E. unfold resolve_model in E. split.
  - intros Ha text Ht Hne. rewrite Ha, Ht in E. cbn [fst snd] in E.
    eexists. split; [exact E|]. split; [reflexivity|].
    intros n. apply repeat_call_fixed.
    now rewrite GetMachineModel_cached.
  - intros Ha. rewrite Ha in E. cbn [fst snd] in E.
    eexists. split; [exact E|]. split; [apply List.app_nil_r|].
    intros n. apply repeat_call_fixed.
    now rewrite GetMachineModel_cached.
Qed.

Lemma GetMachineModel_caches_what_it_finds_witness :
  (machine_model_ (this (fresh SI_ARCH_X64)) = ""
   /\ OSX osx_x64 || IOS osx_x64 = true
   /\ sysctl_str macbook "hw.model" (List.length (log (fresh SI_ARCH_X64)))
      = Some "MacBookAir1,1")
  /\ exists s',
      GetMachineModel osx_x64 macbook (fresh SI_ARCH_X64)
      = ("MacBookAir1,1", s')
      /\ log s' = [QSysctl "hw.model"]
      /\ forall n,
          repeat_call (GetMachineModel osx_x64 macbook) n s'
          = (repeat "MacBookAir1,1" n, s').
Proof.
  split; [repeat split|].
  exact (proj1 (GetMachineModel_caches_what_it_finds
                  osx_x64 macbook (fresh SI_ARCH_X64) eq_refl)
               eq_refl "MacBookAir1,1" eq_refl ltac:(discriminate)).
Defined.

(** ** GetCpuVendor, once more *)

Lemma c_str_ignores_the_rest (bs rest : list ascii) :
  c_str (bs ++ NUL :: rest) = c_str bs.
Proof.
  induction bs as [|c bs IH]; cbn.
  - reflexivity.
  - destruct (is_NUL c); [reflexivity|now rewrite IH].
Qed.

Lemma c_str_is_a_prefix (bs : list ascii) :
  c_str bs = string_of_bytes (firstn (strlen bs) bs)
  /\ (strlen bs <= List.length bs)%nat
  /\ Forall (fun c => c <> NUL) (firstn (strlen bs) bs).
Proof.
  induction bs as [|c bs (E & L & F)]; cbn.
  - repeat split; [lia|constructor].
  - unfold is_NUL. destruct (Ascii.eqb_spec c NUL) as [Ez|Hc]; cbn.
    + repeat split; [lia|constructor].
    + rewrite E. repeat split; [lia|now constructor].
Qed.

Lemma tag_bytes_length (r : Regs) : List.length (tag_bytes r) = 12%nat.
Proof. reflexivity. Qed.

(** X16. On an x86 build a call with an empty cache returns the bytes of
    the vendor tag that precede its first NUL: at most twelve, none of
    them NUL.  When the first byte of the tag is NUL the result is empty
    and the field stays empty, so the next call asks cpuid again. *)
Theorem GetCpuVendor_stops_at_the_first_NUL (b : Build) (h : Host) (s : St) :
  CPU_X86 b = true ->
  cpu_vendor_ (this s) = "" ->
  let tag := tag_bytes (cpuid h 0 (List.length (log s))) in
  let vendor := fst (GetCpuVendor b h s) in
  let s' := snd (GetCpuVendor b h s) in
  vendor = string_of_bytes (firstn (strlen tag) tag)
  /\ (String.length vendor <= 12)%nat
  /\ Forall (fun c => c <> NUL) (firstn (strlen tag) tag)
  /\ (strlen tag = O ->
      vendor = ""
      /\ log (snd (GetCpuVendor b h s')) = log s ++ [QCpuid 0; QCpuid 0]).
Proof.
  intros Hx Hc tag vendor s'. subst vendor s'.
  rewrite (GetCpuVendor_miss b h s Hc). unfold resolve_vendor.
  rewrite Hx. cbn [fst snd]. rewrite !bytes_of_int_to_int32.
  assert (E : c_str (bytes_of_int (reg2 (cpuid h 0 (List.length (log s))))
                     ++ bytes_of_int (reg4 (cpuid h 0 (List.length (log s))))
                     ++ bytes_of_int (reg3 (cpuid h 0 (List.length (log s))))
                     ++ bytes_of_int 0)
              = c_str tag).
  { change (bytes_of_int 0) with (NUL :: [NUL; NUL; NUL]).
    rewrite !app_assoc. rewrite c_str_ignores_the_rest.
    unfold tag, tag_bytes. now rewrite <- app_assoc. }
  rewrite E. destruct (c_str_is_a_prefix tag) as (P & L & F).
  rewrite P. repeat split.
  - rewrite string_of_bytes_length, length_firstn.
    unfold tag in *. rewrite tag_bytes_length in *. lia.
  - exact F.
  - match goal with H : strlen tag = O |- _ => now rewrite H end.
  - match goal with H : strlen tag = O |- _ => rewrite H end.
    cbn [firstn string_of_bytes].
    rewrite GetCpuVendor_miss by reflexivity. unfold resolve_vendor.
    rewrite Hx. cbn [fst snd log]. now rewrite snoc_snoc.
Qed.

Lemma GetCpuVendor_stops_at_the_first_NUL_witness :
  (CPU_X86 linux_x64 = true /\ cpu_vendor_ (this (fresh SI_ARCH_X64)) = "")
  /\ fst (GetCpuVendor linux_x64 short_tag (fresh SI_ARCH_X64)) = "Geni".
Proof.
  split; [split; reflexivity|].
  exact (proj1 (GetCpuVendor_stops_at_the_first_NUL
                  linux_x64 short_tag (fresh SI_ARCH_X64) eq_refl eq_refl)).
Defined.

(** ** What stays fixed after construction *)

Lemma GetMaxCpuSpeed_keeps_fixed (b : Build) (h : Host) (s : St) :
  fixed_at_construction (this (snd (GetMaxCpuSpeed b h s)))
  = fixed_at_construction (this s).
Proof. unfold GetMaxCpuSpeed. run. split_branches; reflexivity. Qed.

Lemma perform_keeps_fixed (b : Build) (h : Host) (op : Operation) (s : St) :
  fixed_at_construction (this (perform b h op s))
  = fixed_at_construction (this s).
Proof.
  destruct op as [a| |loc info]; cbn [perform].
  - destruct a; cbn [call]; try reflexivity.
    + unfold GetCpuVendor. run. split_branches; reflexivity.
    + rewrite fmap_run. apply GetMaxCpuSpeed_keeps_fixed.
    + unfold GetMemorySize. run. split_branches; reflexivity.
    + unfold GetMachineModel. run. split_branches; reflexivity.
  - unfold GetCurCpuSpeed. run.
    split_branches; cbn [snd this]; try reflexivity;
      try apply GetMaxCpuSpeed_keeps_fixed.
    exact (GetMaxCpuSpeed_keeps_fixed b h (mkSt (this s) _)).
  - unfold GetGpuInfo, GetAdapterIdentifier_default, GetProperty_int,
      GetProperty_string. run.
    destruct info; [|reflexivity]. split_branches; reflexivity.
Qed.

Lemma ctor_win32_keeps_arch_and_speed (h : Host) (fuel : nat) (s s' : St) :
  ctor_win32 h fuel s = Some s' ->
  arch_and_speed (this s') = arch_and_speed (this s).
Proof.
  unfold ctor_win32. run.
  destruct (GetProcessorInformation h fuel _) as [s3|] eqn:G; [|discriminate].
  intros E. injection E as <-.
  unfold ctor_win32_rest. repeat (rewrite bind_run; cbv beta).
  repeat peel (@arch_and_speed).
  apply GetProcessorInformation_writes in G
    as [[-> _]|(t & infos & _ & ->)]; reflexivity.
Qed.

Lemma SystemInfo_ctor_arch_and_speed (b : Build) (h : Host) (fuel : nat)
      (s : St) (arch : Architecture) :
  cpu_arch_of_build b = Some arch ->
  SystemInfo_ctor b h fuel = Some s ->
  cpu_arch_ (this s) = arch
  /\ (WIN32 b = true \/ OSX b || IOS b = true -> cpu_speed_ (this s) = 0).
Proof.
  intros Harch. unfold SystemInfo_ctor. rewrite Harch.
  destruct (WIN32 b); [|destruct (OSX b || IOS b)].
  - destruct (ctor_win32 h fuel _) as [s1|] eqn:C; [|discriminate].
    intros E. injection E as <-.
    apply ctor_win32_keeps_arch_and_speed in C.
    assert (K : arch_and_speed (this (snd (ctor_cpuid b h s1)))
                = arch_and_speed (this s1))
      by now apply ctor_cpuid_keeps.
    rewrite C in K. unfold arch_and_speed in K. cbn in K.
    injection K as -> ->. auto.
  - intros E. injection E as <-.
    assert (K : arch_and_speed
                  (this (snd (ctor_cpuid b h
                                (snd (ctor_apple h
                                        (mkSt (initializers arch) []))))))
                = (arch, 0)).
    { rewrite ctor_cpuid_keeps by reflexivity.
      unfold ctor_apple. repeat (rewrite bind_run; cbv beta).
      repeat peel (@arch_and_speed). reflexivity. }
    unfold arch_and_speed in K. injection K as -> ->. auto.
  - intros E. injection E as <-. split.
    + rewrite (ctor_cpuid_keeps cpu_arch_) by reflexivity.
      unfold ctor_linux. repeat (rewrite bind_run; cbv beta).
      repeat peel cpu_arch_. reflexivity.
    + intros [H|H]; discriminate.
Qed.

(** X17. The two processor counts and the architecture are fixed by the
    constructor: no operation of the class changes what GetMaxCpus,
    GetMaxPhysicalCpus and GetCpuArchitecture return, in any sequence of
    calls.  The architecture of a constructed instance is the one of the
    build, where CPU_ARM wins over the x86 symbols and the 64-bit symbol
    over the 32-bit one. *)
Theorem counts_and_architecture_are_fixed (b : Build) (h : Host)
        (ops : list Operation) (s : St) :
  (GetMaxCpus (perform_all b h ops s),
   GetMaxPhysicalCpus (perform_all b h ops s),
   GetCpuArchitecture (perform_all b h ops s))
  = ((fst (GetMaxCpus s), perform_all b h ops s),
     (fst (GetMaxPhysicalCpus s), perform_all b h ops s),
     (fst (GetCpuArchitecture s), perform_all b h ops s))
  /\ (forall fuel s0,
         SystemInfo_ctor b h fuel = Some s0 ->
         fst (GetCpuArchitecture (perform_all b h ops s0))
         = if CPU_ARM b then SI_ARCH_ARM
           else if def_x86_64 b then SI_ARCH_X64 else SI_ARCH_X86).
Proof.
  assert (F : forall s1,
             fixed_at_construction (this (perform_all b h ops s1))
             = fixed_at_construction (this s1)).
  { induction ops as [|op ops IH]; intros s1; [reflexivity|].
    cbn. unfold perform_all in IH. rewrite IH. apply perform_keeps_fixed. }
  split.
  - pose proof (F s) as E. unfold fixed_at_construction in E.
    injection E as E1 E2 E3.
    unfold GetMaxCpus, GetMaxPhysicalCpus, GetCpuArchitecture, get.
    cbn [fst]. now rewrite E1, E2, E3.
  - intros fuel s0 Hs0.
    pose proof (F s0) as E. unfold fixed_at_construction in E.
    injection E as _ _ E3.
    unfold GetCpuArchitecture, get. cbn [fst]. rewrite E3.
    destruct (cpu_arch_of_build b) as [arch|] eqn:Harch.
    + destruct (SystemInfo_ctor_arch_and_speed b h fuel s0 arch Harch Hs0)
        as [-> _].
      unfold cpu_arch_of_build in Harch.
      destruct (CPU_ARM b); [congruence|].
      destruct (def_x86_64 b); [congruence|].
      destruct (def_i386 b); congruence.
    + unfold SystemInfo_ctor in Hs0. rewrite Harch in Hs0. discriminate.
Qed.

Lemma counts_and_architecture_are_fixed_witness :
  (exists s0, SystemInfo_ctor linux_x64 scaled_down 0 = Some s0)
  /\ exists s0,
      SystemInfo_ctor linux_x64 scaled_down 0 = Some s0
      /\ fst (GetCpuArchitecture
                (perform_all linux_x64 scaled_down
                   [OpStable AGetMemorySize; OpGetCurCpuSpeed;
                    OpStable AGetCpuVendor] s0))
         = SI_ARCH_X64.
Proof.
  split; [eexists; reflexivity|].
  eexists. split; [reflexivity|].
  exact (proj2 (counts_and_architecture_are_fixed
                  linux_x64 scaled_down
                  [OpStable AGetMemorySize; OpGetCurCpuSpeed;
                   OpStable AGetCpuVendor] (fresh SI_ARCH_X64))
               0%nat _ eq_refl).
Defined.

(** X18. When the constructor returns.  A build that defines none of
    CPU_ARM, the x86-64 symbols and the x86 symbols stops at [#error].
    Any other build that is not WIN32 returns, with no fuel at all.  On
    WIN32 the constructor returns when the entry point of the enumeration
    is missing, and otherwise as soon as the fuel exceeds the number of
    answers "buffer too small" that precede another answer. *)
Theorem SystemInfo_ctor_returns_when (b : Build) (h : Host) :
  (cpu_arch_of_build b = None -> forall fuel, SystemInfo_ctor b h fuel = None)
  /\ (cpu_arch_of_build b <> None ->
      WIN32 b = false ->
      forall fuel, SystemInfo_ctor b h fuel <> None)
  /\ (cpu_arch_of_build b <> None ->
      GetProcAddress_glpi h 1 = false ->
      forall fuel, SystemInfo_ctor b h fuel <> None)
  /\ (cpu_arch_of_build b <> None ->
      forall n fuel,
        GetLogicalProcessorInformation h (2 + n) <> GlpiInsufficientBuffer ->
        (n < fuel)%nat ->
        SystemInfo_ctor b h fuel <> None).
Proof.
  split; [|split; [|split]].
  - intros Harch fuel. unfold SystemInfo_ctor. now rewrite Harch.
  - intros Harch Hw fuel.
    apply (SystemInfo_ctor_returns b h 0 (S fuel)) in Harch; try lia.
    + unfold SystemInfo_ctor in *. rewrite Hw in *. exact Harch.
    + rewrite Hw. discriminate.
  - intros Harch Hp fuel. unfold SystemInfo_ctor.
    destruct (cpu_arch_of_build b) as [arch|]; [|congruence].
    destruct (WIN32 b); [|destruct (OSX b || IOS b); discriminate].
    unfold ctor_win32, GetProcessorInformation. run.
    cbn [Datatypes.length app]. rewrite Hp. discriminate.
  - intros Harch n fuel Hn Hf.
    apply (SystemInfo_ctor_returns b h n fuel); auto.
Qed.

Lemma SystemInfo_ctor_returns_when_witness :
  (cpu_arch_of_build win_x64 <> None
   /\ GetLogicalProcessorInformation two_cores (2 + 1)
      <> GlpiInsufficientBuffer
   /\ (1 < 2)%nat)
  /\ SystemInfo_ctor win_x64 two_cores 2 <> None.
Proof.
  assert (A : cpu_arch_of_build win_x64 <> None) by discriminate.
  assert (G : GetLogicalProcessorInformation two_cores (2 + 1)
              <> GlpiInsufficientBuffer) by discriminate.
  split; [repeat split; [exact A|exact G|lia]|].
  exact (proj2 (proj2 (proj2 (SystemInfo_ctor_returns_when win_x64 two_cores)))
               A 1%nat 2%nat G ltac:(lia)).
Defined.

(** X19. Construction resolves none of the lazily cached facts: the vendor
    string, the memory size and the machine model are unset on every
    build, and the nominal speed is unset on WIN32, OSX and IOS.  So the
    first GetMemorySize on a constructed instance always asks its source,
    and so does the first GetMaxCpuSpeed on WIN32, OSX and IOS. *)
Theorem construction_resolves_nothing_lazy (b : Build) (h : Host)
        (fuel : nat) (s : St) :
  SystemInfo_ctor b h fuel = Some s ->
  (cpu_vendor_ (this s) = "" /\ memory_ (this s) = 0
   /\ machine_model_ (this s) = "")
  /\ (exists q rest, log (snd (GetMemorySize b h s)) = log s ++ q :: rest)
  /\ (WIN32 b = true \/ OSX b || IOS b = true ->
      cpu_speed_ (this s) = 0
      /\ exists q rest,
          log (snd (GetMaxCpuSpeed b h s)) = log s ++ q :: rest).
Proof.
  intros Hs.
  pose proof (SystemInfo_ctor_fills_nothing b h fuel s Hs) as F.
  unfold filled_on_demand in F. injection F as Fv Fm Fmm.
  split; [auto|]. split.
  - rewrite (GetMemorySize_miss b h s Fm). unfold resolve_memory.
    destruct (WIN32 b); [|destruct (OSX b || IOS b)]; cbn [snd log]; eauto.
  - intros Hb.
    assert (Hz : cpu_speed_ (this s) = 0).
    { destruct (cpu_arch_of_build b) as [arch|] eqn:Harch.
      - now apply (SystemInfo_ctor_arch_and_speed b h fuel s arch Harch Hs).
      - unfold SystemInfo_ctor in Hs. rewrite Harch in Hs. discriminate. }
    split; [exact Hz|].
    rewrite (GetMaxCpuSpeed_miss b h s Hz). unfold resolve_speed.
    destruct (WIN32 b).
    + destruct (RegOpenKeyEx_cpu0 h _); cbn [snd log]; eauto.
    + destruct Hb as [Hb|Hb]; [discriminate|].
      rewrite orb_comm, Hb. cbn [snd log]. eauto.
Qed.

Lemma construction_resolves_nothing_lazy_witness :
  (exists s, SystemInfo_ctor osx_x64 macbook 0 = Some s)
  /\ exists s,
      SystemInfo_ctor osx_x64 macbook 0 = Some s
      /\ machine_model_ (this s) = "".
Proof.
  split; [eexists; reflexivity|].
  eexists. split; [reflexivity|].
  exact (proj2 (proj2 (proj1 (construction_resolves_nothing_lazy
                                osx_x64 macbook 0 _ eq_refl)))).
Defined.

(** X20. The value the cpuid step stores never overflows an int: starting
    from a cache size of 0, the cache size after the step is a multiple
    of 1024 between -32768 * 1024 and 32767 * 1024, and it is not
    negative when bit 31 of the third register is clear. *)
Theorem cpuid_cache_size_fits_an_int (b : Build) (h : Host) (s : St) :
  cache_size_ (this s) = 0 ->
  let c := cache_size_ (this (snd (ctor_cpuid b h s))) in
  c mod 1024 = 0
  /\ -32768 * 1024 <= c <= 32767 * 1024
  /\ (0 <= reg3 (cpuid h 0x80000006 (S (List.length (log s)))) < 2 ^ 31 ->
      0 <= c).
Proof.
  intros Hc c. subst c. rewrite ctor_cpuid_result. cbn [snd].
  destruct (CPU_X86 b && (cache_size_ (this s) =? 0));
    [destruct (_ >=? _)|]; cbn [this cache_size_ set_cache_size];
    rewrite ?Hc; try (repeat split; intros; lia).
  pose proof (high_half_range
                (reg3 (cpuid h 0x80000006 (S (List.length (log s)))))) as R.
  repeat split; try lia.
  - apply Z.mod_mul. lia.
  - intros Hr. rewrite (high_half_bits _ Hr). unfold bits_16_31.
    assert (0 <= Z.land
                   (Z.shiftr
                      (reg3 (cpuid h 0x80000006 (S (List.length (log s)))))
                      16) 65535)
      by (apply Z.land_nonneg; right; lia).
    lia.
Qed.

Lemma cpuid_cache_size_fits_an_int_witness :
  cache_size_ (this (fresh SI_ARCH_X64)) = 0
  /\ cache_size_ (this (snd (ctor_cpuid linux_x64 four_megabytes
                                         (fresh SI_ARCH_X64))))
     mod 1024 = 0.
Proof.
  split; [reflexivity|].
  exact (proj1 (cpuid_cache_size_fits_an_int
                  linux_x64 four_megabytes (fresh SI_ARCH_X64) eq_refl)).
Defined.

(** X3. On OSX and IOS GetMemorySize never returns 0, on any instance:
    an unresolved call returns the size that [hw.memsize] reports when
    that size is not zero, and -1 otherwise. *)
Theorem GetMemorySize_apple_is_the_size_or_minus_one (b : Build) (h : Host)
        (s : St) :
  WIN32 b = false ->
  OSX b || IOS b = true ->
  fst (GetMemorySize b h s) <> 0
  /\ (memory_ (this s) = 0 ->
      fst (GetMemorySize b h s)
      = match sysctl_int h "hw.memsize" (List.length (log s)) with
        | Some v => if to_int64 v =? 0 then -1 else to_int64 v
        | None => -1
        end).
Proof.
  intros Hw Ha. split.
  - now apply GetMemorySize_apple_never_zero.
  - intros Hc. rewrite (GetMemorySize_miss b h s Hc). unfold resolve_memory.
    now rewrite Hw, Ha.
Qed.

Lemma GetMemorySize_apple_is_the_size_or_minus_one_witness :
  (WIN32 osx_x64 = false /\ OSX osx_x64 || IOS osx_x64 = true)
  /\ fst (GetMemorySize osx_x64 silent (fresh SI_ARCH_X64)) <> 0.
Proof.
  split; [split; reflexivity|].
  exact (proj1 (GetMemorySize_apple_is_the_size_or_minus_one
                  osx_x64 silent (fresh SI_ARCH_X64) eq_refl eq_refl)).
Defined.

(** ** GetMaxCpuSpeed, once more *)

(** X21. GetMaxCpuSpeed keeps what it resolved: a non-zero [cpu_speed_],
    -1 included, is returned by every later call, which asks nothing and
    changes nothing.  With [cpu_speed_] zero the call stores and returns
    what [resolve_speed] yields and logs what it asked; when the source of
    the WIN32 or of the IOS/OSX branch fails that is -1, and every later
    call returns -1 without asking again. *)
Theorem GetMaxCpuSpeed_caches_for_good (b : Build) (h : Host) (s : St) :
  (cpu_speed_ (this s) <> 0 ->
   forall n,
     repeat_call (GetMaxCpuSpeed b h) n s
     = (repeat (cpu_speed_ (this s)) n, s))
  /\ (cpu_speed_ (this s) = 0 ->
      let r := resolve_speed b h (List.length (log s)) in
      GetMaxCpuSpeed b h s
      = (fst r, mkSt (set_cpu_speed (fst r) (this s)) (log s ++ snd r)))
  /\ (cpu_speed_ (this s) = 0 ->
      speed_source_fails b h (List.length (log s)) = true ->
      exists s',
        GetMaxCpuSpeed b h s = (-1, s')
        /\ cpu_speed_ (this s') = -1
        /\ forall n,
            repeat_call (GetMaxCpuSpeed b h) n s' = (repeat (-1) n, s')).
Proof.
  split; [|split].
  - intros Hc n. apply repeat_call_fixed. now apply GetMaxCpuSpeed_cached.
  - apply GetMaxCpuSpeed_miss.
  - intros Hc Hfail.
    pose proof (GetMaxCpuSpeed_miss b h s Hc) as E. cbv zeta in E.
    rewrite (resolve_speed_failure _ _ _ Hfail) in E.
    eexists. split; [exact E|]. split; [reflexivity|].
    intros n. apply repeat_call_fixed.
    now rewrite GetMaxCpuSpeed_cached.
Qed.

Lemma GetMaxCpuSpeed_caches_for_good_witness :
  (cpu_speed_ (this (fresh SI_ARCH_X64)) = 0
   /\ speed_source_fails osx_x64 silent
        (List.length (log (fresh SI_ARCH_X64))) = true)
  /\ exists s',
      GetMaxCpuSpeed osx_x64 silent (fresh SI_ARCH_X64) = (-1, s')
      /\ cpu_speed_ (this s') = -1
      /\ forall n,
          repeat_call (GetMaxCpuSpeed osx_x64 silent) n s'
          = (repeat (-1) n, s').
Proof.
  split; [split; reflexivity|].
  exact (proj2 (proj2 (GetMaxCpuSpeed_caches_for_good
                         osx_x64 silent (fresh SI_ARCH_X64)))
               eq_refl eq_refl).
Defined.

(** ** The physical count outside WIN32 *)

(** X22. The test [physical_cpus_ <= 0] that makes the constructor fall
    back to the logical count stands in the WIN32 branch only.  On OSX,
    IOS, LINUX and ANDROID the count the source reports is stored as it
    is, whatever it is: a reported 0 makes GetMaxPhysicalCpus() return
    0. *)
Theorem reported_physical_count_is_kept (b : Build) (h : Host) (fuel : nat)
        (s : St) (c : Z) :
  SystemInfo_ctor b h fuel = Some s ->
  WIN32 b = false ->
  physical_report b h (Some c) ->
  GetMaxPhysicalCpus s = (c, s).
Proof.
  unfold SystemInfo_ctor, GetMaxPhysicalCpus, get, physical_report.
  destruct (cpu_arch_of_build b) as [arch|]; [|discriminate].
  intros E Hw. rewrite Hw in *. intros Hr. f_equal.
  change (physical_cpus_ (this s)) with (fst (counts (this s))).
  destruct (OSX b || IOS b); injection E as <-; rewrite ctor_cpuid_counts.
  - rewrite ctor_apple_counts. cbn [fst].
    destruct (sysctl_int h "hw.physicalcpu_max" 0); cbn in Hr; congruence.
  - rewrite ctor_linux_counts.
    destruct (LoadFromSystem h 0) as [p|]; [|discriminate].
    cbn [fst]. destruct (GetNumPhysicalCpus p); cbn in Hr; congruence.
Qed.

Lemma reported_physical_count_is_kept_witness :
  exists s,
    SystemInfo_ctor osx_x64 no_cores 0 = Some s
    /\ physical_report osx_x64 no_cores (Some 0)
    /\ GetMaxPhysicalCpus s = (0, s)
    /\ GetMaxCpus s = (4, s).
Proof.
  eexists. split; [reflexivity|]. split; [reflexivity|].
  split; [|reflexivity].
  exact (reported_physical_count_is_kept
           osx_x64 no_cores 0 _ 0 eq_refl eq_refl eq_refl).
Defined.
